(** * FEM-automation (bridge_psci): a shallow embedding and its properties

    The development follows the package layout of the repository:

    - [Py]          the fragment of Python that the code relies on (exceptions,
                    dynamic values, indexing, numeric conversions);
    - [Ops]         the OpenSees solver seen as a recorder of commands;
    - [Config]      [bridge_psci/config.py];
    - [Builder]     [bridge_psci/model/builder.py];
    - [Modal]       [bridge_psci/analysis/modal.py];
    - [MovingLoad]  [bridge_psci/analysis/moving_load.py].

    Python [float]s and numpy [float64]s are idealised as exact rationals
    ([Q]) where the code computes a real quantity (a coordinate, a mass, a
    stiffness, a load); an operation whose IEEE result would be [inf] or
    [nan] (a numpy division by zero) is reported by the outcome [NonFinite]
    instead of being given a rational value.  Where the code derives an
    integer or an index from floats ([int(L / self.m * 5)], [np.round] and
    [np.cumsum] feeding [np.isin]) the binary64 rounding of every operation
    is kept, by [Py.round64].  Module [Binary64] evaluates single expressions
    of the source on the machine's binary64 numbers, where a property
    depends on the last place.  Strings are sequences of code points below
    256. *)

From Stdlib Require Import ZArith QArith Qround Qabs Lia Lqa String List Sorted.
From Stdlib Require Import Floats.PrimFloat Floats.SpecFloat Floats.FloatOps.
From stdpp Require Import base option list gmap strings sorting pretty.

Local Open Scope Z_scope.

(* ===================================================================== *)
(** * Python fragment *)
(* ===================================================================== *)

Module Py.

(** Exceptions the modelled code can raise.  [OpenSeesError] is the
    exception of [openseespy].  [NonFinite] is not a Python exception: numpy
    returns [inf]/[nan] (with a warning) when a float64 is divided by zero,
    values that have no rational counterpart. *)
Inductive exn : Type :=
| KeyError (key : string)
| NameError (name : string)
| AttributeError (attr : string)
| IndexError
| TypeError
| ValueError
| ZeroDivisionError
| ImportError
| OverflowError
| OpenSeesError
| NonFinite.

Inductive result (A : Type) : Type :=
| Ok (a : A)
| Raise (e : exn).
Arguments Ok {A} a.
Arguments Raise {A} e.

#[export] Instance result_ret : MRet result := fun A a => Ok a.
#[export] Instance result_bind : MBind result :=
  fun A B f m => match m with Ok a => f a | Raise e => Raise e end.
#[export] Instance result_fmap : FMap result :=
  fun A B f m => match m with Ok a => Ok (f a) | Raise e => Raise e end.

Definition mjoin_result {A} (m : result (result A)) : result A :=
  match m with Ok r => r | Raise e => Raise e end.

Definition is_ok {A} (m : result A) : bool :=
  match m with Ok _ => true | Raise _ => false end.

Definition raises {A} (m : result A) : Prop := exists e, m = Raise e.

(** [for x in xs: acc = body(acc, x)] with exceptions. *)
Fixpoint foldM {A B} (body : A -> B -> result A) (acc : A) (xs : list B) : result A :=
  match xs with
  | [] => Ok acc
  | x :: xs' => acc' ← body acc x; foldM body acc' xs'
  end.

(** [[f(x) for x in xs]] with exceptions. *)
Fixpoint mapM {A B} (f : A -> result B) (xs : list A) : result (list B) :=
  match xs with
  | [] => Ok []
  | x :: xs' => y ← f x; ys ← mapM f xs'; Ok (y :: ys)
  end.

(** [range(lo, hi)]. *)
Definition range (lo hi : Z) : list Z :=
  map (fun k => lo + Z.of_nat k) (seq 0 (Z.to_nat (hi - lo))).

(** [enumerate(xs)]. *)
Definition enumerate {A} (xs : list A) : list (nat * A) :=
  combine (seq 0 (length xs)) xs.

(** Sequence subscript [l[i]]: a negative index counts from the end, an index
    out of range raises [IndexError]. *)
Definition getitem {A} (l : list A) (i : Z) : result A :=
  let n := Z.of_nat (length l) in
  let j := if i <? 0 then i + n else i in
  if (0 <=? j) && (j <? n) then
    match l !! Z.to_nat j with
    | Some x => Ok x
    | None => Raise IndexError
    end
  else Raise IndexError.

(** Item assignment [l[i] = v]. *)
Definition setitem {A} (l : list A) (i : Z) (v : A) : result (list A) :=
  let n := Z.of_nat (length l) in
  let j := if i <? 0 then i + n else i in
  if (0 <=? j) && (j <? n) then Ok (<[Z.to_nat j := v]> l) else Raise IndexError.

(** Comparisons of floats. *)
Definition Qltb (x y : Q) : bool := negb (Qle_bool y x).
Definition Qleb (x y : Q) : bool := Qle_bool x y.

(** Division of numpy [float64] values: a zero divisor gives [inf] or [nan]
    and a warning, never an exception. *)
Definition np_div (x y : Q) : result Q :=
  if Qeq_bool y 0 then Raise NonFinite else Ok (x / y)%Q.

(** Division of Python [float]s: a zero divisor raises. *)
Definition py_div (x y : Q) : result Q :=
  if Qeq_bool y 0 then Raise ZeroDivisionError else Ok (x / y)%Q.

(** An insertion-ordered dictionary with integer keys, as Python's [dict]:
    assignment to an existing key keeps its position. *)
Definition dict (V : Type) : Type := list (Z * V).

Fixpoint dict_get {V} (d : dict V) (k : Z) : option V :=
  match d with
  | [] => None
  | (k', v) :: d' => if Z.eqb k' k then Some v else dict_get d' k
  end.

Fixpoint dict_set {V} (d : dict V) (k : Z) (v : V) : dict V :=
  match d with
  | [] => [(k, v)]
  | (k', v') :: d' => if Z.eqb k' k then (k, v) :: d' else (k', v') :: dict_set d' k v
  end.

(** [d[k]]: a missing key raises [KeyError]. *)
Definition dict_item {V} (d : dict V) (k : Z) : result V :=
  match dict_get d k with
  | Some v => Ok v
  | None => Raise (KeyError "")
  end.

(** *** Dynamically typed values *)

#[local] Set Warnings "-register-all".

(** The values a parameter dictionary holds: numbers, strings, lists, and
    one- and two-dimensional numpy arrays. *)
Inductive pyval : Type :=
| PInt (z : Z)
| PFloat (q : Q)
| PStr (s : string)
| PList (l : list pyval)
| PArray (a : list Q)
| PTable (t : list (list Q))
| PNone.

(** [float(s)] and [int(s)] on a string: the parsers of the interpreter,
    which answer [None] when they raise [ValueError] (and for a string that
    denotes [inf] or [nan], which no rational stands for). *)
Record str_parsers : Type := {
  float_of_string : string -> option Q;
  int_of_string : string -> option Z
}.

(** Parsers that reject every string. *)
Definition no_strings : str_parsers :=
  {| float_of_string := fun _ => None; int_of_string := fun _ => None |}.

(** Truncation toward zero, as [int(x)] on a float. *)
Definition Qtrunc (q : Q) : Z :=
  if Qle_bool 0 q then Qfloor q else Qceiling q.

(** [float(n)] on an [int] raises [OverflowError] when [n], rounded to 53
    bits, does not fit binary64: from [2 ^ 1024 - 2 ^ 970] on. *)
Definition int_fits_float (z : Z) : bool := Z.abs z <? 2 ^ 1024 - 2 ^ 970.

Section Conversions.

Context (parsers : str_parsers).

(** [float(v)].  A list, [None] and (numpy 2) an array of one or two
    dimensions raise [TypeError]. *)
Definition py_float (v : pyval) : result Q :=
  match v with
  | PInt z => if int_fits_float z then Ok (inject_Z z) else Raise OverflowError
  | PFloat q => Ok q
  | PStr s =>
      match float_of_string parsers s with
      | Some q => Ok q
      | None => Raise ValueError
      end
  | _ => Raise TypeError
  end.

(** [int(v)]. *)
Definition py_int (v : pyval) : result Z :=
  match v with
  | PInt z => Ok z
  | PFloat q => Ok (Qtrunc q)
  | PStr s =>
      match int_of_string parsers s with
      | Some z => Ok z
      | None => Raise ValueError
      end
  | _ => Raise TypeError
  end.

End Conversions.

(** [list(v)]. *)
Definition py_list (v : pyval) : result (list pyval) :=
  match v with
  | PList l => Ok l
  | PArray a => Ok (map PFloat a)
  | PTable t => Ok (map PArray t)
  | PStr s => Ok (map (fun c => PStr (String c EmptyString)) (list_ascii_of_string s))
  | _ => Raise TypeError
  end.

(** A number used in arithmetic. *)
Definition as_num (v : pyval) : result Q :=
  match v with
  | PInt z => Ok (inject_Z z)
  | PFloat q => Ok q
  | _ => Raise TypeError
  end.

(** Parameter dictionaries, keyed by strings. *)
Abbreviation params := (gmap string pyval).

(** [p[key]]. *)
Definition subscript (p : params) (key : string) : result pyval :=
  match p !! key with
  | Some v => Ok v
  | None => Raise (KeyError key)
  end.

(** [p.get(key, default)]. *)
Definition get (p : params) (key : string) (default : pyval) : pyval :=
  match p !! key with
  | Some v => v
  | None => default
  end.

(** [p.update(other)]. *)
Definition update (p other : params) : params := other ∪ p.

(** [[x] * n]: repetition of a list, empty for a non-positive count. *)
Definition list_repeat {A} (l : list A) (n : Z) : list A :=
  concat (replicate (Z.to_nat n) l).

(** [s.lower()] and [s.strip()] on strings of code points below 256.
    There [str.lower] maps [A]-[Z] (65-90) and the capital letters 192-222
    other than the sign 215 to the code point 32 above, and [str.strip]
    removes the code points 9-13, 28-32, 133 and 160, for which
    [str.isspace] holds. *)
Definition ascii_lower (c : Ascii.ascii) : Ascii.ascii :=
  let n := Ascii.nat_of_ascii c in
  if ((65 <=? n)%nat && (n <=? 90)%nat)
     || ((192 <=? n)%nat && (n <=? 222)%nat && negb (n =? 215)%nat)
  then Ascii.ascii_of_nat (n + 32) else c.

Definition str_lower (s : string) : string :=
  string_of_list_ascii (map ascii_lower (list_ascii_of_string s)).

Definition is_space (c : Ascii.ascii) : bool :=
  let n := Ascii.nat_of_ascii c in
  ((9 <=? n)%nat && (n <=? 13)%nat) || ((28 <=? n)%nat && (n <=? 32)%nat)
  || (n =? 133)%nat || (n =? 160)%nat.

Fixpoint lstrip (l : list Ascii.ascii) : list Ascii.ascii :=
  match l with
  | c :: l' => if is_space c then lstrip l' else l
  | [] => []
  end.

Definition str_strip (s : string) : string :=
  string_of_list_ascii (rev (lstrip (rev (lstrip (list_ascii_of_string s))))).

(** *** numpy on one-dimensional float arrays *)

(** [np.rint]: the nearest integer, a half going to the even one. *)
Definition rint (y : Q) : Z :=
  let f := Qfloor y in
  let frac := (y - inject_Z f)%Q in
  if Qltb frac (1 # 2) then f
  else if Qltb (1 # 2) frac then (f + 1)%Z
  else if Z.even f then f else (f + 1)%Z.

(** *** Rounding to binary64 *)

(** [2 ^ e], for an exponent of either sign. *)
Definition Qpow2 (e : Z) : Q :=
  if 0 <=? e then inject_Z (2 ^ e) else 1 # Pos.pow 2 (Z.to_pos (- e)).

(** The exponent [k] with [2 ^ k <= a < 2 ^ (k + 1)], for a positive [a]. *)
Definition floor_log2 (a : Q) : Z :=
  let k := Z.log2 (Qnum a) - Z.log2 (Zpos (Qden a)) in
  if Qle_bool (Qpow2 k) a then k else k - 1.

(** The binary64 number nearest to [q], a tie going to the even
    significand: 53 significant bits, the last place no finer than
    [2 ^ -1074].  A number that is a binary64 value is returned as it is.
    The range is not bounded above: a result that binary64 would turn into
    [inf] is outside the idealisation. *)
Definition round64 (q : Q) : Q :=
  if Qeq_bool q 0 then q else
  let a := Qabs q in
  let e := Z.max (floor_log2 a - 52) (-1074) in
  let r := Qred (inject_Z (rint (a / Qpow2 e)) * Qpow2 e) in
  let r := if Qle_bool 0 q then r else (- r)%Q in
  if Qeq_bool r q then q else r.

(** Whether a real result is within the range of binary64: beyond it the
    machine number is [inf]. *)
Definition finite64 (q : Q) : bool := Qltb (Qabs q) (inject_Z (2 ^ 1024 - 2 ^ 970)).

(** [np.round(x, 3)]: numpy multiplies by [10 ** 3], applies [rint] and
    divides by [10 ** 3], in binary64. *)
Definition np_round3 (x : Q) : Q :=
  round64 (inject_Z (rint (round64 (x * 1000))) / 1000).

(** [np.cumsum], a running sum in binary64. *)
Fixpoint cumsum_from (acc : Q) (l : list Q) : list Q :=
  match l with
  | [] => []
  | x :: l' => round64 (acc + x) :: cumsum_from (round64 (acc + x)) l'
  end.

Definition np_cumsum (l : list Q) : list Q := cumsum_from 0 l.

(** [np.arange(0, stop, 1.0, dtype=np.float32)]: the integers below [stop],
    which float32 holds exactly up to [2 ^ 24].  A [stop] so large that
    numpy cannot allocate the array is outside the model. *)
Definition np_arange_unit (stop : Q) : list Q := map inject_Z (range 0 (Qceiling stop)).

(** [np.sort] and [np.unique] (sorted, without repetitions). *)
Fixpoint insert_sorted (x : Q) (l : list Q) : list Q :=
  match l with
  | [] => [x]
  | y :: l' => if Qleb x y then x :: l else y :: insert_sorted x l'
  end.

Definition np_sort (l : list Q) : list Q := fold_right insert_sorted [] l.

Fixpoint dedup_adjacent (l : list Q) : list Q :=
  match l with
  | x :: (y :: _) as l' => if Qeq_bool x y then dedup_adjacent l' else x :: dedup_adjacent l'
  | _ => l
  end.

Definition np_unique (l : list Q) : list Q := dedup_adjacent (np_sort l).

(** [np.where(np.isin(a, b))[0]]. *)
Definition np_where_isin (a b : list Q) : list Z :=
  flat_map (fun '(i, x) => if existsb (Qeq_bool x) b then [Z.of_nat i] else [])
           (enumerate a).

(** [a - b] with broadcasting of a length-one operand; other shape
    mismatches raise [ValueError]. *)
Definition np_sub (a b : list Q) : result (list Q) :=
  if (length a =? length b)%nat then Ok (zip_with Qminus a b)
  else match a, b with
       | _, [y] => Ok (map (fun x => x - y)%Q a)
       | [x], _ => Ok (map (fun y => x - y)%Q b)
       | _, _ => Raise ValueError
       end.

(** [a / d] for an array [a] and a scalar [d]. *)
Definition np_div_scalar (a : list Q) (d : Q) : result (list Q) :=
  mapM (fun x => np_div x d) a.

(** [np.array(rows).T] for rows of one length. *)
Definition np_transpose {A} (rows : list (list A)) : list (list A) :=
  match rows with
  | [] => []
  | r :: _ => map (fun j => omap (fun row => row !! j) rows) (seq 0 (length r))
  end.

End Py.


(* ===================================================================== *)
(** * The solver collaborator *)
(* ===================================================================== *)

(** [openseespy.opensees] is an external, stateful collaborator.  It is seen
    here through the commands the code sends to it, in order: [emit] records
    a command and what the code does next, [nodes_of] lists the nodes it was
    sent.  The solver's own verdict on a node, which it refuses when the tag
    is already in its domain, is [node_accepted] below: a run of the code on
    the real solver is the recorded run up to the first command the solver
    refuses. *)
Module Ops.
Import Py.

Inductive cmd : Type :=
| Wipe
| WipeAnalysis
| Model (ndm ndf : Z)
| Node (tag : Z) (x y z : Q)
| Mass (tag : Z) (mx my mz : Q)
| UniaxialMaterial (kind : string) (tag : Z) (args : list Q)
| GeomTransf (kind : string) (tag : Z) (vec : list Q)
| SectionFiber (tag : Z) (GJ : Q)
| PatchQuad (matTag nfY nfZ : Z) (corners : list Z)
| LayerStraight (matTag n : Z) (area z1 y1 z2 y2 : Q)
| BeamIntegration (kind : string) (tag secTag n : Z)
| ElementDispBeamColumn (tag nd_i nd_j transfTag integTag : Z)
| Rayleigh (alphaM betaK betaKinit betaKcomm : Q)
| TimeSeriesPath (tag : Z) (dt : Q) (values : list Q) (factor : Q)
| PatternPlain (patTag tsTag : Z)
| Load (nd : Z) (fx fy fz mx my mz : Q)
| TimeSeriesConstant (tag : Z)
| ElementZeroLength (tag nd_i nd_j matTag dir : Z)
| AnalysisOption (command kind : string) (args : list Q)
| Analyze (numIncr : Z)
| LoadConstTime (time : Q).

(** A computation that talks to the solver: it may raise, and it extends
    the log of commands. *)
Definition M (A : Type) : Type := list cmd -> result (A * list cmd).

#[export] Instance M_ret : MRet M := fun A a log => Ok (a, log).
#[export] Instance M_bind : MBind M := fun A B f m log =>
  match m log with
  | Ok (a, log') => f a log'
  | Raise e => Raise e
  end.

Definition lift {A} (r : result A) : M A := fun log =>
  match r with
  | Ok a => Ok (a, log)
  | Raise e => Raise e
  end.

Definition emit (c : cmd) : M unit := fun log => Ok (tt, log ++ [c]).

(** [for x in xs: acc = body(acc, x)]. *)
Fixpoint forM {S X} (xs : list X) (acc : S) (body : S -> X -> M S) : M S :=
  match xs with
  | [] => mret acc
  | x :: xs' => acc' ← body acc x; forM xs' acc' body
  end.

(** [for x in xs: body(x)]. *)
Definition forM_ {X} (xs : list X) (body : X -> M unit) : M unit :=
  forM xs tt (fun _ x => body x).

(** The nodes of the domain, in the order they were created. *)
Definition nodes_of (log : list cmd) : list (Z * (Q * Q * Q)) :=
  flat_map (fun c => match c with Node t x y z => [(t, (x, y, z))] | _ => [] end) log.

(** The lumped masses sent to the solver. *)
Definition masses_of (log : list cmd) : list (Z * (Q * Q * Q)) :=
  flat_map (fun c => match c with Mass t x y z => [(t, (x, y, z))] | _ => [] end) log.

(** [ops.getNodeTags()]: OpenSees keeps its nodes by tag and lists the tags
    in ascending order. *)
Definition getNodeTags : M (list Z) :=
  fun log => Ok (merge_sort Z.le (map fst (nodes_of log)), log).

(** [ops.nodeCoord(tag)]; the solver raises for an unknown tag. *)
Definition nodeCoord (tag : Z) : M (Q * Q * Q) := fun log =>
  match dict_get (nodes_of log) tag with
  | Some xyz => Ok (xyz, log)
  | None => Raise ValueError
  end.

(** [ops.node(tag, ...)] on a domain that holds the tags [domain]: the
    solver raises [OpenSeesError] when the tag is already there. *)
Definition node_accepted (domain : list Z) (tag : Z) : result (list Z) :=
  if existsb (Z.eqb tag) domain then Raise OpenSeesError else Ok (domain ++ [tag]).

(** The solver fed with the nodes of a log, one after the other, from an
    empty domain ([ops.wipe()]). *)
Definition domain_of (log : list cmd) : result (list Z) :=
  foldM node_accepted [] (map fst (nodes_of log)).

End Ops.

(* ===================================================================== *)
(** * bridge_psci/defaults_base.py and bridge_psci/config.py *)
(* ===================================================================== *)

Module Config.
Import Py.
Local Open Scope Q_scope.
Local Open Scope string_scope.

(** [DEFAULT_BASE_PARAMS], the literal of [defaults_base.py]. *)
Definition DEFAULT_BASE_PARAMS : params := list_to_map [
    ("Bridge_width", PFloat (125 # 10));
    ("Bridge_skew", PInt 36);
    ("girder_number", PInt 6);
    ("Left_Cantilever", PFloat (105 # 100));
    ("Right_Cantilever", PFloat (105 # 100));
    ("girder_spacing", PList [PFloat (208 # 100)]);
    ("gravity", PFloat (981 # 100));
    ("UF", PInt 700);
    ("UT", PInt 170);
    ("UFT", PInt 200);
    ("WH", PInt 1200);
    ("WT", PInt 220);
    ("LFT", PInt 200);
    ("LT", PInt 230);
    ("LF", PInt 680);
    ("girder_H", PInt 2000);
    ("girder_length", PInt 29600);
    ("number_tendon", PInt 4);
    ("area_t", PFloat (60324 # 100));
    ("z_coef_list", PList [PInt 1500; PInt 1086; PInt 700; PInt 294]);
    ("z_intercept_list", PList [PInt 200; PInt 80; PInt 80; PInt 80]);
    ("y_coef_list", PList [PInt 0; PInt 0; PInt 0; PInt 0]);
    ("y_intercept_list", PList [PInt 0; PInt 0; PInt (-150); PInt 150]);
    ("tendon_horizontal_length", PFloat 14800);
    ("Ep", PFloat 200000);
    ("Ec", PFloat 28896);
    ("Ap_N", PList [PFloat (60324 # 100); PFloat (60324 # 100); PFloat (60324 # 100); PFloat (60324 # 100)]);
    ("A_duct_N", PList [PFloat (60324 # 100); PFloat (60324 # 100); PFloat (60324 # 100); PFloat (60324 # 100)]);
    ("y_duct_N", PList [PInt 1850; PInt 1920; PInt 1920; PInt 1920]);
    ("b1", PInt 700);
    ("b2", PFloat 240);
    ("b3", PInt 220);
    ("b4", PFloat 230);
    ("b5", PInt 680);
    ("h1", PInt 170);
    ("h2", PInt 200);
    ("h3", PInt 1600);
    ("h4", PInt 200);
    ("h5", PInt 230);
    ("Ag1", PInt 119000);
    ("Ag2", PFloat 48000);
    ("Ag3", PInt 352000);
    ("Ag4", PFloat 46000);
    ("Ag5", PInt 156400);
    ("Ag", PFloat 721400);
    ("yg1", PFloat 85);
    ("yg2", PFloat (23666666666666669 # 100000000000000));
    ("yg3", PFloat 970);
    ("yg4", PFloat (17033333333333333 # 10000000000000));
    ("yg5", PFloat 1885);
    ("Qg1", PFloat 10115000);
    ("Qg2", PFloat 11360000);
    ("Qg3", PFloat 341440000);
    ("Qg4", PFloat (7835333333333333 # 100000000));
    ("Qg5", PFloat 294814000);
    ("Qg", PFloat (7360823333333333 # 10000000));
    ("yt1", PFloat (10203525552167082 # 10000000000000));
    ("yn_g1", PFloat (9353525552167082 # 10000000000000));
    ("yn_g2", PFloat (7836858885500415 # 10000000000000));
    ("yn_g3", PFloat (503525552167082 # 10000000000000));
    ("yn_g4", PFloat (6829807781166251 # 10000000000000));
    ("yn_g5", PFloat (8646474447832918 # 10000000000000));
    ("Ay2g1", PFloat (1041112439035006 # 10000));
    ("Ay2g2", PFloat (29479851451798462 # 1000000));
    ("Ay2g3", PFloat (89245369553178 # 100000));
    ("Ay2g4", PFloat (2145728619073237 # 100000));
    ("Ay2g5", PFloat (11692701786967111 # 100000));
    ("Ay2_g_n_g", PFloat (2728678531112343 # 10000));
    ("Io_g1", PFloat (2865916666666667 # 10000000));
    ("Io_g2", PFloat (10666666666666667 # 100000000));
    ("Io_g3", PFloat (7509333333333333 # 100000));
    ("Io_g4", PFloat (10222222222222222 # 100000000));
    ("Io_g5", PFloat (6894633333333333 # 10000000));
    ("Io_g", PFloat (7627827722222221 # 100000));
    ("Ix_g", PFloat (34914613033345654 # 100000));
    ("Q_duct_N", PList [PFloat 1115994; PFloat (11582208 # 10); PFloat (11582208 # 10); PFloat (11582208 # 10)]);
    ("i", PInt 3);
    ("Q_duct", PFloat (4590656399999999 # 1000000000));
    ("A_duct", PFloat (241296 # 100));
    ("y_duct", PFloat (19024999999999998 # 10000000000000));
    ("A_net", PFloat (71898704 # 100));
    ("Q_net", PFloat (7314916769333333 # 10000000));
    ("yt2", PFloat (10173920199358993 # 10000000000000));
    ("y_net_P", PFloat (29605352808089265 # 10000000000000000));
    ("y_duct_P_N", PList [PFloat (8326079800641007 # 10000000000000); PFloat (9026079800641007 # 10000000000000); PFloat (9026079800641007 # 10000000000000); PFloat (9026079800641007 # 10000000000000)]);
    ("Ay2_g_net_P", PFloat (632290446402684 # 100000000));
    ("Ay2_duct_N_duct_P_N", PList [PFloat (4181877138768844 # 10000000); PFloat (49146033118202597 # 100000000); PFloat (49146033118202597 # 100000000); PFloat (49146033118202597 # 100000000)]);
    ("Ay2_duct_duct_P", PFloat (18925687074229622 # 10000000));
    ("Ay2_net", PFloat (1898891611886989 # 1000000));
    ("Io_net", PFloat (34914613033345654 # 100000));
    ("Ix_net", PFloat (3510450219453435 # 10000));
    ("Np", PFloat (6921373200442968 # 1000000000000000));
    ("Ap", PFloat (241296 # 100));
    ("yp_N", PList [PInt 1850; PInt 1920; PInt 1920; PInt 1920]);
    ("Qp_N", PList [PFloat 1115994; PFloat (11582208 # 10); PFloat (11582208 # 10); PFloat (11582208 # 10)]);
    ("Qp", PFloat (4590656399999999 # 1000000000));
    ("yp", PFloat (19024999999999998 # 10000000000000));
    ("At_p", PFloat (16700996677740863 # 1000000000000));
    ("At", PFloat (7356880366777409 # 10000000000));
    ("Qt", PFloat (7632653231127353 # 10000000));
    ("yt3", PFloat (1037485027702135 # 1000000000000));
    ("yt_P_N", PList [PFloat (8125149722978649 # 10000000000000); PFloat (8825149722978649 # 10000000000000); PFloat (8825149722978649 # 10000000000000); PFloat (8825149722978649 # 10000000000000)]);
    ("Ay2_t_t_P_N", PList [PFloat (27564184191915464 # 10000000); PFloat (32518204849754267 # 10000000); PFloat (32518204849754267 # 10000000); PFloat (32518204849754267 # 10000000)]);
    ("y_net_PP", PFloat (20093007766235814 # 1000000000000000));
    ("Io_t", PFloat (3510450219453435 # 10000));
    ("Ix_t", PFloat (3638471777101606 # 10000));
    ("A_t", PFloat (7356880366777409 # 10000000000));
    ("B_t", PFloat (7632653231127353 # 10000000));
    ("I_n", PFloat (3638471777101606 # 10000))
  ].

(** [get_default_base_params()] returns a deep copy of the literal. *)
Definition get_default_base_params : params := DEFAULT_BASE_PARAMS.

(** [np.vstack(rows) * c]. *)
Definition table_scale (rows : list (list Q)) (c : Q) : list (list Q) :=
  map (map (fun x => x * c)) rows.

Section WithParsers.

Context (parsers : str_parsers).

(** [_default_params()]. *)
Definition _default_params : result params :=
  let base := get_default_base_params in
  girder_number ← py_int parsers (get base "girder_number" (PInt 6));
  let free : Q := 0 in
  let consts : Q := 1000000000 / 1000 in
  let consts1 : Q := 80000 in
  let consts_crack : Q := 1000000000 / 10000 in
  let A1_B1 := [free; consts1; consts; 0; 0; 0] in
  let A1_B2 := [free; consts1; consts; 0; 0; 0] in
  let A1_B3 := [free; consts1; consts_crack; 0; 0; 0] in
  let A1_B4 := [free; consts1; consts_crack; 0; 0; 0] in
  let A1_B5 := [free; consts1; consts_crack; 0; 0; 0] in
  let A1_B6 := [free; consts1; consts; 0; 0; 0] in
  let A2_B1 := [consts1; free; consts_crack; 0; 0; 0] in
  let A2_B2 := [consts1; free; consts; 0; 0; 0] in
  let A2_B3 := [consts1; free; consts_crack; 0; 0; 0] in
  let A2_B4 := [consts1; free; consts_crack; 0; 0; 0] in
  let A2_B5 := [consts1; free; consts_crack; 0; 0; 0] in
  let A2_B6 := [consts1; consts1; consts; 0; 0; 0] in
  let bearing_multiplier : Q := 3 # 10 in
  let Bearing_Stiffness_A1 :=
    table_scale [A1_B1; A1_B2; A1_B3; A1_B4; A1_B5; A1_B6] bearing_multiplier in
  let Bearing_Stiffness_A2 := [A2_B1; A2_B2; A2_B3; A2_B4; A2_B5; A2_B6] in
  let Bearing_Stiffness := (Bearing_Stiffness_A1 ++ Bearing_Stiffness_A2)%list in
  let params : params := get_default_base_params in
  Ok (update params (list_to_map [
    ("E_girder1", PList (list_repeat (list_repeat [PInt 28000] girder_number) 2));
    ("E_girder2", PList (list_repeat (list_repeat [PInt 28000] girder_number) 2));
    ("E_deck1", PList (list_repeat [PInt 25000] (girder_number + 1)));
    ("E_deck2", PList (list_repeat [PInt 25000] (girder_number + 1)));
    ("thickness1", PList (list_repeat [PInt 250] (girder_number + 2)));
    ("thickness2", PList (list_repeat [PInt 250] (girder_number + 2)));
    ("Bearing_Stiffness", PTable Bearing_Stiffness);
    ("bearing_multiplier", PFloat bearing_multiplier);
    ("consts1", PInt 80000);
    ("consts_crack", PFloat consts_crack);
    ("load", PFloat (-290 * 1000 / 2));
    ("PE", PInt 600);
    ("diaphragm1_Ec", PList (list_repeat [PInt 24000] 5));
    ("diaphragm2_Ec", PList (list_repeat [PInt 24000] 5));
    ("pave_thick", PList [PInt 80]);
    ("numEigen", PInt 3);
    ("zeta", PFloat (15 # 1000));
    ("dt", PFloat (1 # 10));
    ("velocity_kmh", PInt 10);
    ("girder3_start_tag", PInt 3001);
    ("girder4_start_tag", PInt 4001);
    ("girder_n_nodes", PInt 149)
  ])).

(** [CASE_OVERRIDES]. *)
Definition CASE_OVERRIDES : gmap string params := list_to_map [
    ("baseline", ∅);
    ("case1", ∅);
    ("case2", {[ "bearing_multiplier" := PFloat (5 # 10) ]});
    ("case5", {[ "E_girder1" := PList [PFloat (28000 * (7 # 10)); PInt 28000; PInt 28000;
                                       PInt 28000; PInt 28000; PInt 28000] ]});
    ("case6", {[ "E_girder1" := PList [PFloat (28000 * (5 # 10)); PInt 28000; PInt 28000;
                                       PInt 28000; PInt 28000; PInt 28000] ]});
    ("case9", {[ "E_deck1" := PStr "deck_0.7" ]})
  ].

(** [overrides.get("E_deck1") == "deck_0.7"]. *)
Definition is_deck_marker (v : option pyval) : bool :=
  match v with
  | Some (PStr s) => String.eqb s "deck_0.7"
  | _ => false
  end.

(** [make_params(case)]. *)
Definition make_params (case : string) : result params :=
  let case := str_lower (str_strip case) in
  params ← _default_params;
  girder_number ← py_int parsers (get params "girder_number" (PInt 6));
  match CASE_OVERRIDES !! case with
  | None => Raise ValueError
  | Some overrides =>
      (* special override encodings *)
      let overrides : Py.params :=
        if is_deck_marker (overrides !! "E_deck1") then
          <["E_deck1" := PList (list_repeat [PFloat (25000 * (7 # 10))] (girder_number + 1))]>
            overrides
        else overrides in
      (* bearing multiplier rebuild *)
      '(params, overrides) ←
        match overrides !! "bearing_multiplier" with
        | Some v =>
            bm ← py_float parsers v;
            let overrides := delete "bearing_multiplier" overrides in
            let free : Q := 0 in
            let consts : Q := 1000000000 / 1000 in
            consts1 ← (subscript params "consts1" ≫= as_num);
            consts_crack ← (subscript params "consts_crack" ≫= as_num);
            let A1_B1 := [free; consts1; consts; 0; 0; 0] in
            let A1_B2 := [free; consts1; consts; 0; 0; 0] in
            let A1_B3 := [free; consts1; consts_crack; 0; 0; 0] in
            let A1_B4 := [free; consts1; consts_crack; 0; 0; 0] in
            let A1_B5 := [free; consts1; consts_crack; 0; 0; 0] in
            let A1_B6 := [free; consts1; consts; 0; 0; 0] in
            let A2_B1 := [consts1; free; consts_crack; 0; 0; 0] in
            let A2_B2 := [consts1; free; consts; 0; 0; 0] in
            let A2_B3 := [consts1; free; consts_crack; 0; 0; 0] in
            let A2_B4 := [consts1; free; consts_crack; 0; 0; 0] in
            let A2_B5 := [consts1; free; consts_crack; 0; 0; 0] in
            let A2_B6 := [consts1; consts1; consts; 0; 0; 0] in
            let Bearing_Stiffness_A1 :=
              table_scale [A1_B1; A1_B2; A1_B3; A1_B4; A1_B5; A1_B6] bm in
            let Bearing_Stiffness_A2 := [A2_B1; A2_B2; A2_B3; A2_B4; A2_B5; A2_B6] in
            let params :=
              <["Bearing_Stiffness" := PTable (Bearing_Stiffness_A1 ++ Bearing_Stiffness_A2)%list]>
                params in
            let params := <["bearing_multiplier" := PFloat bm]> params in
            Ok (params, overrides)
        | None => Ok (params, overrides)
        end;
      (* normal overrides *)
      Ok (update params overrides)
  end.

End WithParsers.

(** The [Bearing_Stiffness] table of a parameter dictionary, and its entry
    in row [i] and column [j]. *)
Definition bearing_table (p : params) : option (list (list Q)) :=
  match p !! "Bearing_Stiffness" with
  | Some (PTable t) => Some t
  | _ => None
  end.

Definition entry (t : list (list Q)) (i j : nat) : option Q :=
  row ← t !! i; row !! j.

(** The value of [key], and the [Bearing_Stiffness] table, in the dictionary
    returned by a call of [make_params]. *)
Definition returned_value (r : result params) (key : string) : option pyval :=
  match r with
  | Ok p => p !! key
  | Raise _ => None
  end.

Definition returned_table (r : result params) : option (list (list Q)) :=
  match r with
  | Ok p => bearing_table p
  | Raise _ => None
  end.

(** The dictionary that [make_params("baseline")] returns. *)
Definition baseline_params : params :=
  match make_params no_strings "baseline" with
  | Ok p => p
  | Raise _ => ∅
  end.

End Config.

(* ===================================================================== *)
(** * bridge_psci/io/excel_io.py *)
(* ===================================================================== *)

(** The two derivations that [load_params_from_excel] applies to the
    dictionary once the sheets are merged.  Both update the dictionary in
    place and return [None]; here they return the updated dictionary. *)
Module ExcelIO.
Import Py.
Local Open Scope Q_scope.
Local Open Scope string_scope.

(** A numpy array of floats with at most two dimensions. *)
Inductive ndarray : Type :=
| Scalar (x : Q)
| Vector (a : list Q)
| Matrix (t : list (list Q)).

(** [base * m] for a scalar [m]. *)
Definition nd_scale (base : ndarray) (m : Q) : ndarray :=
  match base with
  | Scalar x => Scalar (x * m)
  | Vector a => Vector (map (fun x => x * m) a)
  | Matrix t => Matrix (map (map (fun x => x * m)) t)
  end.

(** [a.tolist()]. *)
Definition tolist (a : ndarray) : pyval :=
  match a with
  | Scalar x => PFloat x
  | Vector a => PList (map PFloat a)
  | Matrix t => PList (map (fun row => PList (map PFloat row)) t)
  end.

(** [str(v).strip().lower() == "table"].  Only a string can read ["table"]:
    [str] of a number is made of digits, signs, a point and an exponent (or
    is [nan] or [inf]), of a list or an array starts with a bracket, and of
    [None] is ["None"]. *)
Definition mode_is_table (v : pyval) : bool :=
  match v with
  | PStr s => String.eqb (str_lower (str_strip s)) "table"
  | _ => false
  end.

(** [key in params]. *)
Definition contains (p : params) (key : string) : bool :=
  match p !! key with
  | Some _ => true
  | None => false
  end.

Section WithEnvironment.

Context (parsers : str_parsers).
(** [np.array(v, dtype=float)]. *)
Context (np_array_float : pyval -> result ndarray).


(** [derive_bearing_stiffness(params, bearings_table)] (lines 136-152). *)
Definition derive_bearing_stiffness (params : Py.params)
    (bearings_table : option (list (list Q))) : result Py.params :=
  let mode := get params "bearing_mode" (PStr "multiplier") in
  match mode_is_table mode, bearings_table with
  | true, Some table => Ok (<["Bearing_Stiffness" := tolist (Matrix table)]> params)
  | _, _ =>
      (* multiplier mode *)
      if contains params "Bearing_Stiffness" then
        match get params "bearing_multiplier" PNone with
        | PNone => Ok params
        | v =>
            m ← py_float parsers v;
            base ← (subscript params "Bearing_Stiffness" ≫= np_array_float);
            Ok (<["Bearing_Stiffness" := tolist (nd_scale base m)]> params)
        end
      else Ok params
  end.

End WithEnvironment.

(** The table held under [Bearing_Stiffness], read as rows of floats: a
    two-dimensional array, or a list of lists of numbers. *)
Definition option_all {A} (l : list (option A)) : option (list A) :=
  fold_right (fun x acc => match x, acc with
                           | Some a, Some r => Some (a :: r)
                           | _, _ => None
                           end) (Some []) l.

Definition number_of (v : pyval) : option Q :=
  match v with
  | PFloat q => Some q
  | PInt z => Some (inject_Z z)
  | _ => None
  end.

Definition rows_of_floats (v : pyval) : option (list (list Q)) :=
  match v with
  | PTable t => Some t
  | PList rows =>
      option_all (map (fun row => match row with
                                  | PList xs => option_all (map number_of xs)
                                  | PArray a => Some a
                                  | _ => None
                                  end) rows)
  | _ => None
  end.

End ExcelIO.

(* ===================================================================== *)
(** * bridge_psci/model/builder.py *)
(* ===================================================================== *)

Module Builder.
Import Py Ops.
Local Open Scope Q_scope.
Local Open Scope string_scope.

(** The free names that the methods of [Analysis] and [build_bridge_model]
    read from the global namespace of their module.  A name that the module
    neither defines nor imports is [None]. *)
Record module_globals : Type := {
  g_yt3 : option Q;
  g_Ep : option Q;
  g_number_tendon : option Z;
  g_z_coef_list : option (list Q);
  g_y_coef_list : option (list Q);
  g_girder_spacing : option (list Q);
  g_girder_H : option Q;
  g_girder1 : option (list (Z * (Q * Q * Q)))
}.

(** [builder.py] imports [annotations], [dataclass], [Any], [Dict],
    [Optional], [math], [np], [pd], [plt], [Polygon], [ops] and [vfo], and
    defines [BuiltModel], [Analysis] and [build_bridge_model]: none of the
    names above. *)
Definition builder_globals : module_globals := {|
  g_yt3 := None; g_Ep := None; g_number_tendon := None;
  g_z_coef_list := None; g_y_coef_list := None;
  g_girder_spacing := None; g_girder_H := None; g_girder1 := None
|}.

(** Reading a global name. *)
Definition load_global {A} (name : string) (binding : option A) : result A :=
  match binding with
  | Some v => Ok v
  | None => Raise (NameError name)
  end.

(** [class Analysis]: the attributes set by [__init__]. *)
Record Analysis : Type := {
  params : Py.params;
  kilo : Q;
  mm : Q;
  m : Q;
  mm2 : Q;
  kN : Q;
  MPa : Q;
  transftype : string;
  nums_girder : Z;
  width : Q;
  skew : Q;
  L : Q
}.

(** [Analysis.__init__(length, width, nums_girder, skew, params)].  The
    span [self.L = length * self.m], from which every method derives its
    division count, is kept as the binary64 product. *)
Definition Analysis_init (length width : Q) (nums_girder : Z) (skew : Q)
    (params : Py.params) : Analysis :=
  let kilo : Q := 1000 in
  let N : Q := 1 in
  let mm : Q := 1 in
  let m := 1000 * mm in
  let mm2 := mm * mm in
  {| params := params;
     kilo := kilo; mm := mm; m := m; mm2 := mm2;
     kN := kilo * N; MPa := N / mm2;
     transftype := "Linear";
     nums_girder := nums_girder;
     width := width * m;
     skew := skew;
     L := round64 (length * m) |}.

(** [@dataclass class BuiltModel]. *)
Inductive ctx_entry : Type :=
| CtxGirder (nodes : list (Z * (Q * Q * Q))) (beam_el : list Z)
| CtxTags (tags : list Z).

Record BuiltModel : Type := {
  analysis : Analysis;
  bm_params : Py.params;
  ctx : gmap string ctx_entry
}.

(** Parameters read at the top of [Analysis.girder] (lines 72-80). *)
Record girder_inputs : Type := {
  h1 : Q; h2 : Q; h3 : Q; h4 : Q; h5 : Q;
  b1 : Q; b2 : Q; b3 : Q; b4 : Q; b5 : Q;
  girder_H : Q;
  tendon_horizontal_length : Q;
  y_intercept_list : list pyval;
  z_intercept_list : list pyval;
  Ap_N : list pyval;
  Ag : Q
}.

(** The division count of every longitudinal line:
    [division = int(L / self.m * 5)], the binary64 quotient and product
    truncated toward zero. *)
Definition division_of (self : Analysis) : Z :=
  Qtrunc (round64 (round64 (L self / m self) * 5)).

(** Node tags of a girder line (lines 129-130). *)
Definition girder_node_tag (girder_number j : Z) : Z := 1000 * girder_number + j + 1.

Section WithEnvironment.

Context (parsers : str_parsers).
(** [np.tan(math.radians(angle))]. *)
Context (tan_deg : Q -> Q).
(** The global namespace the code runs in. *)
Context (G : module_globals).

Definition read_girder_inputs (p : Py.params) : result girder_inputs :=
  h1 ← py_float parsers (get p "h1" (PFloat 0));
  h2 ← py_float parsers (get p "h2" (PFloat 0));
  h3 ← py_float parsers (get p "h3" (PFloat 0));
  h4 ← py_float parsers (get p "h4" (PFloat 0));
  h5 ← py_float parsers (get p "h5" (PFloat 0));
  b1 ← py_float parsers (get p "b1" (PFloat 0));
  b2 ← py_float parsers (get p "b2" (PFloat 0));
  b3 ← py_float parsers (get p "b3" (PFloat 0));
  b4 ← py_float parsers (get p "b4" (PFloat 0));
  b5 ← py_float parsers (get p "b5" (PFloat 0));
  girder_H ← py_float parsers (get p "girder_H" (PFloat 0));
  tendon_horizontal_length ←
    py_float parsers (get p "tendon_horizontal_length" (get p "girder_length" (PFloat 0)));
  y_intercept_list ← py_list (get p "y_intercept_list" (PList []));
  z_intercept_list ← py_list (get p "z_intercept_list" (PList []));
  Ap_N ← py_list (get p "Ap_N" (PList []));
  Ag ← py_float parsers (get p "Ag" (PFloat 0));
  Ok {| h1 := h1; h2 := h2; h3 := h3; h4 := h4; h5 := h5;
        b1 := b1; b2 := b2; b3 := b3; b4 := b4; b5 := b5;
        girder_H := girder_H;
        tendon_horizontal_length := tendon_horizontal_length;
        y_intercept_list := y_intercept_list;
        z_intercept_list := z_intercept_list;
        Ap_N := Ap_N; Ag := Ag |}.

(** [Tendon.tendon_profile_vertical] and [tendon_profile_horizontal]. *)
Definition tendon_profile (x coefficient intercept : Q) : Q :=
  coefficient * x ^ 2 + intercept.

(** Lines 129-132: the node loop, which also fills [mass_before] and
    [mass_after]. *)
Definition girder_node_loop (girder_number imax division : Z)
    (x_loc y_loc centroid L rho Acol : Q) : M (list Q * list Q) :=
  forM (range 0 imax) ([], []) (fun '(mass_before, mass_after) j =>
    step ← lift (py_div L (inject_Z division));
    _ ← emit (Node (girder_node_tag girder_number j)
                   (x_loc + step * inject_Z j) y_loc (- centroid));
    half ← lift (py_div (rho * Acol * L) (inject_Z division));
    mret (mass_before ++ [half / 2], mass_after ++ [half / 2])%list).

(** Lines 139-140: the mass loop. *)
Definition girder_mass_loop (girder_number imax : Z) (mass_all : list Q) : M unit :=
  forM_ (range 0 imax) (fun j =>
    mass_j ← lift (getitem mass_all j);
    emit (Mass (girder_node_tag girder_number j) 0 0 mass_j)).

(** Lines 181-201: a fiber section per node, its five patches and the tendon
    layers. *)
Definition girder_fiber_loop (inputs : girder_inputs) (imax : Z) (L GJ : Q)
    (IDconcU IDstrand_initial : Z) (sections1 : list (list Z * Z * Z))
    (nodes_name : list (Z * (Q * Q * Q))) (a_coef b_coef : list Q) : M unit :=
  forM_ (range 0 imax) (fun i =>
    a ← lift (py_div (L * inject_Z i) (inject_Z (imax - 1)));
    row ← lift (getitem nodes_name i);
    _ ← emit (SectionFiber (fst row) GJ);
    forM_ sections1 (fun '(sec, nfY, nfZ) =>
      _ ← emit (PatchQuad IDconcU nfY nfZ sec);
      number_tendon ← lift (load_global "number_tendon" (g_number_tendon G));
      forM_ (range 1 (1 + number_tendon)) (fun k =>
        a_k ← lift (getitem a_coef (k - 1));
        z_k ← lift (getitem (z_intercept_list inputs) (k - 1) ≫= as_num);
        let z := tendon_profile (a - L / 2) a_k z_k - girder_H inputs in
        sec0 ← lift (getitem sec 0);
        sec2 ← lift (getitem sec 2);
        if Qltb (inject_Z sec0) z && Qltb z (inject_Z sec2) then
          b_k ← lift (getitem b_coef (k - 1));
          y_k ← lift (getitem (y_intercept_list inputs) (k - 1) ≫= as_num);
          let y := tendon_profile (a - L / 2) b_k y_k in
          area ← lift (getitem (Ap_N inputs) (k - 1) ≫= as_num);
          emit (LayerStraight IDstrand_initial 1 area z y z y)
        else
          b_k ← lift (getitem b_coef (k - 1));
          y_k ← lift (getitem (y_intercept_list inputs) (k - 1) ≫= as_num);
          let y := tendon_profile (a - L / 2) b_k y_k in
          emit (LayerStraight IDstrand_initial 1 0 z y z y)))).

(** Lines 207-212: the beam elements. *)
Definition girder_element_loop (girder_number imax division : Z)
    (nodes_name : list (Z * (Q * Q * Q))) : M (list Z) :=
  forM (range 0 division) [] (fun beam_el i =>
    row ← lift (getitem nodes_name i);
    let tag := fst row in
    _ ← emit (BeamIntegration "Legendre" tag tag 5);
    _ ← (if (i <? imax + 1)%Z then
           next ← lift (getitem nodes_name (i + 1));
           emit (ElementDispBeamColumn tag tag (fst next) (1000 + girder_number) tag)
         else mret tt);
    mret (beam_el ++ [tag])%list).

(** [Analysis.girder(self, girder_number, Ec, Pe, spacing)]; it returns
    [nodes[name]] and [beam_el[name]]. *)
Definition girder (self : Analysis) (girder_number : Z) (Ec : pyval) (Pe spacing : Q)
  : M (list (Z * (Q * Q * Q)) * list Z) :=
  inputs ← lift (read_girder_inputs (params self));
  let L := L self in
  let division := division_of self in
  let imax := (division + 1)%Z in
  let x_loc := -1 * spacing * tan_deg (skew self) * m self in
  let y_loc := spacing * m self in
  centroid ← lift (load_global "yt3" (g_yt3 G));
  let section1 := [Qtrunc (- h1 inputs); Qtrunc (- b1 inputs / 2); 0%Z;
                   Qtrunc (- b1 inputs / 2); 0%Z; Qtrunc (b1 inputs / 2);
                   Qtrunc (- h1 inputs); Qtrunc (b1 inputs / 2)] in
  let section2 := [Qtrunc (- h1 inputs - h2 inputs); Qtrunc (- b3 inputs / 2);
                   Qtrunc (- h1 inputs); Qtrunc (- b1 inputs / 2);
                   Qtrunc (- h1 inputs); Qtrunc (b1 inputs / 2);
                   Qtrunc (- h1 inputs - h2 inputs); Qtrunc (b3 inputs / 2)] in
  let section3 := [Qtrunc (- h1 inputs - h3 inputs + h4 inputs); Qtrunc (- b3 inputs / 2);
                   Qtrunc (- h1 inputs - h2 inputs); Qtrunc (- b3 inputs / 2);
                   Qtrunc (- h1 inputs - h2 inputs); Qtrunc (b3 inputs / 2);
                   Qtrunc (- h1 inputs - h3 inputs + h4 inputs); Qtrunc (b3 inputs / 2)] in
  let section4 := [Qtrunc (- h1 inputs - h3 inputs); Qtrunc (- b5 inputs / 2);
                   Qtrunc (- h1 inputs - h3 inputs + h4 inputs); Qtrunc (- b3 inputs / 2);
                   Qtrunc (- h1 inputs - h3 inputs + h4 inputs); Qtrunc (b3 inputs / 2);
                   Qtrunc (- h1 inputs - h3 inputs); Qtrunc (b5 inputs / 2)] in
  let section5 := [Qtrunc (- h1 inputs - h3 inputs - h5 inputs); Qtrunc (- b5 inputs / 2);
                   Qtrunc (- h1 inputs - h3 inputs); Qtrunc (- b5 inputs / 2);
                   Qtrunc (- h1 inputs - h3 inputs); Qtrunc (b5 inputs / 2);
                   Qtrunc (- h1 inputs - h3 inputs - h5 inputs); Qtrunc (b5 inputs / 2)] in
  let Acol := Ag inputs * mm2 self in
  (* concrete material *)
  let IDconcU := (1000 + girder_number)%Z in
  Ec ← lift (as_num Ec);
  _ ← emit (UniaxialMaterial "Elastic" IDconcU [Ec]);
  (* tendon material *)
  let IDstrand := (10 + girder_number)%Z in
  let IDstrand_initial := (100 + girder_number)%Z in
  let Pe := Pe * MPa self in
  let Fpy := 1364 * MPa self in
  Ep ← lift (load_global "Ep" (g_Ep G));
  let Es := Ep * MPa self in
  let Bps := 236 # 10000 in
  _ ← emit (UniaxialMaterial "Steel01" IDstrand [Fpy; Es; Bps]);
  _ ← emit (UniaxialMaterial "InitStressMaterial" IDstrand_initial [inject_Z IDstrand; Pe]);
  (* section property *)
  let J := (b1 inputs * h1 inputs ^ 3 + b3 inputs * h3 inputs ^ 3
            + b5 inputs * h5 inputs ^ 3) / 3 in
  let v := 17 # 100 in
  let G_ := Ec / 2 / (1 + v) in
  let GJ := G_ * J in
  _ ← emit (GeomTransf (transftype self) (1000 + girder_number) [0; 0; 1]);
  (* nodes and lumped masses *)
  let rho := 25 # 10000000000 in
  '(mass_before, mass_after) ←
    girder_node_loop girder_number imax division x_loc y_loc centroid L rho Acol;
  mass_before ← lift (setitem mass_before (-1) 0);
  mass_after ← lift (setitem mass_after 0 0);
  let mass_all := zip_with Qplus mass_before mass_after in
  _ ← girder_mass_loop girder_number imax mass_all;
  (* the nodes of this girder, read back from the domain *)
  tags ← getNodeTags;
  let lower := (1000 * girder_number + 1)%Z in
  let upper := (1000 * girder_number + imax)%Z in
  let gid_tags :=
    merge_sort Z.le (List.filter (fun t => (lower <=? t)%Z && (t <=? upper)%Z) tags) in
  coords ← forM gid_tags [] (fun acc t => xyz ← nodeCoord t; mret (acc ++ [xyz])%list);
  let nodes_name := zip gid_tags coords in
  let sections1 := [(section1, 2%Z, 5%Z); (section2, 1%Z, 2%Z); (section3, 3%Z, 1%Z);
                    (section4, 2%Z, 3%Z); (section5, 1%Z, 3%Z)] in
  (* tendon profile coefficients *)
  z_coef_list ← lift (load_global "z_coef_list" (g_z_coef_list G));
  z_intercepts ← lift (mapM as_num (z_intercept_list inputs));
  a_coef ← lift (d ← np_sub z_coef_list z_intercepts;
                 d ← np_div_scalar d (tendon_horizontal_length inputs);
                 np_div_scalar d (tendon_horizontal_length inputs));
  y_coef_list ← lift (load_global "y_coef_list" (g_y_coef_list G));
  y_intercepts ← lift (mapM as_num (y_intercept_list inputs));
  b_coef ← lift (d ← np_sub y_coef_list y_intercepts;
                 d ← np_div_scalar d (tendon_horizontal_length inputs);
                 np_div_scalar d (tendon_horizontal_length inputs));
  _ ← girder_fiber_loop inputs imax L GJ IDconcU IDstrand_initial sections1
        nodes_name a_coef b_coef;
  beam_el ← girder_element_loop girder_number imax division nodes_name;
  mret (nodes_name, beam_el).

(** The nodes and the lumped masses of a girder line in closed form: node
    [j] of [division + 1] lies at [x_loc + L / division * j]; its mass is the
    sum of [mass_before[j]] and [mass_after[j]], each half the mass of one
    element, except [mass_before[-1]] and [mass_after[0]], which are 0. *)
Definition girder_line_nodes (self : Analysis) (girder_number : Z) (spacing centroid : Q)
  : list (Z * (Q * Q * Q)) :=
  let division := division_of self in
  let x_loc := -1 * spacing * tan_deg (skew self) * m self in
  let y_loc := spacing * m self in
  map (fun j => (girder_node_tag girder_number j,
                 (x_loc + L self / inject_Z division * inject_Z j, y_loc, - centroid)))
      (range 0 (division + 1)).

Definition girder_line_masses (self : Analysis) (girder_number : Z) (Ag : Q)
  : list (Z * (Q * Q * Q)) :=
  let division := division_of self in
  let rho := 25 # 10000000000 in
  let half := rho * (Ag * mm2 self) * L self / inject_Z division / 2 in
  map (fun j => (girder_node_tag girder_number j,
                 (0, 0, (if (j =? division)%Z then 0 else half)
                        + (if (j =? 0)%Z then 0 else half))))
      (range 0 (division + 1)).

(** Node tags of the shell panels: [deck] (lines 338) and [pavement]
    (line 245) number the nodes of seam [s] from
    [number * 100000 + 1000 * s + 1]. *)
Definition panel_node_tag (number s j : Z) : Z := number * 100000 + 1000 * s + j + 1.

(** The transverse seams shared by [deck] and [pavement] (lines 315-317). *)
Definition slab_spacings_of (bridge_width_spacings slab_thickness_spacing_cumsum : list Q)
  : list Q :=
  np_unique (map np_round3 (np_sort (bridge_width_spacings ++ slab_thickness_spacing_cumsum)%list)).

(** The node loops of [deck] (lines 328-341) and of [pavement] (lines
    235-248), which differ in the vertical coordinate only, given by
    [z_of k].  The dictionary of node arrays that the methods read back from
    the domain sends no command and is left out, as are the shell elements
    and the lumped masses that follow. *)
Definition panel_node_loop (self : Analysis) (number : Z) (z_of : Z -> result Q)
    (slab_spacings : list Q) (slab_found_indices : list Z) : M unit :=
  let L := L self in
  let division := division_of self in
  let n_found := Z.of_nat (length slab_found_indices) in
  forM_ (range 0 (n_found - 1)) (fun k =>
    lo ← lift (getitem slab_found_indices k);
    hi ← lift (getitem slab_found_indices (k + 1));
    let slicing_list :=
      if negb (k =? n_found - 2)%Z then range lo hi else range lo (hi + 1) in
    spacing_list ← lift (mapM (getitem slab_spacings) slicing_list);
    forM_ (range 0 (Z.of_nat (length spacing_list))) (fun i =>
      forM_ (range 0 (division + 1)) (fun j =>
        s_i ← lift (getitem slicing_list i);
        x_i ← lift (getitem spacing_list i);
        step ← lift (py_div L (inject_Z division));
        y_i ← lift (getitem spacing_list i);
        z ← lift (z_of k);
        emit (Node (panel_node_tag number s_i j)
                   (-1 * 1000 * x_i * tan_deg (skew self) + step * inject_Z j)
                   (1000 * y_i) z)))).

(** [Analysis.deck], node creation: the nodes of band [k] lie at
    [tSlab[k] / 2]. *)
Definition deck_nodes (self : Analysis) (deck_number : Z) (tSlab : list pyval)
    (bridge_width_spacings slab_thickness_spacing_cumsum : list Q) : M unit :=
  let slab_spacings := slab_spacings_of bridge_width_spacings slab_thickness_spacing_cumsum in
  let slab_found_indices := np_where_isin slab_spacings slab_thickness_spacing_cumsum in
  panel_node_loop self deck_number
    (fun k => t ← (getitem tSlab k ≫= as_num); Ok (t / 2))
    slab_spacings slab_found_indices.

(** [Analysis.pavement], node creation: every node lies at
    [tSlab[0] / 2 + 220]. *)
Definition pavement_nodes (self : Analysis) (pave_number : Z) (tSlab : list pyval)
    (bridge_width_spacings slab_thickness_spacing_cumsum : list Q) : M unit :=
  let slab_spacings := slab_spacings_of bridge_width_spacings slab_thickness_spacing_cumsum in
  let slab_found_indices := np_where_isin slab_spacings slab_thickness_spacing_cumsum in
  panel_node_loop self pave_number
    (fun _ => t ← (getitem tSlab 0 ≫= as_num); Ok (t / 2 + 220))
    slab_spacings slab_found_indices.

End WithEnvironment.

(** [Analysis.static_analysis_load(pattern_tag, node, point_z, moment_x,
    moment_y, moment_z)]. *)
Definition static_analysis_load (self : Analysis) (pattern_tag node : Z)
    (point_z moment_x moment_y moment_z : Q) : M unit :=
  _ ← emit WipeAnalysis;
  _ ← emit (TimeSeriesConstant pattern_tag);
  _ ← emit (PatternPlain pattern_tag pattern_tag);
  _ ← emit (Load node 0 0 point_z moment_x moment_y moment_z);
  _ ← emit (AnalysisOption "constraints" "Transformation" []);
  _ ← emit (AnalysisOption "numberer" "RCM" []);
  _ ← emit (AnalysisOption "system" "UmfPack" []);
  _ ← emit (AnalysisOption "test" "NormDispIncr" [1 # 1000000; 5; 0; 2]);
  _ ← emit (AnalysisOption "algorithm" "Newton" []);
  _ ← emit (AnalysisOption "integrator" "LoadControl" [1]);
  _ ← emit (AnalysisOption "analysis" "Static" []);
  _ ← emit (Analyze 1);
  emit (LoadConstTime 0).

(** Attribute access on a [BuiltModel] instance: the dataclass has the
    fields [analysis], [params] and [ctx] and no method of its own. *)
Inductive attribute : Type :=
| AttrAnalysis (a : Analysis)
| AttrParams (p : Py.params)
| AttrCtx (c : gmap string ctx_entry).

Definition BuiltModel_getattr (bm : BuiltModel) (name : string) : result attribute :=
  if String.eqb name "analysis" then Ok (AttrAnalysis (analysis bm))
  else if String.eqb name "params" then Ok (AttrParams (bm_params bm))
  else if String.eqb name "ctx" then Ok (AttrCtx (ctx bm))
  else Raise (AttributeError name).

(** Calling the attribute [name] of a [BuiltModel]: the fields hold an
    [Analysis], a dict and a dict, none of which is callable. *)
Definition BuiltModel_call (bm : BuiltModel) (name : string) : M unit :=
  _ ← lift (BuiltModel_getattr bm name);
  lift (Raise TypeError).

(** *** Node tags of the other substructures *)




(** The node tags each method creates, over the ranges of its loops. *)
Definition girder_node_tags (girder_number division : Z) : list Z :=
  map (girder_node_tag girder_number) (range 0 (division + 1)).

Definition panel_node_tags (number : Z) (seams : list Z) (division : Z) : list Z :=
  flat_map (fun s => map (panel_node_tag number s) (range 0 (division + 1))) seams.





(** *** [build_bridge_model] *)

(** The values unpacked from the dictionary (lines 619-638). *)
Record build_inputs : Type := {
  Bridge_width : Q;
  Bridge_skew : Q;
  girder_number : Z;
  girder_length : Q;
  girder_spacing : Q;
  Left_Cantilever : Q;
  Right_Cantilever : Q;
  gravity : Q;
  E_girder1 : list pyval;
  E_girder2 : list pyval;
  E_deck1 : list pyval;
  E_deck2 : list pyval;
  thickness1 : list pyval;
  thickness2 : list pyval;
  Bearing_Stiffness : pyval;
  PE : Q;
  pave_thick : list pyval;
  diaphragm1_Ec : list pyval;
  diaphragm2_Ec : list pyval
}.

Section Build.

Context (parsers : str_parsers).
Context (tan_deg : Q -> Q).
Context (G : module_globals).
(** Whether [import openseespy.opensees] succeeded. *)
Context (ops_available : bool).
(** [np.array(v)] on a value of the dictionary: numpy raises [ValueError]
    for a nesting that is not rectangular. *)
Context (np_array : pyval -> result pyval).

Definition read_build_inputs (p : Py.params) : result build_inputs :=
  Bridge_width ← (subscript p "Bridge_width" ≫= py_float parsers);
  Bridge_skew ← py_float parsers (get p "Bridge_skew" (PFloat 0));
  girder_number ← (subscript p "girder_number" ≫= py_int parsers);
  girder_length ← (subscript p "girder_length" ≫= py_float parsers);
  girder_spacing ← (subscript p "girder_spacing" ≫= py_float parsers);
  Left_Cantilever ← py_float parsers (get p "Left_Cantilever" (PFloat 0));
  Right_Cantilever ← py_float parsers (get p "Right_Cantilever" (PFloat 0));
  gravity ← py_float parsers (get p "gravity" (PFloat (-981 # 100)));
  E_girder1 ← py_list (get p "E_girder1" (PList []));
  E_girder2 ← py_list (get p "E_girder2" (PList []));
  E_deck1 ← py_list (get p "E_deck1" (PList []));
  E_deck2 ← py_list (get p "E_deck2" (PList []));
  thickness1 ← py_list (get p "thickness1" (PList []));
  thickness2 ← py_list (get p "thickness2" (PList []));
  Bearing_Stiffness ← np_array (get p "Bearing_Stiffness" PNone);
  PE ← py_float parsers (get p "PE" (PInt 600));
  pave_thick ← py_list (get p "pave_thick" (PList [PInt 80]));
  diaphragm1_Ec ← py_list (get p "diaphragm1_Ec" (PList []));
  diaphragm2_Ec ← py_list (get p "diaphragm2_Ec" (PList []));
  Ok {| Bridge_width := Bridge_width; Bridge_skew := Bridge_skew;
        girder_number := girder_number; girder_length := girder_length;
        girder_spacing := girder_spacing;
        Left_Cantilever := Left_Cantilever; Right_Cantilever := Right_Cantilever;
        gravity := gravity;
        E_girder1 := E_girder1; E_girder2 := E_girder2;
        E_deck1 := E_deck1; E_deck2 := E_deck2;
        thickness1 := thickness1; thickness2 := thickness2;
        Bearing_Stiffness := Bearing_Stiffness; PE := PE;
        pave_thick := pave_thick;
        diaphragm1_Ec := diaphragm1_Ec; diaphragm2_Ec := diaphragm2_Ec |}.

(** [Analysis.deck] and [Analysis.barrier] as called on lines 659-660, and
    the remainder of the function from the first diaphragm on (lines
    667-724), which receives the values computed so far. *)
Context {deck_nodes_t barrier_nodes_t : Type}.
Context (deck : Analysis -> Z -> list pyval -> list pyval -> list Q -> list Q -> M deck_nodes_t).
Context (barrier : Analysis -> Z -> Q -> Q -> pyval -> list pyval -> Q -> Q -> M barrier_nodes_t).
Context (remainder : Analysis -> build_inputs -> gmap string ctx_entry ->
                     deck_nodes_t -> barrier_nodes_t -> list (list Z) -> list Z ->
                     M BuiltModel).

(** [build_bridge_model(params)].  Two failures of line 647 and line 651
    are outside the model: the [OverflowError] of [spacing * (nums_girder -
    1)] for a girder count beyond the binary64 range, and a width for which
    [np.arange] cannot allocate its array. *)
Definition build_bridge_model (params : Py.params) : M BuiltModel :=
  if negb ops_available then lift (Raise ImportError) else
  let p := params in
  let ctx : gmap string ctx_entry := ∅ in
  inputs ← lift (read_build_inputs p);
  _ ← emit Wipe;
  _ ← emit (Model 3 6);
  let nums_girder := girder_number inputs in
  let Bridge1 := Analysis_init (round64 (girder_length inputs / 1000)) (Bridge_width inputs)
                               nums_girder (Bridge_skew inputs) p in
  let spacing := girder_spacing inputs in
  let girder_spacings :=
    [Left_Cantilever inputs; round64 (spacing * inject_Z (nums_girder - 1))] in
  let girder_spacing_cumsum := map np_round3 (np_cumsum girder_spacings) in
  let slab_thickness_spacing := ([0] ++ girder_spacings ++ [Right_Cantilever inputs])%list in
  let slab_thickness_spacing_cumsum := map np_round3 (np_cumsum slab_thickness_spacing) in
  let bridge_width_spacings := np_arange_unit (Bridge_width inputs) in
  let slab_spacings := slab_spacings_of bridge_width_spacings slab_thickness_spacing_cumsum in
  let girder_found_indices := np_where_isin slab_spacings girder_spacing_cumsum in
  let slab_found_indices := np_where_isin slab_spacings slab_thickness_spacing_cumsum in
  ctx ← forM (range 1 (nums_girder + 1)) ctx (fun ctx i =>
    Ec ← lift (getitem (E_girder1 inputs) (i - 1));
    spacing_i ← lift (getitem girder_spacing_cumsum (i - 1));
    '(nodes, beam_el) ← girder parsers tan_deg G Bridge1 i Ec (PE inputs) spacing_i;
    mret (<["girder" +:+ pretty i := CtxGirder nodes beam_el]> ctx));
  deck1 ← deck Bridge1 1 (thickness1 inputs) (E_deck1 inputs)
                bridge_width_spacings slab_thickness_spacing_cumsum;
  s0 ← lift (getitem slab_spacings 0);
  t0 ← lift (getitem (thickness1 inputs) 0);
  barrier1 ← barrier Bridge1 1 s0 25000 t0 (pave_thick inputs) (3 # 10) (388 # 100);
  node_number ← lift (mapM (fun i =>
      match ctx !! ("girder" +:+ pretty i) with
      | Some (CtxGirder nodes _) => Ok (map fst nodes)
      | Some (CtxTags _) => Raise TypeError
      | None => Raise (KeyError ("girder" +:+ pretty i))
      end) (range 1 (girder_number inputs + 1)));
  let node_array := np_transpose node_number in
  first_row ← lift (getitem node_array 0);
  remainder Bridge1 inputs ctx deck1 barrier1 node_array first_row.

End Build.

(** [np.tan(math.radians(angle))] for the two skew angles used in the
    examples: 0 degrees, and the 36 degrees of the default bridge, for which
    the binary64 result is 0.7265425280053609. *)
Definition tan_deg_sample (angle : Q) : Q :=
  if Qeq_bool angle 36 then 7265425280053609 # 10000000000000000 else 0.

(** *** The notebook globals *)

(** [legacy_globals.py] computes, at import time, the values that the
    notebook kept in module-level variables.  The entries below are the ones
    the builder reads; [girder1] is not among the names it defines. *)
Module Legacy.

Definition UF : Q := 700.
Definition UT : Q := 170.
Definition UFT : Q := 200.
Definition WH : Q := 1200.
Definition WT : Q := 220.
Definition LFT : Q := 200.
Definition LT : Q := 230.
Definition LF : Q := 680.
Definition girder_H : Q := UT + UFT + WH + LFT + LT.
Definition girder_spacing : list Q := [208 # 100].
Definition number_tendon : Z := 4.
Definition z_coef_list : list Q := [1500; 1086; 700; 294].
Definition y_coef_list : list Q := [0; 0; 0; 0].
Definition Ep : Q := 200000.
Definition Ec : Q := 28896.
Definition Ap_N : list Q := replicate 4 ((5027 # 100) * 12).
Definition A_duct_N : list Q := replicate 4 ((5027 # 100) * 12).
Definition y_duct_N : list Q := [1850; 1920; 1920; 1920].

Definition b1 : Q := UF.
Definition b2 : Q := (UF - WT) / 2.
Definition b3 : Q := WT.
Definition b4 : Q := (LF - WT) / 2.
Definition b5 : Q := LF.
Definition h1 : Q := UT.
Definition h2 : Q := UFT.
Definition h3 : Q := UFT + WH + LFT.
Definition h4 : Q := LFT.
Definition h5 : Q := LT.

Definition Ag1 : Q := b1 * h1.
Definition Ag2 : Q := b2 * h2.
Definition Ag3 : Q := b3 * h3.
Definition Ag4 : Q := b4 * h4.
Definition Ag5 : Q := b5 * h5.
Definition Ag : Q := Ag1 + Ag2 + Ag3 + Ag4 + Ag5.

Definition yg1 : Q := h1 / 2.
Definition yg2 : Q := h1 + h2 / 3.
Definition yg3 : Q := h1 + h3 / 2.
Definition yg4 : Q := h1 + h3 - h4 / 3.
Definition yg5 : Q := h1 + h3 + h5 / 2.

Definition Qg : Q := Ag1 * yg1 + Ag2 * yg2 + Ag3 * yg3 + Ag4 * yg4 + Ag5 * yg5.

Definition Qsum (l : list Q) : Q := fold_left Qplus l 0.

Definition Q_duct : Q := Qsum (zip_with Qmult A_duct_N y_duct_N).
Definition A_duct : Q := Qsum A_duct_N.
Definition A_net : Q := Ag - A_duct.
Definition Q_net : Q := Qg - Q_duct.

Definition Np : Q := Ep / Ec.
Definition Ap : Q := Qsum Ap_N.
Definition yp_N : list Q := y_duct_N.
Definition Qp : Q := Qsum (zip_with Qmult Ap_N yp_N).
Definition yp : Q := Qp / Ap.

Definition At_p : Q := Ap * Np.
Definition At : Q := A_net + At_p.
Definition Qt : Q := Q_net + At_p * yp.
Definition yt3 : Q := Qred (Qt / At).

Definition globals : module_globals := {|
  g_yt3 := Some yt3;
  g_Ep := Some Ep;
  g_number_tendon := Some number_tendon;
  g_z_coef_list := Some z_coef_list;
  g_y_coef_list := Some y_coef_list;
  g_girder_spacing := Some girder_spacing;
  g_girder_H := Some girder_H;
  g_girder1 := None
|}.

End Legacy.

End Builder.

(* ===================================================================== *)
(** * bridge_psci/analysis/modal.py *)
(* ===================================================================== *)

Module Modal.
Import Py Ops Builder.
Local Open Scope Q_scope.
Local Open Scope string_scope.

Section RunModal.

Context (parsers : str_parsers).
(** [build_bridge_model], imported from the builder. *)
Context (build_bridge_model : Py.params -> M BuiltModel).
(** The solver queries [ops.nodeDisp(node, dof)] and [ops.eigen(n)]. *)
Context (nodeDisp : Z -> Z -> M Q).
Context (eigen : Z -> M (list Q)).
(** [np.sqrt(x) / (2.0 * np.pi)]. *)
Context (hertz : Q -> Q).

(** [run_modal(params, check_nodes, load_nodes, point_load_n, num_eigen)];
    it returns [(natural_frequency, eigen_values, deflections)].  Writing the
    JSON file, which follows the computation of the three results, is left
    out. *)
Definition run_modal (params : Py.params) (check_nodes : list Z) (load_nodes : list Z)
    (point_load_n : option Q) (num_eigen : option Z)
  : M (list Q * list Q * list Q) :=
  bridge1 ← build_bridge_model params;
  point_load_n ←
    match point_load_n with
    | None => lift (py_float parsers (get params "point_load_n" (PInt (-290 * 1000))))
    | Some v => mret v
    end;
  num_eigen ←
    match num_eigen with
    | None => lift (py_int parsers (get params "numEigen" (PInt 3)))
    | Some n => mret n
    end;
  (* baseline (no load):
     bridge1.static_analysis_load(1, int(load_nodes[0]), 0.0, 0.0, 0.0, 0.0) *)
  _ ← BuiltModel_call bridge1 "static_analysis_load";
  before ← forM check_nodes [] (fun acc n => d ← nodeDisp n 3; mret (acc ++ [d])%list);
  (* load split over the two load nodes *)
  _ ← BuiltModel_call bridge1 "static_analysis_load";
  _ ← BuiltModel_call bridge1 "static_analysis_load";
  after ← forM check_nodes [] (fun acc n => d ← nodeDisp n 3; mret (acc ++ [d])%list);
  let deflections := zip_with Qminus after before in
  eigen_values ← eigen num_eigen;
  let natural_frequency := map hertz eigen_values in
  mret (natural_frequency, eigen_values, deflections).

End RunModal.

End Modal.
(* ===================================================================== *)
(** * bridge_psci/analysis/moving_load.py *)
(* ===================================================================== *)

Module MovingLoad.
Import Py.
Local Open Scope Q_scope.

(** [np.searchsorted(a, v)] (side ['left']) on an ascending array: the
    insertion index [i] with [a[i-1] < v <= a[i]], that is the length of the
    prefix of entries below [v]. *)
Fixpoint searchsorted (a : list Q) (v : Q) : Z :=
  match a with
  | [] => 0%Z
  | x :: a' => if Qltb x v then (1 + searchsorted a' v)%Z else 0%Z
  end.

(** [np.clip(v, lo, hi)], numpy's [minimum(maximum(v, lo), hi)]. *)
Definition np_clip (v lo hi : Z) : Z := Z.min (Z.max v lo) hi.

(** [node_hist[nd][it] += v]. *)
Definition hist_add (node_hist : dict (list Q)) (nd : Z) (it : nat) (v : Q)
  : result (dict (list Q)) :=
  arr ← dict_item node_hist nd;
  old ← getitem arr (Z.of_nat it);
  arr' ← setitem arr (Z.of_nat it) (old + v);
  Ok (dict_set node_hist nd arr').

(** The sample stored for node [nd] at step [it], [node_hist[nd][it]]. *)
Definition hist_at (node_hist : dict (list Q)) (nd : Z) (it : nat) : option Q :=
  arr ← dict_get node_hist nd; arr !! it.

(** Lines 123-127 of [run_moving_load]: the bracketing node pair of an axle
    position and its interpolation fraction. *)
Definition axle_bracket (x_g : list Q) (girder : list Z) (x_axle : Q)
  : result (Z * Z * Q) :=
  let idx := (searchsorted x_g x_axle - 1)%Z in
  let idx := np_clip idx 0 (Z.of_nat (length girder) - 2) in
  xi ← getitem x_g idx;
  xj ← getitem x_g (idx + 1);
  nd_i ← getitem girder idx;
  nd_j ← getitem girder (idx + 1);
  r ← np_div (x_axle - xi) (xj - xi);
  Ok (nd_i, nd_j, r).

(** Lines 122-130: one axle at one time step. *)
Definition axle_update (x_g : list Q) (girder : list Z) (node_hist : dict (list Q))
    (it : nat) (x_axle load_val : Q) : result (dict (list Q)) :=
  x_first ← getitem x_g 0;
  x_last ← getitem x_g (-1);
  if Qleb x_first x_axle && Qleb x_axle x_last then
    '(nd_i, nd_j, r) ← axle_bracket x_g girder x_axle;
    node_hist ← hist_add node_hist nd_i it (load_val * (1 - r));
    hist_add node_hist nd_j it (load_val * r)
  else Ok node_hist.

(** Section 2: [{int(nd): np.zeros(len(time_steps)) for nd in girder}]. *)
Definition init_history (girder : list Z) (n_steps : nat) : dict (list Q) :=
  fold_left (fun d nd => dict_set d nd (replicate n_steps 0)) girder [].

(** Section 3 (lines 111-130): the load history of both girder lines.  Axles
    0-2 travel on girder line 3, the others on girder line 4. *)
Definition load_history_generation
    (time_steps : list Q) (speed : Q) (distances loads : list Q)
    (x_g3 : list Q) (girder3 : list Z) (x_g4 : list Q) (girder4 : list Z)
    (x_start_g3 x_start_g4 : Q)
    (node_load_history_g3 node_load_history_g4 : dict (list Q))
  : result (dict (list Q) * dict (list Q)) :=
  foldM (fun '(h3, h4) '(it, t) =>
    let progress := speed * t in
    foldM (fun '(h3, h4) '(i_ax, (dist, load_val)) =>
      if (i_ax <? 3)%nat then
        h3' ← axle_update x_g3 girder3 h3 it (x_start_g3 - progress + dist) load_val;
        Ok (h3', h4)
      else
        h4' ← axle_update x_g4 girder4 h4 it (x_start_g4 - progress + dist) load_val;
        Ok (h3, h4'))
      (h3, h4) (enumerate (combine distances loads)))
    (node_load_history_g3, node_load_history_g4) (enumerate time_steps).

(** [np.allclose(values, 0.0)] with numpy's default tolerances:
    [|a - b| <= atol + rtol * |b|] for every entry. *)
Definition rtol : Q := 1 # 100000.
Definition atol : Q := 1 # 100000000.

Definition allclose (values : list Q) (b : Q) : bool :=
  forallb (fun a => Qleb (Qabs (a - b)) (atol + rtol * Qabs b)) values.

(** Section 6 (lines 168-177): [create_pathseries_from_history]. *)
Definition create_pathseries_from_history (dt : Q)
    (history_dict : dict (list Q)) (girder_id : Z) : list Ops.cmd :=
  flat_map (fun '(nd, values) =>
    if allclose values 0 then []
    else
      let ts_tag := (1000 * girder_id + nd)%Z in
      let pat_tag := (2000 * girder_id + nd)%Z in
      [ Ops.TimeSeriesPath ts_tag dt values 1;
        Ops.PatternPlain pat_tag ts_tag;
        Ops.Load nd 0 0 (-1) 0 0 0 ])
    history_dict.

(** Lines 179-180. *)
Definition create_pathseries (dt : Q) (node_load_history_g3 node_load_history_g4 : dict (list Q))
  : list Ops.cmd :=
  create_pathseries_from_history dt node_load_history_g3 3
  ++ create_pathseries_from_history dt node_load_history_g4 4.

Section Damping.

(** The real square root behind [np.sqrt], on the rational idealisation. *)
Variable sqrt : Q -> Q.

(** [np.sqrt] on a float64: a negative argument gives [nan]. *)
Definition np_sqrt (x : Q) : result Q :=
  if Qltb x 0 then Raise NonFinite else Ok (sqrt x).

(** Section 4 (lines 137-142): Rayleigh damping from the eigenvalues. *)
Definition rayleigh_setup (eigen_value : list Q) (zeta : Q) : result (list Ops.cmd) :=
  let omega_list := map np_sqrt eigen_value in
  omega1 ← mjoin_result (getitem omega_list 0);
  omega2 ← mjoin_result (getitem omega_list (Z.min 2 (Z.of_nat (length omega_list) - 1)));
  alphaM ← np_div (zeta * (2 * omega1 * omega2)) (omega1 + omega2);
  betaK ← np_div (2 * zeta) (omega1 + omega2);
  Ok [Ops.Rayleigh alphaM 0 0 betaK].

End Damping.

(** *** Reading a girder line back from the domain *)

(** [np.where(tags == t)[0]]: the indices of the entries equal to [t]. *)
Definition np_where_eq (tags : list Z) (t : Z) : list Z :=
  flat_map (fun '(i, x) => if (x =? t)%Z then [Z.of_nat i] else []) (enumerate tags).

(** A slice bound as Python reads it: a negative bound counts from the end,
    and the bound is clamped into [0, n]. *)
Definition slice_bound (n i : Z) : Z :=
  if (i <? 0)%Z then Z.max (i + n) 0 else Z.min i n.

(** [l[start:stop]]. *)
Definition py_slice {A} (l : list A) (start stop : Z) : list A :=
  let n := Z.of_nat (length l) in
  let a := slice_bound n start in
  let b := slice_bound n stop in
  take (Z.to_nat (b - a)) (drop (Z.to_nat a) l).

(** The [RuntimeError] of [_get_girder_tags]. *)
Inductive RuntimeError : Type :=
| StartTagNotFound (start_tag : Z).

(** [_get_girder_tags(start_tag, n_nodes)] (lines 26-32), where [tags] is
    the answer of [ops.getNodeTags()]. *)
Definition _get_girder_tags (tags : list Z) (start_tag n_nodes : Z)
  : RuntimeError + list Z :=
  let idx0 := np_where_eq tags start_tag in
  match idx0 with
  | [] => inl (StartTagNotFound start_tag)
  | i0 :: _ => inr (py_slice tags i0 (i0 + n_nodes))
  end.

End MovingLoad.

(* ===================================================================== *)
(** * Properties *)
(* ===================================================================== *)

(** ** Facts about the Python fragment *)

Module PyFacts.
Import Py.

Lemma Qltb_lt x y : Qltb x y = true <-> (x < y)%Q.
Proof.
  unfold Qltb. rewrite negb_true_iff. split.
  - intros H. apply Qnot_le_lt. intros Hle. apply Qle_bool_iff in Hle. congruence.
  - intros H. destruct (Qle_bool y x) eqn:E; [|reflexivity].
    apply Qle_bool_iff in E. exfalso. apply (Qlt_not_le _ _ H E).
Qed.

Lemma Qltb_ge x y : Qltb x y = false <-> (y <= x)%Q.
Proof.
  unfold Qltb. rewrite negb_false_iff. apply Qle_bool_iff.
Qed.

Lemma Qleb_le x y : Qleb x y = true <-> (x <= y)%Q.
Proof. apply Qle_bool_iff. Qed.

Lemma Qpow2_pos (e : Z) : (0 < Qpow2 e)%Q.
Proof.
  unfold Qpow2. destruct (Z.leb_spec 0 e).
  - change 0%Q with (inject_Z 0). rewrite <- Zlt_Qlt. now apply Z.pow_pos_nonneg.
  - reflexivity.
Qed.

Lemma rint_nonneg (y : Q) : (0 <= y)%Q -> (0 <= rint y)%Z.
Proof.
  intros Hy. unfold rint.
  assert (Hf : (0 <= Qfloor y)%Z).
  { change 0%Z with (Qfloor 0). now apply Qfloor_resp_le. }
  repeat match goal with |- context [if ?b then _ else _] => destruct b end; lia.
Qed.

(** Rounding to binary64 keeps the sign. *)
Lemma round64_nonneg (q : Q) : (0 <= q)%Q -> (0 <= round64 q)%Q.
Proof.
  intros Hq. unfold round64.
  destruct (Qeq_bool q 0); [exact Hq|].
  apply Qle_bool_iff in Hq as Hb. rewrite Hb.
  match goal with |- context [Qeq_bool ?r q] => destruct (Qeq_bool r q); [exact Hq|] end.
  rewrite Qred_correct.
  apply Qmult_le_0_compat; [|apply Qlt_le_weak, Qpow2_pos].
  change 0%Q with (inject_Z 0). rewrite <- Zle_Qle. apply rint_nonneg.
  apply Qle_shift_div_l; [apply Qpow2_pos|].
  rewrite Qmult_0_l. apply Qabs_nonneg.
Qed.

Lemma dict_get_set_eq {V} (d : dict V) k v : dict_get (dict_set d k v) k = Some v.
Proof.
  induction d as [|[k' v'] d IH]; simpl.
  - now rewrite Z.eqb_refl.
  - destruct (Z.eqb k' k) eqn:E; simpl.
    + now rewrite Z.eqb_refl.
    + now rewrite E.
Qed.

Lemma dict_get_set_ne {V} (d : dict V) k k' v :
  k <> k' -> dict_get (dict_set d k v) k' = dict_get d k'.
Proof.
  intros Hne. induction d as [|[k0 v0] d IH]; simpl.
  - destruct (Z.eqb k k') eqn:E; [apply Z.eqb_eq in E; congruence | reflexivity].
  - destruct (Z.eqb k0 k) eqn:E; simpl.
    + apply Z.eqb_eq in E. subst k0.
      destruct (Z.eqb k k') eqn:E'; [apply Z.eqb_eq in E'; congruence | reflexivity].
    + destruct (Z.eqb k0 k'); [reflexivity | exact IH].
Qed.

Lemma dict_set_keys {V} (d : dict V) k v :
  is_Some (dict_get d k) -> map fst (dict_set d k v) = map fst d.
Proof.
  induction d as [|[k0 v0] d IH]; simpl.
  - intros [? ?]; discriminate.
  - destruct (Z.eqb k0 k) eqn:E; simpl.
    + intros _. apply Z.eqb_eq in E. now subst.
    + intros H. now rewrite IH.
Qed.

Lemma getitem_lookup {A} (l : list A) (k : nat) (x : A) :
  l !! k = Some x -> getitem l (Z.of_nat k) = Ok x.
Proof.
  intros H. unfold getitem.
  pose proof (lookup_lt_Some _ _ _ H) as Hlt.
  replace (Z.of_nat k <? 0) with false by (symmetry; apply Z.ltb_ge; lia).
  replace (0 <=? Z.of_nat k) with true by (symmetry; apply Z.leb_le; lia).
  replace (Z.of_nat k <? Z.of_nat (length l)) with true by (symmetry; apply Z.ltb_lt; lia).
  simpl. rewrite Nat2Z.id, H. reflexivity.
Qed.

Lemma getitem_last {A} (l : list A) (x : A) :
  last l = Some x -> getitem l (-1) = Ok x.
Proof.
  intros H. unfold getitem.
  assert (Hlen : (0 < length l)%nat).
  { destruct l; [discriminate | simpl; lia]. }
  change (-1 <? 0) with true. cbv iota.
  replace (0 <=? -1 + Z.of_nat (length l)) with true by (symmetry; apply Z.leb_le; lia).
  replace (-1 + Z.of_nat (length l) <? Z.of_nat (length l)) with true
    by (symmetry; apply Z.ltb_lt; lia).
  simpl. rewrite last_lookup in H.
  replace (Z.to_nat (-1 + Z.of_nat (length l))) with (Nat.pred (length l)) by lia.
  rewrite H. reflexivity.
Qed.

Lemma setitem_insert {A} (l : list A) (k : nat) (v : A) :
  (k < length l)%nat -> setitem l (Z.of_nat k) v = Ok (<[k := v]> l).
Proof.
  intros Hlt. unfold setitem.
  replace (Z.of_nat k <? 0) with false by (symmetry; apply Z.ltb_ge; lia).
  replace (0 <=? Z.of_nat k) with true by (symmetry; apply Z.leb_le; lia).
  replace (Z.of_nat k <? Z.of_nat (length l)) with true by (symmetry; apply Z.ltb_lt; lia).
  simpl. rewrite Nat2Z.id. reflexivity.
Qed.

Lemma np_div_ok (x y : Q) : ~ (y == 0)%Q -> np_div x y = Ok (x / y)%Q.
Proof.
  intros H. unfold np_div. destruct (Qeq_bool y 0) eqn:E; [|reflexivity].
  apply Qeq_bool_iff in E. contradiction.
Qed.

Lemma np_div_zero (x y : Q) : (y == 0)%Q -> np_div x y = Raise NonFinite.
Proof.
  intros H. unfold np_div. apply Qeq_bool_iff in H. now rewrite H.
Qed.

End PyFacts.

(** ** Case overrides *)

Module ConfigSpec.
Import Py Config.
Local Open Scope Q_scope.
Local Open Scope string_scope.

Example case_label_is_normalised (parsers : str_parsers) :
  returned_table (make_params parsers "  Case2 ")
  = returned_table (make_params parsers "case2").
Proof. vm_compute. reflexivity. Qed.

Example unknown_case_is_rejected (parsers : str_parsers) :
  is_ok (make_params parsers "case3") = false.
Proof. vm_compute. reflexivity. Qed.

(** C1, as stated, fails: the entry of row 6 (the first bearing of abutment
    A2), column 0, is 80000 in both tables, not 80000 / 0.3 * 0.5. *)
Lemma case2_second_abutment_not_rescaled :
  exists (t2 tb : list (list Q)) (x2 xb : Q),
    returned_table (make_params no_strings "case2") = Some t2
    /\ returned_table (make_params no_strings "baseline") = Some tb
    /\ entry t2 6 0 = Some x2 /\ entry tb 6 0 = Some xb
    /\ x2 == 80000 /\ xb == 80000
    /\ ~ x2 == xb / (3 # 10) * (5 # 10).
Proof.
  eexists. eexists. eexists. eexists.
  split; [vm_compute; reflexivity|].
  split; [vm_compute; reflexivity|].
  split; [vm_compute; reflexivity|].
  split; [vm_compute; reflexivity|].
  split; [reflexivity|]. split; [reflexivity|].
  intros E. discriminate E.
Qed.

(** C1 (amended).  For case "case2", whose [bearing_multiplier] is 0.5
    against the baseline's 0.3, [make_params] returns a [Bearing_Stiffness]
    table of 12 rows and 6 columns, as for the baseline; in rows 0-5
    (abutment A1) every entry is the baseline entry divided by 0.3 and
    multiplied by 0.5; rows 6-11 (abutment A2) are not scaled by the
    multiplier and equal the baseline rows. *)
Theorem case2_rescales_first_abutment (parsers : str_parsers) :
  exists t2 tb : list (list Q),
    returned_table (make_params parsers "case2") = Some t2
    /\ returned_table (make_params parsers "baseline") = Some tb
    /\ returned_value (make_params parsers "case2") "bearing_multiplier"
       = Some (PFloat (5 # 10))
    /\ returned_value (make_params parsers "baseline") "bearing_multiplier"
       = Some (PFloat (3 # 10))
    /\ length t2 = 12%nat /\ length tb = 12%nat
    /\ Forall (fun row => length row = 6%nat) t2
    /\ Forall (fun row => length row = 6%nat) tb
    /\ Forall2 (Forall2 (fun x2 xb => x2 == xb / (3 # 10) * (5 # 10))) (take 6 t2) (take 6 tb)
    /\ Forall2 (Forall2 Qeq) (drop 6 t2) (drop 6 tb).
Proof.
  eexists. eexists.
  split; [vm_compute; reflexivity|].
  split; [vm_compute; reflexivity|].
  split; [vm_compute; reflexivity|].
  split; [vm_compute; reflexivity|].
  split; [reflexivity|]. split; [reflexivity|].
  split; [repeat constructor|]. split; [repeat constructor|].
  split; cbn [take drop]; repeat (constructor; try reflexivity).
Qed.

End ConfigSpec.

(** ** The cases of [make_params] *)

Module CasesSpec.
Import Py Config.
Local Open Scope Q_scope.
Local Open Scope string_scope.

(** The keys of [CASE_OVERRIDES]. *)
Definition known_cases : list string :=
  ["baseline"; "case1"; "case2"; "case5"; "case6"; "case9"].

(** The unscaled rows of the two abutments (lines 35-47 of [config.py]). *)
Definition raw_A1 : list (list Q) :=
  [[0; 80000; 1000000; 0; 0; 0]; [0; 80000; 1000000; 0; 0; 0];
   [0; 80000; 100000; 0; 0; 0]; [0; 80000; 100000; 0; 0; 0];
   [0; 80000; 100000; 0; 0; 0]; [0; 80000; 1000000; 0; 0; 0]].

Definition raw_A2 : list (list Q) :=
  [[80000; 0; 100000; 0; 0; 0]; [80000; 0; 1000000; 0; 0; 0];
   [80000; 0; 100000; 0; 0; 0]; [80000; 0; 100000; 0; 0; 0];
   [80000; 0; 100000; 0; 0; 0]; [80000; 80000; 1000000; 0; 0; 0]].

Lemma known_cases_lookup (label : string) :
  (In label known_cases -> is_Some (CASE_OVERRIDES !! label))
  /\ (~ In label known_cases -> CASE_OVERRIDES !! label = None).
Proof.
  split.
  - intros [<-|[<-|[<-|[<-|[<-|[<-|[]]]]]]]; apply is_Some_alt; vm_compute; exact I.
  - intros Hn. unfold CASE_OVERRIDES. apply not_elem_of_list_to_map_1.
    intros H. apply Hn. apply list_elem_of_In in H. exact H.
Qed.

Lemma default_params_ok (parsers : str_parsers) :
  exists P, _default_params parsers = Ok P
            /\ py_int parsers (get P "girder_number" (PInt 6)) = Ok 6%Z.
Proof.
  unfold _default_params.
  change (py_int parsers (get get_default_base_params "girder_number" (PInt 6)))
    with (Ok 6%Z : result Z).
  cbn [mbind result_bind]. eexists. split; [reflexivity|].
  vm_compute. reflexivity.
Qed.

Lemma unknown_label_is_rejected (parsers : str_parsers) (case : string) :
  ~ In (str_lower (str_strip case)) known_cases ->
  make_params parsers case = Raise ValueError.
Proof.
  intros Hn. unfold make_params.
  destruct (default_params_ok parsers) as (P & -> & HP). cbn [mbind result_bind].
  rewrite HP. cbn [mbind result_bind].
  now rewrite (proj2 (known_cases_lookup _) Hn).
Qed.

Lemma accepted_label (parsers : str_parsers) (case : string) :
  is_ok (make_params parsers case) = true -> In (str_lower (str_strip case)) known_cases.
Proof.
  intros H. destruct (in_dec string_dec (str_lower (str_strip case)) known_cases) as [|Hn];
    [assumption|].
  rewrite (unknown_label_is_rejected parsers case Hn) in H. discriminate H.
Qed.

(** [make_params] accepts exactly the six labels of [CASE_OVERRIDES],
    compared after [strip()] and [lower()]; any other label raises
    [ValueError]. *)
Theorem make_params_accepts_the_known_cases (parsers : str_parsers) (case : string) :
  let label := str_lower (str_strip case) in
  (In label known_cases -> is_ok (make_params parsers case) = true)
  /\ (~ In label known_cases -> make_params parsers case = Raise ValueError)
  /\ (forall key, In key known_cases <-> is_Some (CASE_OVERRIDES !! key)).
Proof.
  intros label. split; [|split].
  - intros Hin. unfold make_params. cbv zeta. fold label.
    destruct Hin as [<-|[<-|[<-|[<-|[<-|[<-|[]]]]]]]; vm_compute; reflexivity.
  - apply unknown_label_is_rejected.
  - intros key. split; [apply known_cases_lookup|].
    intros Hs. destruct (in_dec string_dec key known_cases) as [|Hn]; [assumption|].
    rewrite (proj2 (known_cases_lookup key) Hn) in Hs. destruct Hs as [? Hs]. discriminate Hs.
Qed.

Lemma make_params_accepts_the_known_cases_witness :
  is_ok (make_params no_strings "  Case5 ") = true
  /\ make_params no_strings "case3" = Raise ValueError.
Proof.
  split.
  - apply (make_params_accepts_the_known_cases no_strings "  Case5 ").
    vm_compute. tauto.
  - apply (make_params_accepts_the_known_cases no_strings "case3").
    vm_compute. intuition discriminate.
Defined.

(** In the dictionary of every accepted case the bearing table agrees with
    the multiplier returned beside it: the table has 12 rows of 6 entries,
    rows 0-5 (abutment A1) are the rows of lines 35-40 times
    [bearing_multiplier], and rows 6-11 (abutment A2) are the rows of lines
    42-47, never scaled. *)
Theorem bearing_table_matches_its_multiplier (parsers : str_parsers) (case : string) :
  is_ok (make_params parsers case) = true ->
  exists (t : list (list Q)) (bm : Q),
    returned_table (make_params parsers case) = Some t
    /\ returned_value (make_params parsers case) "bearing_multiplier" = Some (PFloat bm)
    /\ Forall2 (Forall2 (fun x raw => x == raw * bm)) (take 6 t) raw_A1
    /\ Forall2 (Forall2 Qeq) (drop 6 t) raw_A2.
Proof.
  intros Hok. apply accepted_label in Hok.
  unfold make_params. cbv zeta.
  destruct Hok as [<-|[<-|[<-|[<-|[<-|[<-|[]]]]]]].
  all: eexists; eexists.
  all: split; [vm_compute; reflexivity|].
  all: split; [vm_compute; reflexivity|].
  all: split; cbn [take drop]; repeat (constructor; try reflexivity).
Qed.

Lemma bearing_table_matches_its_multiplier_witness :
  exists (t : list (list Q)) (bm : Q),
    returned_table (make_params no_strings "case2") = Some t
    /\ returned_value (make_params no_strings "case2") "bearing_multiplier"
       = Some (PFloat bm)
    /\ Forall2 (Forall2 (fun x raw => x == raw * bm)) (take 6 t) raw_A1
    /\ Forall2 (Forall2 Qeq) (drop 6 t) raw_A2.
Proof.
  apply (bearing_table_matches_its_multiplier no_strings "case2").
  vm_compute. reflexivity.
Defined.

(** The keys in which the dictionary of a case may differ from the
    defaults. *)
Definition case_keys (label : string) : list string :=
  if String.eqb label "case2" then ["Bearing_Stiffness"; "bearing_multiplier"]
  else if String.eqb label "case5" || String.eqb label "case6" then ["E_girder1"]
  else if String.eqb label "case9" then ["E_deck1"]
  else [].

(** [make_params] writes the keys of the override dictionary it selects
    and, when [bearing_multiplier] is one of them, [Bearing_Stiffness]; it
    leaves every other key of the defaults alone. *)
Lemma make_params_frame (parsers : str_parsers) (case key : string)
    (P p' overrides : Py.params) :
  _default_params parsers = Ok P ->
  CASE_OVERRIDES !! str_lower (str_strip case) = Some overrides ->
  make_params parsers case = Ok p' ->
  overrides !! key = None ->
  (key = "Bearing_Stiffness" -> overrides !! "bearing_multiplier" = None) ->
  p' !! key = P !! key.
Proof.
  intros HP Hov Hm Hkey Hbs. unfold make_params in Hm. cbv zeta in Hm.
  rewrite HP in Hm. cbn [mbind result_bind] in Hm.
  destruct (py_int parsers (get P "girder_number" (PInt 6))) as [gn|e]; [|discriminate Hm].
  cbn [mbind result_bind] in Hm. rewrite Hov in Hm.
  set (ov := if is_deck_marker (overrides !! "E_deck1") then _ else overrides) in Hm.
  assert (Hov' : ov !! key = None /\ ov !! "bearing_multiplier" = overrides !! "bearing_multiplier").
  { unfold ov. destruct (overrides !! "E_deck1") as [v|] eqn:Ed; cbn [is_deck_marker].
    2: { split; [exact Hkey|reflexivity]. }
    destruct (match v with PStr s => String.eqb s "deck_0.7" | _ => false end).
    2: { split; [exact Hkey|reflexivity]. }
    split.
    - rewrite lookup_insert_ne; [exact Hkey|]. intros <-. congruence.
    - rewrite lookup_insert_ne; [reflexivity|]. discriminate. }
  destruct Hov' as [Hk Hb]. clearbody ov.
  destruct (ov !! "bearing_multiplier") as [v|] eqn:Ebm.
  - destruct (py_float parsers v) as [bm|e]; [|discriminate Hm].
    cbn [mbind result_bind] in Hm.
    destruct (subscript P "consts1" ≫= as_num) as [c1|e]; [|discriminate Hm].
    cbn [mbind result_bind] in Hm.
    destruct (subscript P "consts_crack" ≫= as_num) as [cc|e]; [|discriminate Hm].
    cbn [mbind result_bind] in Hm. injection Hm as <-.
    unfold update. rewrite lookup_union_r.
    2: { apply lookup_delete_None. now right. }
    rewrite lookup_insert_ne by (intros <-; congruence).
    rewrite lookup_insert_ne; [reflexivity|].
    intros <-. specialize (Hbs eq_refl). congruence.
  - cbn [mbind result_bind] in Hm. injection Hm as <-.
    unfold update. now rewrite lookup_union_r.
Qed.

(** The keys of the override dictionary of a case are among its
    [case_keys]; so is [Bearing_Stiffness] when the case overrides
    [bearing_multiplier]. *)
Lemma overrides_in_case_keys (label : string) (overrides : Py.params) :
  In label known_cases ->
  CASE_OVERRIDES !! label = Some overrides ->
  (forall key, is_Some (overrides !! key) -> In key (case_keys label))
  /\ (is_Some (overrides !! "bearing_multiplier") -> In "Bearing_Stiffness" (case_keys label)).
Proof.
  intros Hin Hov.
  destruct Hin as [<-|[<-|[<-|[<-|[<-|[<-|[]]]]]]].
  1,2: (assert (E : overrides = ∅) by (vm_compute in Hov; now injection Hov);
        subst overrides; split; [intros key|]; rewrite lookup_empty; intros [? H];
        discriminate H).
  all: unfold CASE_OVERRIDES in Hov.
  all: repeat (rewrite list_to_map_cons in Hov;
               first [ rewrite lookup_insert_ne in Hov by discriminate
                     | rewrite lookup_insert in Hov ]).
  all: injection Hov as <-.
  all: split; [intros key [v Hv]; apply lookup_singleton_Some in Hv as [<- _]; cbn; tauto|].
  all: intros [v Hv]; apply lookup_singleton_Some in Hv as [Hv _];
       first [discriminate Hv | cbn; tauto].
Qed.

(** What the cases change: the dictionary of a case differs from the
    defaults of [_default_params] in [Bearing_Stiffness] and
    [bearing_multiplier] for case2, in [E_girder1] for case5 and case6, in
    [E_deck1] for case9, and in nothing for baseline and case1; these keys
    do differ, and no other key does. *)
Theorem a_case_changes_only_its_keys (parsers : str_parsers) (case key : string) :
  let label := str_lower (str_strip case) in
  is_ok (make_params parsers case) = true ->
  (In key (case_keys label) <->
   returned_value (make_params parsers case) key
   <> returned_value (_default_params parsers) key).
Proof.
  intros label Hok.
  pose proof (accepted_label parsers case Hok) as Hin. fold label in Hin.
  split.
  - clear Hok. unfold make_params. cbv zeta. fold label. revert Hin. generalize label.
    clear label. intros label Hin Hk.
    destruct Hin as [<-|[<-|[<-|[<-|[<-|[<-|[]]]]]]]; cbn in Hk.
    all: repeat (destruct Hk as [<-|Hk]; [vm_compute; intros H; discriminate H|]).
    all: destruct Hk.
  - intros Hne. destruct (in_dec string_dec key (case_keys label)) as [|Hn]; [assumption|].
    exfalso. apply Hne.
    destruct (default_params_ok parsers) as (P & HP & _).
    destruct (make_params parsers case) as [p'|e] eqn:Hm; [|discriminate Hok].
    rewrite HP. cbn [returned_value].
    destruct (proj1 (known_cases_lookup label) Hin) as [ov Hov].
    destruct (overrides_in_case_keys label ov Hin Hov) as [Hkeys Hbs].
    apply (make_params_frame parsers case key P p' ov HP Hov Hm).
    + destruct (ov !! key) as [v|] eqn:Ek; [|reflexivity].
      exfalso. apply Hn, Hkeys. now exists v.
    + intros ->. destruct (ov !! "bearing_multiplier") as [v|] eqn:Eb; [|reflexivity].
      exfalso. apply Hn, Hbs. now exists v.
Qed.

Lemma a_case_changes_only_its_keys_witness :
  returned_value (make_params no_strings "case9") "E_deck1"
  <> returned_value (_default_params no_strings) "E_deck1"
  /\ ~ returned_value (make_params no_strings "case9") "E_deck2"
       <> returned_value (_default_params no_strings) "E_deck2".
Proof.
  assert (Hok : is_ok (make_params no_strings "case9") = true) by (vm_compute; reflexivity).
  split.
  - apply (proj1 (a_case_changes_only_its_keys no_strings "case9" "E_deck1" Hok)).
    vm_compute. left. reflexivity.
  - intros H.
    pose proof (proj2 (a_case_changes_only_its_keys no_strings "case9" "E_deck2" Hok) H)
      as Hin.
    vm_compute in Hin. destruct Hin as [Hin|[]]. discriminate Hin.
Defined.

End CasesSpec.

(** ** Derived parameters of the workbook route *)

Module ExcelSpec.
Import Py Config ExcelIO.
Local Open Scope Q_scope.
Local Open Scope string_scope.






Section Derive.

Context (parsers : str_parsers).




End Derive.





(** *** The bearing table of the workbook route *)

Lemma option_all_map_Some {A B} (f : A -> option B) (g : A -> B) (l : list A) :
  (forall x, f x = Some (g x)) -> option_all (map f l) = Some (map g l).
Proof.
  intros H. induction l as [|x l IH]; cbn; [reflexivity|].
  unfold option_all in IH. now rewrite H, IH.
Qed.

(** A table written with [tolist()] reads back as the same rows. *)
Lemma rows_of_floats_tolist (t : list (list Q)) :
  rows_of_floats (tolist (Matrix t)) = Some t.
Proof.
  cbn [tolist rows_of_floats]. rewrite map_map.
  rewrite (option_all_map_Some _ (fun row => row)); [now rewrite map_id|].
  intros row. rewrite map_map.
  rewrite (option_all_map_Some _ (fun x => x)); [now rewrite map_id | reflexivity].
Qed.

Section Bearings.

Context (parsers : str_parsers).
Context (np_array_float : pyval -> result ndarray).
(** numpy converts a two-dimensional array of floats to itself. *)
Context (H_matrix : forall t, np_array_float (PTable t) = Ok (Matrix t)).

Lemma derive_bearing_stiffness_multiplies (p : Py.params) (t : list (list Q)) (m : Q) :
  p !! "bearing_mode" = None ->
  p !! "Bearing_Stiffness" = Some (PTable t) ->
  p !! "bearing_multiplier" = Some (PFloat m) ->
  derive_bearing_stiffness parsers np_array_float p None
  = Ok (<["Bearing_Stiffness" := tolist (Matrix (map (map (fun x => x * m)) t))]> p).
Proof.
  intros Hmode Hbs Hbm.
  unfold derive_bearing_stiffness, get, contains, subscript.
  rewrite Hmode, Hbs, Hbm. cbn [mode_is_table]. 
  change (String.eqb (str_lower (str_strip "multiplier")) "table") with false.
  cbn [py_float mbind result_bind]. rewrite H_matrix. reflexivity.
Qed.

End Bearings.

(** [load_params_from_excel] starts from the dictionary of
    [make_params("baseline")], whose table already has the rows of abutment
    A1 scaled by 0.3, and ends with [derive_bearing_stiffness], which in
    multiplier mode multiplies every row by [bearing_multiplier].  With a
    multiplier [m] the table it leaves has the rows of A1 scaled by
    [0.3 * m] and the rows of A2 scaled by [m]; no other key changes. *)
Theorem workbook_route_scales_every_row
    (parsers : str_parsers) (np_array_float : pyval -> result ndarray) (m : Q) :
  (forall t, np_array_float (PTable t) = Ok (Matrix t)) ->
  let p := <["bearing_multiplier" := PFloat m]> Config.baseline_params in
  exists (p' : Py.params) (t : list (list Q)),
    derive_bearing_stiffness parsers np_array_float p None = Ok p'
    /\ (p' !! "Bearing_Stiffness" ≫= rows_of_floats) = Some t
    /\ Forall2 (Forall2 (fun x raw => x == raw * (3 # 10) * m)) (take 6 t) CasesSpec.raw_A1
    /\ Forall2 (Forall2 (fun x raw => x == raw * m)) (drop 6 t) CasesSpec.raw_A2
    /\ (forall key, key <> "Bearing_Stiffness" -> p' !! key = p !! key).
Proof.
  intros H_matrix p.
  assert (Hbs : exists T0,
            p !! "Bearing_Stiffness" = Some (PTable T0)
            /\ Forall2 (Forall2 (fun x raw => x == raw * (3 # 10))) (take 6 T0)
                       CasesSpec.raw_A1
            /\ Forall2 (Forall2 Qeq) (drop 6 T0) CasesSpec.raw_A2).
  { eexists. split; [unfold p; rewrite lookup_insert_ne by discriminate;
                     vm_compute; reflexivity|].
    split; cbn [take drop]; repeat (constructor; try reflexivity). }
  destruct Hbs as (T0 & Hbs & H1 & H2).
  assert (Hmode : p !! "bearing_mode" = None).
  { unfold p. rewrite lookup_insert_ne by discriminate. vm_compute. reflexivity. }
  assert (Hbm : p !! "bearing_multiplier" = Some (PFloat m)).
  { unfold p. apply lookup_insert_eq. }
  eexists. eexists.
  split; [apply (derive_bearing_stiffness_multiplies parsers np_array_float H_matrix
                   p T0 m Hmode Hbs Hbm)|].
  split; [rewrite lookup_insert_eq; cbn [mbind option_bind]; apply rows_of_floats_tolist|].
  split; [|split].
  - rewrite <- fmap_take. apply Forall2_fmap_l.
    eapply Forall2_impl; [exact H1|]. intros row raw Hrow. cbn.
    apply Forall2_fmap_l. eapply Forall2_impl; [exact Hrow|].
    intros x r E. cbn. now rewrite E.
  - rewrite <- fmap_drop. apply Forall2_fmap_l.
    eapply Forall2_impl; [exact H2|]. intros row raw Hrow. cbn.
    apply Forall2_fmap_l. eapply Forall2_impl; [exact Hrow|].
    intros x r E. cbn. now rewrite E.
  - intros key Hk. now rewrite lookup_insert_ne.
Qed.

Lemma workbook_route_scales_every_row_witness :
  let np_array_float := fun v => match v with
                                 | PTable t => Ok (Matrix t)
                                 | _ => Raise TypeError
                                 end in
  let p := <["bearing_multiplier" := PFloat (3 # 10)]> Config.baseline_params in
  exists (p' : Py.params) (t : list (list Q)),
    derive_bearing_stiffness no_strings np_array_float p None = Ok p'
    /\ (p' !! "Bearing_Stiffness" ≫= rows_of_floats) = Some t
    /\ Forall2 (Forall2 (fun x raw => x == raw * (3 # 10) * (3 # 10))) (take 6 t)
               CasesSpec.raw_A1
    /\ Forall2 (Forall2 (fun x raw => x == raw * (3 # 10))) (drop 6 t) CasesSpec.raw_A2
    /\ (forall key, key <> "Bearing_Stiffness" -> p' !! key = p !! key).
Proof.
  intros np_array_float.
  apply (workbook_route_scales_every_row no_strings np_array_float (3 # 10)).
  reflexivity.
Defined.

End ExcelSpec.

(** ** The model builder *)

Module BuilderSpec.
Import Py PyFacts Ops Builder.
Local Open Scope Q_scope.
Local Open Scope string_scope.

(** *** Computations that talk to the solver *)

Lemma bind_ok {A B} (c : M A) (f : A -> M B) (log log' : list cmd) (a : A) :
  c log = Ok (a, log') -> (c ≫= f) log = f a log'.
Proof. intros H. unfold mbind, M_bind. now rewrite H. Qed.

Lemma bind_raise {A B} (c : M A) (f : A -> M B) (log : list cmd) (e : exn) :
  c log = Raise e -> (c ≫= f) log = Raise e.
Proof. intros H. unfold mbind, M_bind. now rewrite H. Qed.

Lemma lift_ok {A} (r : result A) (a : A) (log : list cmd) :
  r = Ok a -> lift r log = Ok (a, log).
Proof. intros ->. reflexivity. Qed.


Lemma range_nil (lo hi : Z) : (hi <= lo)%Z -> range lo hi = [].
Proof.
  intros H. unfold range. replace (Z.to_nat (hi - lo)) with 0%nat by lia. reflexivity.
Qed.

Lemma range_cons (lo hi : Z) : (lo < hi)%Z -> range lo hi = lo :: range (lo + 1) hi.
Proof.
  intros H. unfold range.
  replace (Z.to_nat (hi - lo)) with (S (Z.to_nat (hi - (lo + 1)))) by lia.
  cbn [seq map]. f_equal; [lia|].
  rewrite <- seq_shift, map_map. apply map_ext. intros k. lia.
Qed.

Lemma length_range (lo hi : Z) : length (range lo hi) = Z.to_nat (hi - lo).
Proof. unfold range. now rewrite length_map, length_seq. Qed.

Lemma in_range (lo hi k : Z) : In k (range lo hi) <-> (lo <= k < hi)%Z.
Proof.
  unfold range. rewrite in_map_iff. split.
  - intros (n & <- & Hn). apply in_seq in Hn. lia.
  - intros H. exists (Z.to_nat (k - lo)). split; [lia|]. apply in_seq. lia.
Qed.

Lemma range_lookup (lo hi : Z) (k : nat) :
  (Z.of_nat k < hi - lo)%Z -> range lo hi !! k = Some (lo + Z.of_nat k)%Z.
Proof.
  intros H. unfold range. rewrite list_lookup_fmap.
  rewrite lookup_seq_lt by lia. reflexivity.
Qed.

Lemma nodes_of_app (l1 l2 : list cmd) : nodes_of (l1 ++ l2) = (nodes_of l1 ++ nodes_of l2)%list.
Proof. unfold nodes_of. apply flat_map_app. Qed.

Lemma masses_of_app (l1 l2 : list cmd) :
  masses_of (l1 ++ l2) = (masses_of l1 ++ masses_of l2)%list.
Proof. unfold masses_of. apply flat_map_app. Qed.

(** A computation runs quietly when it returns, from every log, having sent
    neither a node nor a mass. *)
Definition quietly {A} (c : M A) (post : A -> Prop) : Prop :=
  forall log, exists a out,
    c log = Ok (a, log ++ out)%list /\ nodes_of out = [] /\ masses_of out = [] /\ post a.

Lemma quietly_ret {A} (a : A) (post : A -> Prop) : post a -> quietly (mret a) post.
Proof.
  intros H log. exists a, []. rewrite app_nil_r. repeat split; auto.
Qed.

Lemma quietly_lift {A} (r : result A) (a : A) (post : A -> Prop) :
  r = Ok a -> post a -> quietly (lift r) post.
Proof.
  intros -> H log. exists a, []. rewrite app_nil_r. repeat split; auto.
Qed.

Lemma quietly_emit (c : cmd) :
  nodes_of [c] = [] -> masses_of [c] = [] -> quietly (emit c) (fun _ => True).
Proof.
  intros Hn Hm log. exists tt, [c]. repeat split; auto.
Qed.

Lemma quietly_bind {A B} (c : M A) (f : A -> M B) (mid : A -> Prop) (post : B -> Prop) :
  quietly c mid -> (forall a, mid a -> quietly (f a) post) -> quietly (c ≫= f) post.
Proof.
  intros Hc Hf log.
  destruct (Hc log) as (a & out1 & E1 & Hn1 & Hm1 & Ha).
  destruct (Hf a Ha (log ++ out1)%list) as (b & out2 & E2 & Hn2 & Hm2 & Hb).
  exists b, (out1 ++ out2)%list.
  rewrite (bind_ok _ _ _ _ _ E1), E2, app_assoc.
  rewrite nodes_of_app, masses_of_app, Hn1, Hn2, Hm1, Hm2. repeat split; auto.
Qed.

Lemma quietly_weaken {A} (c : M A) (post post' : A -> Prop) :
  quietly c post -> (forall a, post a -> post' a) -> quietly c post'.
Proof.
  intros Hc Himp log. destruct (Hc log) as (a & out & E & Hn & Hm & Ha).
  exists a, out. repeat split; auto.
Qed.

Lemma quietly_forM {S X} (xs : list X) (body : S -> X -> M S) (step : S -> X -> S) (acc : S) :
  (forall acc x, In x xs -> quietly (body acc x) (fun acc' => acc' = step acc x)) ->
  quietly (forM xs acc body) (fun r => r = fold_left step xs acc).
Proof.
  revert acc. induction xs as [|x xs IH]; intros acc Hbody; cbn [forM fold_left].
  - now apply quietly_ret.
  - eapply quietly_bind.
    + apply Hbody. now left.
    + intros acc' ->. apply IH. intros acc0 x0 Hin. apply Hbody. now right.
Qed.

Lemma quietly_forM_ {X} (xs : list X) (body : X -> M unit) :
  (forall x, In x xs -> quietly (body x) (fun _ => True)) ->
  quietly (forM_ xs body) (fun _ => True).
Proof.
  intros Hbody. unfold forM_.
  eapply quietly_weaken.
  - apply (quietly_forM xs (fun _ x => body x) (fun _ _ => tt) tt).
    intros [] x Hin. eapply quietly_weaken; [now apply Hbody|]. now intros [].
  - auto.
Qed.

(** A loop whose body returns and sends commands that depend on the
    iteration only. *)
Lemma forM_emits {S X} (xs : list X) (body : S -> X -> M S) (step : S -> X -> S)
    (out : X -> list cmd) (acc : S) (log : list cmd) :
  (forall acc x log, In x xs -> body acc x log = Ok (step acc x, log ++ out x)%list) ->
  forM xs acc body log = Ok (fold_left step xs acc, log ++ flat_map out xs)%list.
Proof.
  revert acc log. induction xs as [|x xs IH]; intros acc log Hbody; cbn [forM fold_left flat_map].
  - now rewrite app_nil_r.
  - rewrite (bind_ok _ _ _ _ _ (Hbody acc x log (or_introl eq_refl))).
    rewrite IH by (intros; apply Hbody; now right).
    now rewrite app_assoc.
Qed.

Lemma getitem_in_range {A} (l : list A) (i : Z) :
  (0 <= i < Z.of_nat (length l))%Z ->
  exists x, getitem l i = Ok x /\ l !! Z.to_nat i = Some x.
Proof.
  intros H. destruct (lookup_lt_is_Some_2 l (Z.to_nat i)) as [x Hx]; [lia|].
  exists x. split; [|exact Hx].
  rewrite <- (Z2Nat.id i) by lia. now apply getitem_lookup.
Qed.

Lemma mapM_length {A B} (f : A -> result B) (l : list A) (l' : list B) :
  mapM f l = Ok l' -> length l' = length l.
Proof.
  revert l'. induction l as [|x l IH]; intros l' H; cbn [mapM] in H.
  - now injection H as <-.
  - destruct (f x) as [y|]; [|discriminate]. cbn in H.
    destruct (mapM f l) as [ys|]; [|discriminate]. cbn in H.
    injection H as <-. cbn. now rewrite (IH ys).
Qed.

Lemma mapM_lookup {A B} (f : A -> result B) (l : list A) (l' : list B) (i : nat) (x : A) :
  mapM f l = Ok l' -> l !! i = Some x -> exists y, f x = Ok y /\ l' !! i = Some y.
Proof.
  revert l' i. induction l as [|a l IH]; intros l' i H Hx; [discriminate|].
  cbn [mapM] in H.
  destruct (f a) as [y|] eqn:Ea; [|discriminate]. cbn in H.
  destruct (mapM f l) as [ys|] eqn:Em; [|discriminate]. cbn in H.
  injection H as <-. destruct i as [|i]; cbn in Hx.
  - injection Hx as <-. exists y. auto.
  - destruct (IH ys i eq_refl Hx) as (z & Hz & Hl). exists z. auto.
Qed.

Lemma quietly_lift_eq {A} (r : result A) (a : A) :
  r = Ok a -> quietly (lift r) (eq a).
Proof. intros H. now apply (quietly_lift r a). Qed.

Lemma py_div_ok (x y : Q) : ~ y == 0 -> py_div x y = Ok (x / y).
Proof.
  intros H. unfold py_div. destruct (Qeq_bool y 0) eqn:E; [|reflexivity].
  apply Qeq_bool_iff in E. contradiction.
Qed.

Lemma inject_Z_nonzero (z : Z) : z <> 0%Z -> ~ inject_Z z == 0.
Proof.
  intros H E. apply H. unfold Qeq in E. simpl in E. lia.
Qed.

Lemma getitem_as_num (l : list pyval) (nums : list Q) (i : Z) :
  mapM as_num l = Ok nums -> (0 <= i < Z.of_nat (length nums))%Z ->
  exists y, (getitem l i ≫= as_num) = Ok y.
Proof.
  intros Hm Hi. rewrite (mapM_length _ _ _ Hm) in Hi.
  destruct (getitem_in_range l i Hi) as (x & Ex & Hx).
  destruct (mapM_lookup _ _ _ _ _ Hm Hx) as (y & Ey & _).
  exists y. rewrite Ex. exact Ey.
Qed.

(** *** [Analysis.girder] with its free names bound *)

Section FiberLoop.

Context (G : module_globals) (inputs : girder_inputs).
Context (number_tendon : Z) (z_int y_int areas : list Q).
Context (H_nt : g_number_tendon G = Some number_tendon).
Context (H_zi : mapM as_num (z_intercept_list inputs) = Ok z_int).
Context (H_yi : mapM as_num (y_intercept_list inputs) = Ok y_int).
Context (H_ap : mapM as_num (Ap_N inputs) = Ok areas).
Context (H_nz : (number_tendon <= Z.of_nat (length z_int))%Z).
Context (H_ny : (number_tendon <= Z.of_nat (length y_int))%Z).
Context (H_na : (number_tendon <= Z.of_nat (length areas))%Z).

Lemma girder_fiber_loop_quiet (imax : Z) (L GJ : Q) (IDconcU IDstrand_initial : Z)
    (sections1 : list (list Z * Z * Z)) (nodes_name : list (Z * (Q * Q * Q)))
    (a_coef b_coef : list Q) :
  (1 < imax)%Z ->
  (imax <= Z.of_nat (length nodes_name))%Z ->
  (forall sec nfY nfZ, In (sec, nfY, nfZ) sections1 -> (3 <= length sec)%nat) ->
  (number_tendon <= Z.of_nat (length a_coef))%Z ->
  (number_tendon <= Z.of_nat (length b_coef))%Z ->
  quietly (girder_fiber_loop G inputs imax L GJ IDconcU IDstrand_initial sections1
             nodes_name a_coef b_coef) (fun _ => True).
Proof.
  intros Himax Hrows Hsec Hna Hnb. unfold girder_fiber_loop.
  apply quietly_forM_. intros i Hi. apply in_range in Hi.
  eapply quietly_bind.
  { apply quietly_lift_eq, py_div_ok, inject_Z_nonzero. lia. }
  intros a <-.
  destruct (getitem_in_range nodes_name i) as (row & Er & _); [lia|].
  eapply quietly_bind; [apply (quietly_lift_eq _ _ Er)|]. intros ? <-.
  eapply quietly_bind; [now apply quietly_emit|]. intros _ _.
  apply quietly_forM_. intros [[sec nfY] nfZ] Hin.
  specialize (Hsec sec nfY nfZ Hin).
  eapply quietly_bind; [now apply quietly_emit|]. intros _ _.
  eapply quietly_bind.
  { apply quietly_lift_eq. rewrite H_nt. reflexivity. }
  intros ? <-.
  apply quietly_forM_. intros k Hk. apply in_range in Hk.
  destruct (getitem_in_range a_coef (k - 1)) as (a_k & Ea & _); [lia|].
  destruct (getitem_in_range b_coef (k - 1)) as (b_k & Eb & _); [lia|].
  destruct (getitem_as_num _ _ (k - 1) H_zi) as (z_k & Ez); [lia|].
  destruct (getitem_as_num _ _ (k - 1) H_yi) as (y_k & Ey); [lia|].
  destruct (getitem_as_num _ _ (k - 1) H_ap) as (area & Ear); [lia|].
  destruct (getitem_in_range sec 0) as (sec0 & E0 & _); [lia|].
  destruct (getitem_in_range sec 2) as (sec2 & E2 & _); [lia|].
  eapply quietly_bind; [apply (quietly_lift_eq _ _ Ea)|]. intros ? <-.
  eapply quietly_bind; [apply (quietly_lift_eq _ _ Ez)|]. intros ? <-.
  eapply quietly_bind; [apply (quietly_lift_eq _ _ E0)|]. intros ? <-.
  eapply quietly_bind; [apply (quietly_lift_eq _ _ E2)|]. intros ? <-.
  match goal with |- quietly (if ?c then _ else _) _ => destruct c end.
  - eapply quietly_bind; [apply (quietly_lift_eq _ _ Eb)|]. intros ? <-.
    eapply quietly_bind; [apply (quietly_lift_eq _ _ Ey)|]. intros ? <-.
    eapply quietly_bind; [apply (quietly_lift_eq _ _ Ear)|]. intros ? <-.
    now apply quietly_emit.
  - eapply quietly_bind; [apply (quietly_lift_eq _ _ Eb)|]. intros ? <-.
    eapply quietly_bind; [apply (quietly_lift_eq _ _ Ey)|]. intros ? <-.
    now apply quietly_emit.
Qed.

End FiberLoop.

Lemma fold_left_snoc_map {X Y} (g : X -> Y) (xs : list X) (acc : list Y) :
  fold_left (fun acc x => acc ++ [g x])%list xs acc = (acc ++ map g xs)%list.
Proof.
  revert acc. induction xs as [|x xs IH]; intros acc; cbn [fold_left map].
  - now rewrite app_nil_r.
  - rewrite IH, <- app_assoc. reflexivity.
Qed.

(** The tag stored in row [i] of a node array. *)
Definition row_tag (nodes_name : list (Z * (Q * Q * Q))) (i : Z) : Z :=
  match nodes_name !! Z.to_nat i with
  | Some row => fst row
  | None => 0%Z
  end.

(** The element loop returns the tags of the first [division] rows. *)
Lemma girder_element_loop_quiet (girder_number imax division : Z)
    (nodes_name : list (Z * (Q * Q * Q))) :
  (division < Z.of_nat (length nodes_name))%Z ->
  quietly (girder_element_loop girder_number imax division nodes_name)
          (fun beam_el => beam_el = map (row_tag nodes_name) (range 0 division)).
Proof.
  intros Hlen. unfold girder_element_loop.
  eapply quietly_weaken.
  - apply (quietly_forM _ _ (fun acc i => acc ++ [row_tag nodes_name i])%list).
    intros acc i Hi. apply in_range in Hi.
    destruct (getitem_in_range nodes_name i) as (row & Er & Hr); [lia|].
    destruct (getitem_in_range nodes_name (i + 1)) as (next & En & _); [lia|].
    eapply quietly_bind; [apply (quietly_lift_eq _ _ Er)|]. intros ? <-.
    eapply quietly_bind; [now apply quietly_emit|]. intros _ _.
    eapply quietly_bind.
    { instantiate (1 := fun _ => True).
      destruct (i <? imax + 1)%Z.
      - eapply quietly_bind; [apply (quietly_lift_eq _ _ En)|]. intros ? <-.
        now apply quietly_emit.
      - now apply quietly_ret. }
    intros _ _. apply quietly_ret. unfold row_tag. now rewrite Hr.
  - intros beam_el ->. now rewrite fold_left_snoc_map.
Qed.

Lemma fold_left_two_lists {X Y} (g : X -> Y) (xs : list X) (a b : list Y) :
  fold_left (fun '(a, b) x => (a ++ [g x], b ++ [g x])%list) xs (a, b)
  = ((a ++ map g xs)%list, (b ++ map g xs)%list).
Proof.
  revert a b. induction xs as [|x xs IH]; intros a b; cbn [fold_left map].
  - now rewrite !app_nil_r.
  - rewrite IH, <- !app_assoc. reflexivity.
Qed.

Lemma flat_map_singleton {X Y} (f : X -> Y) (l : list X) :
  flat_map (fun x => [f x]) l = map f l.
Proof. induction l as [|x l IH]; cbn; [reflexivity | now rewrite IH]. Qed.

(** The node loop creates the nodes of the line in order and leaves two
    lists of half element masses. *)
Lemma girder_node_loop_spec (girder_number imax division : Z)
    (x_loc y_loc centroid L rho Acol : Q) (log : list cmd) :
  division <> 0%Z ->
  girder_node_loop girder_number imax division x_loc y_loc centroid L rho Acol log
  = Ok ((map (fun _ => rho * Acol * L / inject_Z division / 2) (range 0 imax),
         map (fun _ => rho * Acol * L / inject_Z division / 2) (range 0 imax)),
        log ++ map (fun j => Node (girder_node_tag girder_number j)
                                  (x_loc + L / inject_Z division * inject_Z j)
                                  y_loc (- centroid))
                   (range 0 imax))%list.
Proof.
  intros Hdiv. unfold girder_node_loop.
  pose proof (inject_Z_nonzero division Hdiv) as Hnz.
  rewrite (forM_emits _ _
             (fun '(a, b) (_ : Z) =>
                (a ++ [rho * Acol * L / inject_Z division / 2],
                 b ++ [rho * Acol * L / inject_Z division / 2])%list)
             (fun j => [Node (girder_node_tag girder_number j)
                             (x_loc + L / inject_Z division * inject_Z j)
                             y_loc (- centroid)])).
  - rewrite (fold_left_two_lists (fun _ : Z => rho * Acol * L / inject_Z division / 2)).
    rewrite flat_map_singleton. reflexivity.
  - intros [a b] j log0 _.
    unfold mbind, M_bind, lift, emit, mret, M_ret.
    rewrite !py_div_ok by exact Hnz. reflexivity.
Qed.

(** The mass loop sends one mass per node, read from [mass_all]. *)
Lemma girder_mass_loop_spec (girder_number imax : Z) (mass_all : list Q)
    (mass : Z -> Q) (log : list cmd) :
  (forall j, (0 <= j < imax)%Z -> mass_all !! Z.to_nat j = Some (mass j)) ->
  girder_mass_loop girder_number imax mass_all log
  = Ok (tt, log ++ map (fun j => Mass (girder_node_tag girder_number j) 0 0 (mass j))
                       (range 0 imax))%list.
Proof.
  intros Hmass. unfold girder_mass_loop, forM_.
  rewrite (forM_emits _ _ (fun _ _ => tt)
             (fun j => [Mass (girder_node_tag girder_number j) 0 0 (mass j)])).
  - rewrite flat_map_singleton. f_equal. f_equal.
    clear. induction (range 0 imax); cbn; auto.
  - intros [] j log0 Hj. apply in_range in Hj.
    assert (Hget : getitem mass_all j = Ok (mass j)).
    { rewrite <- (Z2Nat.id j) at 1 by lia. apply getitem_lookup, Hmass. lia. }
    unfold mbind, M_bind, lift, emit. rewrite Hget. reflexivity.
Qed.

Lemma nodes_of_map_Node (f : Z -> Z) (x y z : Z -> Q) (js : list Z) :
  nodes_of (map (fun j => Node (f j) (x j) (y j) (z j)) js)
  = map (fun j => (f j, (x j, y j, z j))) js.
Proof. induction js as [|j js IH]; cbn; [reflexivity | now rewrite <- IH]. Qed.

Lemma masses_of_map_Node (f : Z -> Z) (x y z : Z -> Q) (js : list Z) :
  masses_of (map (fun j => Node (f j) (x j) (y j) (z j)) js) = [].
Proof. induction js as [|j js IH]; cbn; [reflexivity | exact IH]. Qed.

Lemma masses_of_map_Mass (f : Z -> Z) (x y z : Z -> Q) (js : list Z) :
  masses_of (map (fun j => Mass (f j) (x j) (y j) (z j)) js)
  = map (fun j => (f j, (x j, y j, z j))) js.
Proof. induction js as [|j js IH]; cbn; [reflexivity | now rewrite <- IH]. Qed.

Lemma nodes_of_map_Mass (f : Z -> Z) (x y z : Z -> Q) (js : list Z) :
  nodes_of (map (fun j => Mass (f j) (x j) (y j) (z j)) js) = [].
Proof. induction js as [|j js IH]; cbn; [reflexivity | exact IH]. Qed.

(** *** Reading the nodes of a line back from the domain *)

Lemma dict_get_app_fresh {V} (d1 d2 : dict V) (k : Z) :
  ~ In k (map fst d1) -> dict_get (d1 ++ d2)%list k = dict_get d2 k.
Proof.
  induction d1 as [|[k' v'] d1 IH]; intros Hk; cbn; [reflexivity|].
  destruct (Z.eqb k' k) eqn:E.
  - apply Z.eqb_eq in E. exfalso. apply Hk. now left.
  - apply IH. intros Hin. apply Hk. now right.
Qed.

Lemma dict_get_NoDup {V} (d : dict V) (k : Z) (v : V) :
  List.NoDup (map fst d) -> In (k, v) d -> dict_get d k = Some v.
Proof.
  induction d as [|[k' v'] d IH]; intros Hnd Hin; [destruct Hin|].
  cbn in Hnd. apply List.NoDup_cons_iff in Hnd as [Hfresh Hnd].
  cbn. destruct Hin as [Heq|Hin].
  - injection Heq as -> ->. now rewrite Z.eqb_refl.
  - destruct (Z.eqb k' k) eqn:E.
    + apply Z.eqb_eq in E. subst k'. exfalso. apply Hfresh.
      apply in_map_iff. now exists (k, v).
    + now apply IH.
Qed.

Lemma read_coords (ts : list Z) (coord : Z -> Q * Q * Q) (acc : list (Q * Q * Q))
    (log : list cmd) :
  (forall t, In t ts -> dict_get (nodes_of log) t = Some (coord t)) ->
  forM ts acc (fun acc t => xyz ← nodeCoord t; mret (acc ++ [xyz])%list) log
  = Ok ((acc ++ map coord ts)%list, log).
Proof.
  revert acc. induction ts as [|t ts IH]; intros acc Hc; cbn [forM map].
  - now rewrite app_nil_r.
  - assert (E : (xyz ← nodeCoord t; mret (acc ++ [xyz])%list) log
                = Ok ((acc ++ [coord t])%list, log)).
    { unfold mbind, M_bind, nodeCoord. rewrite (Hc t) by now left. reflexivity. }
    rewrite (bind_ok _ _ _ _ _ E), IH, <- app_assoc; [reflexivity|].
    intros t' Ht'. apply Hc. now right.
Qed.

Lemma filter_all {A} (f : A -> bool) (l : list A) :
  (forall x, In x l -> f x = true) -> List.filter f l = l.
Proof.
  induction l as [|x l IH]; intros H; cbn; [reflexivity|].
  rewrite (H x) by now left. f_equal. apply IH. intros y Hy. apply H. now right.
Qed.

Lemma filter_none {A} (f : A -> bool) (l : list A) :
  (forall x, In x l -> f x = false) -> List.filter f l = [].
Proof.
  induction l as [|x l IH]; intros H; cbn; [reflexivity|].
  rewrite (H x) by now left. apply IH. intros y Hy. apply H. now right.
Qed.

Lemma range_sorted (lo hi : Z) : StronglySorted Z.lt (range lo hi).
Proof.
  unfold range. generalize (Z.to_nat (hi - lo)) as n. intros n.
  assert (H : forall s, StronglySorted Z.lt (map (fun k => (lo + Z.of_nat k)%Z) (seq s n))).
  { induction n as [|n IH]; intros s; cbn; constructor.
    - apply IH.
    - apply List.Forall_forall. intros x Hx. apply in_map_iff in Hx as (k & <- & Hk).
      apply in_seq in Hk. lia. }
  apply H.
Qed.

Lemma merge_sort_sorted (l : list Z) : StronglySorted Z.lt l -> merge_sort Z.le l = l.
Proof.
  intros Hs.
  apply (StronglySorted_unique_strong Z.le).
  - intros x1 x2 _ _ H1 H2. lia.
  - apply StronglySorted_merge_sort; [intros x y z H1 H2; lia | apply _].
  - clear -Hs. induction Hs as [|x l Hs IH Hx]; constructor; auto.
    eapply List.Forall_impl; [|exact Hx]. intros. cbn in *. lia.
  - apply merge_sort_Permutation.
Qed.

Lemma range_NoDup (lo hi : Z) : List.NoDup (range lo hi).
Proof.
  pose proof (range_sorted lo hi) as Hs.
  induction Hs as [|x l Hs IH Hx]; constructor; auto.
  intros Hin. rewrite List.Forall_forall in Hx. specialize (Hx x Hin). lia.
Qed.

Lemma setitem_last {A} (l : list A) (v : A) :
  (0 < length l)%nat -> setitem l (-1) v = Ok (<[Nat.pred (length l) := v]> l).
Proof.
  intros H. unfold setitem. change (-1 <? 0)%Z with true. cbv iota.
  replace (0 <=? -1 + Z.of_nat (length l))%Z with true by (symmetry; apply Z.leb_le; lia).
  replace (-1 + Z.of_nat (length l) <? Z.of_nat (length l))%Z with true
    by (symmetry; apply Z.ltb_lt; lia).
  cbn [andb]. do 2 f_equal. lia.
Qed.

Lemma np_div_scalar_ok (a : list Q) (d : Q) :
  ~ d == 0 -> np_div_scalar a d = Ok (map (fun x => x / d) a).
Proof.
  intros H. unfold np_div_scalar. induction a as [|x a IH]; cbn [mapM map]; [reflexivity|].
  rewrite np_div_ok by exact H. cbn. rewrite IH. reflexivity.
Qed.

Lemma np_sub_same_length (a b : list Q) :
  length a = length b -> np_sub a b = Ok (zip_with Qminus a b).
Proof.
  intros H. unfold np_sub. rewrite H, Nat.eqb_refl. reflexivity.
Qed.

Lemma half_masses_lookup (n : nat) (h : Q) (j : nat) (l : list Z) :
  length l = n -> (j < n)%nat ->
  zip_with Qplus (<[Nat.pred n := 0]> (map (fun _ : Z => h) l))
                 (<[0%nat := 0]> (map (fun _ : Z => h) l)) !! j
  = Some ((if (j =? Nat.pred n)%nat then 0 else h) + (if (j =? 0)%nat then 0 else h)).
Proof.
  intros Hl Hj.
  rewrite lookup_zip_with.
  assert (Hlen : length (map (fun _ : Z => h) l) = n) by (now rewrite length_map).
  assert (Hb : <[Nat.pred n := 0]> (map (fun _ : Z => h) l) !! j
               = Some (if (j =? Nat.pred n)%nat then 0 else h)).
  { destruct (Nat.eqb_spec j (Nat.pred n)) as [->|Hne].
    - apply list_lookup_insert_eq. lia.
    - rewrite list_lookup_insert_ne by lia.
      destruct (lookup_lt_is_Some_2 l j) as [x Hx]; [lia|].
      rewrite list_lookup_fmap, Hx. reflexivity. }
  assert (Ha : <[0%nat := 0]> (map (fun _ : Z => h) l) !! j
               = Some (if (j =? 0)%nat then 0 else h)).
  { destruct (Nat.eqb_spec j 0) as [->|Hne].
    - apply list_lookup_insert_eq. lia.
    - rewrite list_lookup_insert_ne by lia.
      destruct (lookup_lt_is_Some_2 l j) as [x Hx]; [lia|].
      rewrite list_lookup_fmap, Hx. reflexivity. }
  rewrite Hb, Ha. reflexivity.
Qed.

Lemma setitem_first {A} (l : list A) (v : A) :
  (0 < length l)%nat -> setitem l 0 v = Ok (<[0%nat := v]> l).
Proof. intros H. now apply (setitem_insert l 0%nat v). Qed.

Lemma girder_tags_sorted (girder_number lo hi : Z) :
  StronglySorted Z.lt (map (girder_node_tag girder_number) (range lo hi)).
Proof.
  apply (StronglySorted_fmap _ Z.lt Z.lt); [|apply range_sorted].
  intros x y Hxy. unfold girder_node_tag. lia.
Qed.

Lemma sorted_lt_NoDup (l : list Z) : StronglySorted Z.lt l -> List.NoDup l.
Proof.
  intros Hs. induction Hs as [|x l Hs IH Hx]; constructor; auto.
  intros Hin. rewrite List.Forall_forall in Hx. specialize (Hx x Hin). lia.
Qed.

Lemma filter_Permutation_proper {A} (P : A -> bool) (l l' : list A) :
  l ≡ₚ l' -> List.filter P l ≡ₚ List.filter P l'.
Proof.
  induction 1 as [|x l l' _ IH|x y l|l l' l'' _ IH1 _ IH2]; cbn.
  - constructor.
  - destruct (P x); [now constructor | exact IH].
  - destruct (P x), (P y); try reflexivity. apply perm_swap.
  - now transitivity (List.filter P l').
Qed.

(** Sorting, selecting and sorting again is selecting and sorting. *)
Lemma merge_sort_filter_merge_sort (P : Z -> bool) (l : list Z) :
  merge_sort Z.le (List.filter P (merge_sort Z.le l)) = merge_sort Z.le (List.filter P l).
Proof.
  apply (StronglySorted_unique_strong Z.le).
  - intros x1 x2 _ _ H1 H2. lia.
  - apply StronglySorted_merge_sort; [intros x y z H1 H2; lia | apply _].
  - apply StronglySorted_merge_sort; [intros x y z H1 H2; lia | apply _].
  - etransitivity; [apply merge_sort_Permutation|].
    etransitivity; [|symmetry; apply merge_sort_Permutation].
    apply filter_Permutation_proper, merge_sort_Permutation.
Qed.

(** Reading back, by tag range, the nodes appended to a domain that held
    none in that range, from the ascending list of the tags of the domain. *)
Lemma read_back_line (old new : list (Z * (Q * Q * Q))) (lower upper : Z) :
  (forall t, In t (map fst old) -> ~ (lower <= t <= upper)%Z) ->
  (forall t, In t (map fst new) -> (lower <= t <= upper)%Z) ->
  StronglySorted Z.lt (map fst new) ->
  merge_sort Z.le
    (List.filter (fun t => (lower <=? t)%Z && (t <=? upper)%Z)
       (merge_sort Z.le (map fst (old ++ new)%list)))
  = map fst new
  /\ (forall t xyz, In (t, xyz) new -> dict_get (old ++ new)%list t = Some xyz).
Proof.
  intros Hold Hnew Hsorted. split.
  - rewrite merge_sort_filter_merge_sort, map_app, List.filter_app.
    rewrite (filter_none _ (map fst old)), (filter_all _ (map fst new)).
    + apply merge_sort_sorted, Hsorted.
    + intros t Ht. specialize (Hnew t Ht). apply andb_true_iff. split; lia.
    + intros t Ht. specialize (Hold t Ht). apply andb_false_iff.
      destruct (Z.leb_spec lower t); [right|left; reflexivity].
      apply Z.leb_gt. lia.
  - intros t xyz Hin.
    rewrite dict_get_app_fresh.
    + apply dict_get_NoDup; [apply sorted_lt_NoDup, Hsorted | exact Hin].
    + intros Ht. apply (Hold t Ht), Hnew. apply in_map_iff. now exists (t, xyz).
Qed.

Lemma tendon_coefficients_ok (coef intercepts : list Q) (thl : Q) :
  length coef = length intercepts -> ~ thl == 0 ->
  (d ← np_sub coef intercepts; d ← np_div_scalar d thl; np_div_scalar d thl)
  = Ok (map (fun x => x / thl) (map (fun x => x / thl) (zip_with Qminus coef intercepts))).
Proof.
  intros Hlen Hthl. rewrite (np_sub_same_length _ _ Hlen). cbn.
  rewrite (np_div_scalar_ok _ _ Hthl). cbn.
  now rewrite (np_div_scalar_ok _ _ Hthl).
Qed.

Lemma row_tag_girder_line (tag : Z -> Z) (xyz : Z -> Q * Q * Q) (n i : Z) :
  (0 <= i < n)%Z ->
  row_tag (map (fun j => (tag j, xyz j)) (range 0 n)) i = tag i.
Proof.
  intros Hi. unfold row_tag. rewrite list_lookup_fmap.
  rewrite (range_lookup 0 n (Z.to_nat i)) by lia. cbn. f_equal. lia.
Qed.

Section GirderFacts.

Context (parsers : str_parsers) (tan_deg : Q -> Q) (G : module_globals).
Context (self : Analysis) (girder_number : Z) (Ec : pyval) (Pe spacing : Q).
Context (inputs : girder_inputs) (yt3 Ep Ec_num : Q) (number_tendon : Z).
Context (z_coef_list y_coef_list z_int y_int areas : list Q).

Context (H_inputs : read_girder_inputs parsers (params self) = Ok inputs).
Context (H_yt3 : g_yt3 G = Some yt3).
Context (H_Ep : g_Ep G = Some Ep).
Context (H_nt : g_number_tendon G = Some number_tendon).
Context (H_zc : g_z_coef_list G = Some z_coef_list).
Context (H_yc : g_y_coef_list G = Some y_coef_list).
Context (H_Ec : as_num Ec = Ok Ec_num).
Context (H_div : (1 <= division_of self)%Z).
Context (H_zi : mapM as_num (z_intercept_list inputs) = Ok z_int).
Context (H_yi : mapM as_num (y_intercept_list inputs) = Ok y_int).
Context (H_ap : mapM as_num (Ap_N inputs) = Ok areas).
Context (H_zlen : length z_coef_list = length z_int).
Context (H_ylen : length y_coef_list = length y_int).
Context (H_nz : (number_tendon <= Z.of_nat (length z_int))%Z).
Context (H_ny : (number_tendon <= Z.of_nat (length y_int))%Z).
Context (H_na : (number_tendon <= Z.of_nat (length areas))%Z).
Context (H_thl : ~ tendon_horizontal_length inputs == 0).

Ltac step E := rewrite (bind_ok _ _ _ _ _ E); cbv beta.
Ltac step_emit :=
  match goal with
  | |- context [ (emit ?c ≫= ?f) ?l ] =>
      rewrite (bind_ok (emit c) f l (l ++ [c])%list tt eq_refl); cbv beta
  end.
Ltac step_lift :=
  match goal with
  | |- context [ (lift (Ok ?a) ≫= ?f) ?l ] =>
      rewrite (bind_ok (lift (Ok a)) f l l a eq_refl); cbv beta
  end.

Lemma girder_spec (log : list cmd) :
  (forall t, In t (map fst (nodes_of log)) ->
             ~ (1000 * girder_number + 1 <= t <= 1000 * girder_number + division_of self + 1)%Z) ->
  exists log',
    girder parsers tan_deg G self girder_number Ec Pe spacing log
    = Ok ((girder_line_nodes tan_deg self girder_number spacing yt3,
           map (girder_node_tag girder_number) (range 0 (division_of self))), log')
    /\ nodes_of log'
       = (nodes_of log ++ girder_line_nodes tan_deg self girder_number spacing yt3)%list
    /\ masses_of log'
       = (masses_of log ++ girder_line_masses self girder_number (Ag inputs))%list.
Proof.
  intros Hfresh. unfold girder.
  step (lift_ok _ _ log H_inputs). cbv zeta.
  set (division := division_of self) in *.
  rewrite H_yt3, H_Ep, H_zc, H_yc. cbn [load_global].
  step (lift_ok _ _ log (eq_refl (Ok yt3))).
  step (lift_ok _ _ log H_Ec).
  step_emit. step_lift. step_emit. step_emit. step_emit.
  match goal with |- context [ (girder_node_loop ?a ?b ?c ?d ?e ?f ?g ?h ?i ≫= _) ?l ] =>
    step (girder_node_loop_spec a b c d e f g h i l ltac:(lia)) end.
  set (half := 0.0000000025 * (Ag inputs * mm2 self) * L self / inject_Z division / 2).
  assert (Hlen : length (range 0 (division + 1)) = S (Z.to_nat division)).
  { rewrite length_range. lia. }
  rewrite setitem_last by (rewrite length_map, Hlen; lia).
  step_lift.
  rewrite setitem_first by (rewrite length_map, Hlen; lia).
  step_lift.
  rewrite length_map.
  rewrite Hlen.
  set (mass := fun j => (if (j =? division)%Z then 0 else half)
                        + (if (j =? 0)%Z then 0 else half)).
  match goal with |- context [ (girder_mass_loop ?a ?b ?c ≫= _) ?l ] =>
    assert (Hmass : forall j, (0 <= j < division + 1)%Z -> c !! Z.to_nat j = Some (mass j))
  end.
  { intros j Hj.
    rewrite (half_masses_lookup (S (Z.to_nat division)) half (Z.to_nat j)) by (auto; lia).
    unfold mass. f_equal. f_equal.
    - destruct (Z.eqb_spec j division) as [->|Hne].
      + now rewrite Nat.eqb_refl.
      + destruct (Nat.eqb_spec (Z.to_nat j) (Nat.pred (S (Z.to_nat division)))); [lia|reflexivity].
    - destruct (Z.eqb_spec j 0) as [->|Hne]; [reflexivity|].
      destruct (Nat.eqb_spec (Z.to_nat j) 0); [lia|reflexivity]. }
  match goal with |- context [ (girder_mass_loop ?a ?b ?c ≫= _) ?l ] =>
    step (girder_mass_loop_spec a b c mass l Hmass)
  end.
  clear Hmass.
  match goal with |- context [ (getNodeTags ≫= _) ?l ] => set (log4 := l) end.
  assert (Hnodes4 : nodes_of log4
                    = (nodes_of log ++ girder_line_nodes tan_deg self girder_number spacing yt3)%list).
  { unfold log4. rewrite !nodes_of_app, nodes_of_map_Node, nodes_of_map_Mass.
    cbn [nodes_of flat_map app]. rewrite !app_nil_r. reflexivity. }
  assert (Hmasses4 : masses_of log4
                     = (masses_of log ++ girder_line_masses self girder_number (Ag inputs))%list).
  { unfold log4. rewrite !masses_of_app, masses_of_map_Node, masses_of_map_Mass.
    cbn [masses_of flat_map app]. rewrite !app_nil_r. reflexivity. }
  clearbody log4.
  step (eq_refl : getNodeTags log4 = Ok (merge_sort Z.le (map fst (nodes_of log4)), log4)).
  set (new := girder_line_nodes tan_deg self girder_number spacing yt3) in *.
  assert (Hnewtags : map fst new = map (girder_node_tag girder_number) (range 0 (division + 1))).
  { unfold new, girder_line_nodes. rewrite map_map. reflexivity. }
  destruct (read_back_line (nodes_of log) new (1000 * girder_number + 1)
              (1000 * girder_number + (division + 1))) as [Hgid Hcoord].
  { intros t Ht Hr. apply (Hfresh t Ht). lia. }
  { intros t Ht. rewrite Hnewtags in Ht. apply in_map_iff in Ht as (j & <- & Hj).
    apply in_range in Hj. unfold girder_node_tag. lia. }
  { rewrite Hnewtags. apply girder_tags_sorted. }
  rewrite Hnodes4, Hgid.
  set (coord := fun t => match dict_get (nodes_of log4) t with
                         | Some xyz => xyz
                         | None => (0, 0, 0)
                         end).
  assert (Hread : forall t, In t (map fst new) ->
                             dict_get (nodes_of log4) t = Some (coord t)).
  { intros t Ht. apply in_map_iff in Ht as ([t' xyz] & <- & Hin).
    unfold coord. cbn [fst]. rewrite Hnodes4, (Hcoord _ _ Hin). reflexivity. }
  rewrite (bind_ok _ _ _ _ _ (read_coords (map fst new) coord [] log4 Hread)); cbv beta.
  cbn [app].
  assert (Hzip : zip (map fst new) (map coord (map fst new)) = new).
  { rewrite <- (zip_fst_snd new) at 3. f_equal.
    rewrite map_map. apply map_ext_in. intros [t xyz] Hin.
    unfold coord. cbn [fst snd]. rewrite Hnodes4, (Hcoord _ _ Hin). reflexivity. }
  rewrite Hzip. clear Hzip Hread coord Hgid Hcoord.
  step_lift. rewrite H_zi. step_lift.
  rewrite (tendon_coefficients_ok _ _ _ H_zlen H_thl). step_lift.
  step_lift. rewrite H_yi. step_lift.
  rewrite (tendon_coefficients_ok _ _ _ H_ylen H_thl). step_lift.
  assert (Hrows : length new = S (Z.to_nat division)).
  { unfold new, girder_line_nodes. fold division. now rewrite length_map. }
  match goal with
  | |- context [ (girder_fiber_loop ?g ?i ?imax ?l ?gj ?c ?s ?secs ?rows ?a ?b ≫= _) ?lg ] =>
      destruct (girder_fiber_loop_quiet g i number_tendon z_int y_int areas
                  H_nt H_zi H_yi H_ap H_nz H_ny H_na imax l gj c s secs rows a b)
        with (log := lg) as ([] & out5 & E5 & Hn5 & Hm5 & _)
  end.
  { lia. }
  { rewrite Hrows. lia. }
  { intros sec nfY nfZ Hin. cbn in Hin.
    repeat (destruct Hin as [Heq|Hin]; [injection Heq as <- _ _; cbn; lia|]).
    destruct Hin. }
  { rewrite !length_map, length_zip_with. lia. }
  { rewrite !length_map, length_zip_with. lia. }
  step E5.
  match goal with
  | |- context [ (girder_element_loop ?g ?imax ?d ?rows ≫= _) ?lg ] =>
      destruct (girder_element_loop_quiet g imax d rows) with (log := lg)
        as (beam_el & out6 & E6 & Hn6 & Hm6 & Hbeam)
  end.
  { rewrite Hrows. lia. }
  step E6.
  eexists. split; [|split].
  - unfold mret, M_ret. f_equal. f_equal. f_equal.
    rewrite Hbeam. apply map_ext_in. intros i Hi. apply in_range in Hi.
    unfold new, girder_line_nodes. fold division.
    apply (row_tag_girder_line (girder_node_tag girder_number)). lia.
  - rewrite !nodes_of_app, Hn5, Hn6, Hnodes4, !app_nil_r. reflexivity.
  - rewrite !masses_of_app, Hm5, Hm6, Hmasses4, !app_nil_r. reflexivity.
Qed.

End GirderFacts.

(** *** The node loops of the shell panels *)

(** A computation that returns [a] from every log after sending [out]. *)
Definition sends {A} (c : M A) (a : A) (out : list cmd) : Prop :=
  forall log, c log = Ok (a, log ++ out)%list.

Lemma sends_ret {A} (a : A) : sends (mret a) a [].
Proof. intros log. now rewrite app_nil_r. Qed.

Lemma sends_lift {A} (r : result A) (a : A) : r = Ok a -> sends (lift r) a [].
Proof. intros -> log. now rewrite app_nil_r. Qed.

Lemma sends_emit (c : cmd) : sends (emit c) tt [c].
Proof. intros log. reflexivity. Qed.

Lemma sends_bind {A B} (c : M A) (f : A -> M B) (a : A) (b : B) (o1 o2 : list cmd) :
  sends c a o1 -> sends (f a) b o2 -> sends (c ≫= f) b (o1 ++ o2).
Proof.
  intros H1 H2 log. rewrite (bind_ok _ _ _ _ _ (H1 log)), H2, app_assoc. reflexivity.
Qed.

Lemma sends_lift_bind {A B} (r : result A) (f : A -> M B) (a : A) (b : B) (o : list cmd) :
  r = Ok a -> sends (f a) b o -> sends (lift r ≫= f) b o.
Proof. intros Hr Hf. apply (sends_bind _ _ a b [] o); [now apply sends_lift | exact Hf]. Qed.

Lemma sends_forM_ {X} (xs : list X) (body : X -> M unit) (out : X -> list cmd) :
  (forall x, In x xs -> sends (body x) tt (out x)) ->
  sends (forM_ xs body) tt (flat_map out xs).
Proof.
  intros Hbody log. unfold forM_.
  rewrite (forM_emits xs (fun _ x => body x) (fun _ _ => tt) out tt log).
  - f_equal. f_equal. clear. induction xs; cbn; auto.
  - intros [] x log0 Hin. now apply Hbody.
Qed.

Lemma map_nth_seq {X} (l : list X) (d : X) :
  map (fun k => nth k l d) (seq 0 (length l)) = l.
Proof.
  induction l as [|x l IH] using rev_ind; [reflexivity|].
  rewrite length_app, Nat.add_1_r, seq_S, map_app. cbn [map Nat.add].
  f_equal.
  - rewrite <- IH at 2. apply map_ext_in. intros k Hk. apply in_seq in Hk.
    apply app_nth1. lia.
  - rewrite app_nth2, Nat.sub_diag by lia. reflexivity.
Qed.

Lemma flat_map_indices {X Y} (l : list X) (d : X) (f : X -> list Y) :
  flat_map (fun i => f (nth (Z.to_nat i) l d)) (range 0 (Z.of_nat (length l)))
  = flat_map f l.
Proof.
  unfold range. rewrite Z.sub_0_r, Nat2Z.id.
  transitivity (flat_map f (map (fun k => nth k l d) (seq 0 (length l)))).
  - rewrite !flat_map_concat_map, !map_map. f_equal. apply map_ext.
    intros k. now rewrite Z.add_0_l, Nat2Z.id.
  - now rewrite map_nth_seq.
Qed.

Lemma getitem_nth {A} (l : list A) (d : A) (i : Z) :
  (0 <= i < Z.of_nat (length l))%Z -> getitem l i = Ok (nth (Z.to_nat i) l d).
Proof.
  intros Hi. destruct (getitem_in_range l i Hi) as (x & E & Hx).
  rewrite E. f_equal. symmetry. apply nth_lookup_Some with (d := d) in Hx. exact Hx.
Qed.

Lemma mapM_getitem {A} (l : list A) (d : A) (idx : list Z) :
  (forall i, In i idx -> (0 <= i < Z.of_nat (length l))%Z) ->
  mapM (getitem l) idx = Ok (map (fun i => nth (Z.to_nat i) l d) idx).
Proof.
  induction idx as [|i idx IH]; intros H; cbn [mapM map]; [reflexivity|].
  rewrite (getitem_nth l d i) by (apply H; now left). cbn.
  rewrite IH by (intros; apply H; now right). reflexivity.
Qed.

Section PanelFacts.

Context (tan_deg : Q -> Q) (self : Analysis) (number : Z) (z_of : Z -> result Q).
Context (slab_spacings : list Q) (slab_found_indices : list Z) (zs : Z -> Q).

Let division := division_of self.
Let n_found := Z.of_nat (length slab_found_indices).
Let found (k : Z) : Z := nth (Z.to_nat k) slab_found_indices 0%Z.
Let spacing_at (s : Z) : Q := nth (Z.to_nat s) slab_spacings 0.

(** The seams of band [k]: from its first seam up to the first seam of the
    next band, which the last band includes. *)
Definition band_seams (k : Z) : list Z :=
  if negb (k =? n_found - 2)%Z then range (found k) (found (k + 1))
  else range (found k) (found (k + 1) + 1).

Definition panel_node (k s j : Z) : cmd :=
  Node (panel_node_tag number s j)
       (-1 * 1000 * spacing_at s * tan_deg (skew self)
        + L self / inject_Z division * inject_Z j)
       (1000 * spacing_at s) (zs k).

Context (H_div : division <> 0%Z).
Context (H_z : forall k, (0 <= k < n_found - 1)%Z -> z_of k = Ok (zs k)).
Context (H_found : forall k, (0 <= k < n_found)%Z ->
                             (0 <= found k < Z.of_nat (length slab_spacings))%Z).

Lemma panel_node_loop_sends :
  sends (panel_node_loop tan_deg self number z_of slab_spacings slab_found_indices) tt
        (flat_map (fun k =>
           flat_map (fun s => map (panel_node k s) (range 0 (division + 1))) (band_seams k))
           (range 0 (n_found - 1))).
Proof.
  unfold panel_node_loop. fold division n_found.
  apply sends_forM_. intros k Hk. apply in_range in Hk.
  apply (sends_lift_bind _ _ (found k)).
  { apply getitem_nth. fold n_found. lia. }
  apply (sends_lift_bind _ _ (found (k + 1))).
  { unfold found. replace (Z.to_nat (k + 1)) with (Z.to_nat (k + 1)) by reflexivity.
    apply getitem_nth. fold n_found. lia. }
  fold (band_seams k).
  assert (Hband : forall s, In s (band_seams k) ->
                            (0 <= s < Z.of_nat (length slab_spacings))%Z).
  { intros s Hs. pose proof (H_found k ltac:(lia)). pose proof (H_found (k + 1) ltac:(lia)).
    unfold band_seams in Hs. destruct (negb (k =? n_found - 2)%Z);
      apply in_range in Hs; lia. }
  apply (sends_lift_bind _ _ (map spacing_at (band_seams k))).
  { apply mapM_getitem. exact Hband. }
  rewrite length_map.
  rewrite <- (flat_map_indices (band_seams k) 0%Z).
  apply sends_forM_. intros i Hi. apply in_range in Hi.
  rewrite <- (flat_map_singleton (panel_node k (nth (Z.to_nat i) (band_seams k) 0%Z))).
  apply sends_forM_. intros j Hj.
  assert (Hs : getitem (band_seams k) i = Ok (nth (Z.to_nat i) (band_seams k) 0%Z)).
  { apply getitem_nth. lia. }
  assert (Hx : getitem (map spacing_at (band_seams k)) i
               = Ok (spacing_at (nth (Z.to_nat i) (band_seams k) 0%Z))).
  { rewrite (getitem_nth _ 0 i) by (rewrite length_map; lia).
    f_equal. rewrite (nth_indep _ 0 (spacing_at 0%Z)) by (rewrite length_map; lia).
    apply map_nth. }
  apply (sends_lift_bind _ _ _ _ _ Hs).
  apply (sends_lift_bind _ _ _ _ _ Hx).
  apply (sends_lift_bind _ _ (L self / inject_Z division)).
  { apply py_div_ok, inject_Z_nonzero, H_div. }
  apply (sends_lift_bind _ _ _ _ _ Hx).
  apply (sends_lift_bind _ _ _ _ _ (H_z k ltac:(lia))).
  apply sends_emit.
Qed.

End PanelFacts.

(** *** C2: the free names of the builder *)


Lemma girder_name_error (parsers : str_parsers) (tan_deg : Q -> Q)
    (self : Analysis) (girder_number : Z) (Ec : pyval) (Pe spacing : Q) (log : list cmd)
    (inputs : girder_inputs) :
  read_girder_inputs parsers (params self) = Ok inputs ->
  girder parsers tan_deg builder_globals self girder_number Ec Pe spacing log
  = Raise (NameError "yt3").
Proof.
  intros E. unfold girder.
  rewrite (bind_ok _ _ log log inputs) by (now apply lift_ok).
  apply bind_raise. reflexivity.
Qed.

Lemma forM_cons_raise {S X} (x : X) (xs : list X) (acc : S) (body : S -> X -> M S)
    (log : list cmd) (e : exn) :
  body acc x log = Raise e -> forM (x :: xs) acc body log = Raise e.
Proof. intros H. cbn [forM]. now apply bind_raise. Qed.

Section BuildFacts.

Context (parsers : str_parsers) (tan_deg : Q -> Q) (ops_available : bool).
Context (np_array : pyval -> result pyval).
Context {deck_nodes_t barrier_nodes_t : Type}.
Context (deck : Analysis -> Z -> list pyval -> list pyval -> list Q -> list Q -> M deck_nodes_t).
Context (barrier : Analysis -> Z -> Q -> Q -> pyval -> list pyval -> Q -> Q -> M barrier_nodes_t).
Context (remainder : Analysis -> build_inputs -> gmap string ctx_entry ->
                     deck_nodes_t -> barrier_nodes_t -> list (list Z) -> list Z ->
                     M BuiltModel).

Abbreviation build :=
  (build_bridge_model parsers tan_deg builder_globals ops_available np_array
     deck barrier remainder).


(** When the dictionary unpacks, asks for at least one girder and gives a
    modulus for the first one, the exception is the [NameError] of the first
    free name that [Analysis.girder] reads. *)
Lemma build_bridge_model_name_error (params : Py.params) (log : list cmd)
    (inputs : build_inputs) (g_inputs : girder_inputs) (Ec : pyval) :
  ops_available = true ->
  read_build_inputs parsers np_array params = Ok inputs ->
  (1 <= girder_number inputs)%Z ->
  E_girder1 inputs !! 0%nat = Some Ec ->
  read_girder_inputs parsers params = Ok g_inputs ->
  build params log = Raise (NameError "yt3").
Proof.
  intros Ha E Hn HEc Eg. unfold build_bridge_model. rewrite Ha. cbn [negb].
  rewrite (bind_ok _ _ log log inputs) by (now apply lift_ok).
  rewrite (bind_ok _ _ log (log ++ [Wipe]) tt) by reflexivity.
  rewrite (bind_ok _ _ _ ((log ++ [Wipe]) ++ [Model 3 6]) tt) by reflexivity.
  cbv zeta.
  set (log2 := ((log ++ [Wipe]) ++ [Model 3 6])%list).
  rewrite (range_cons 1 (girder_number inputs + 1)) by lia.
  apply bind_raise, forM_cons_raise.
  change (1 - 1)%Z with (Z.of_nat 0).
  rewrite (bind_ok _ _ log2 log2 Ec) by (apply lift_ok; now apply getitem_lookup).
  erewrite (bind_ok _ _ log2 log2) by (apply lift_ok; apply getitem_lookup; reflexivity).
  apply bind_raise. eapply girder_name_error. exact Eg.
Qed.

End BuildFacts.


Example empty_dictionary_raises_key_error :
  build_bridge_model no_strings (fun _ => 0) builder_globals true (fun v => Ok v)
    (fun _ _ _ _ _ _ => mret tt)
    (fun _ _ _ _ _ _ _ _ => mret tt)
    (fun _ _ _ _ _ _ _ => lift (Raise ValueError))
    ∅ []
  = Raise (KeyError "Bridge_width").
Proof. vm_compute. reflexivity. Qed.

(** With a scalar [girder_spacing], as the workbook template gives it, the
    default dictionary reaches [Analysis.girder] and its first free name. *)
Example scalar_spacing_reaches_the_name_error :
  (params ← lift (Config.make_params no_strings "baseline");
   build_bridge_model no_strings (fun _ => 0) builder_globals true (fun v => Ok v)
     (fun _ _ _ _ _ _ => mret tt)
     (fun _ _ _ _ _ _ _ _ => mret tt)
     (fun _ _ _ _ _ _ _ => lift (Raise ValueError))
     (<["girder_spacing" := PFloat (208 # 100)]> params)) []
  = Raise (NameError "yt3").
Proof. vm_compute. reflexivity. Qed.



End BuilderSpec.

(** ** Girder lines and shell panels *)

Module GirderSpec.
Import Py PyFacts Ops Builder BuilderSpec.
Local Open Scope Q_scope.
Local Open Scope string_scope.

(** The conditions under which [Analysis.girder] runs to its end: its free
    names are bound, the inputs it reads from the dictionary convert, the
    modulus is a number, every tendon has its coefficients, intercepts and
    area, the tendon length is not zero and the line has at least one
    element. *)
Definition girder_ready (parsers : str_parsers) (G : module_globals) (self : Analysis)
    (Ec : pyval) (inputs : girder_inputs) (yt3 : Q) : Prop :=
  read_girder_inputs parsers (params self) = Ok inputs
  /\ g_yt3 G = Some yt3
  /\ (exists Ep Ec_num : Q, g_Ep G = Some Ep /\ as_num Ec = Ok Ec_num)
  /\ (exists (number_tendon : Z) (z_coef_list y_coef_list z_int y_int areas : list Q),
        g_number_tendon G = Some number_tendon
        /\ g_z_coef_list G = Some z_coef_list
        /\ g_y_coef_list G = Some y_coef_list
        /\ mapM as_num (z_intercept_list inputs) = Ok z_int
        /\ mapM as_num (y_intercept_list inputs) = Ok y_int
        /\ mapM as_num (Ap_N inputs) = Ok areas
        /\ length z_coef_list = length z_int
        /\ length y_coef_list = length y_int
        /\ (number_tendon <= Z.of_nat (length z_int))%Z
        /\ (number_tendon <= Z.of_nat (length y_int))%Z
        /\ (number_tendon <= Z.of_nat (length areas))%Z)
  /\ ~ tendon_horizontal_length inputs == 0
  /\ (1 <= division_of self)%Z.

(** No node of the domain lies in the tag range of girder [girder_number]. *)
Definition girder_range_free (self : Analysis) (girder_number : Z) (log : list cmd) : Prop :=
  forall t, In t (map fst (nodes_of log)) ->
            ~ (1000 * girder_number + 1 <= t <= 1000 * girder_number + division_of self + 1)%Z.

Lemma girder_ready_spec (parsers : str_parsers) (tan_deg : Q -> Q) (G : module_globals)
    (self : Analysis) (girder_number : Z) (Ec : pyval) (Pe spacing : Q)
    (inputs : girder_inputs) (yt3 : Q) (log : list cmd) :
  girder_ready parsers G self Ec inputs yt3 ->
  girder_range_free self girder_number log ->
  exists log',
    girder parsers tan_deg G self girder_number Ec Pe spacing log
    = Ok ((girder_line_nodes tan_deg self girder_number spacing yt3,
           map (girder_node_tag girder_number) (range 0 (division_of self))), log')
    /\ nodes_of log'
       = (nodes_of log ++ girder_line_nodes tan_deg self girder_number spacing yt3)%list
    /\ masses_of log'
       = (masses_of log ++ girder_line_masses self girder_number (Ag inputs))%list.
Proof.
  intros (Hin & Hyt3 & (Ep & Ec_num & HEp & HEc)
          & (nt & zc & yc & z_int & y_int & areas & Hnt & Hzc & Hyc & Hzi & Hyi & Hap
             & Hzl & Hyl & Hnz & Hny & Hna) & Hthl & Hdiv) Hfree.
  eapply girder_spec; eauto.
Qed.

Lemma Qtrunc_nonneg_floor (q : Q) :
  0 <= q -> inject_Z (Qtrunc q) <= q /\ q < inject_Z (Qtrunc q) + 1.
Proof.
  intros H. unfold Qtrunc. apply Qle_bool_iff in H. rewrite H. split.
  - apply Qfloor_le.
  - pose proof (Qlt_floor q) as Hlt. rewrite inject_Z_plus in Hlt. exact Hlt.
Qed.

(** The first girder of the default bridge, with the notebook globals in
    scope. *)
Definition sample_bridge : Analysis :=
  Analysis_init (29600 / 1000) (125 # 10) 6 36 Config.baseline_params.

Lemma sample_girder_ready :
  exists inputs,
    girder_ready no_strings Legacy.globals sample_bridge (PInt 28000) inputs Legacy.yt3
    /\ Ag inputs == 721400.
Proof.
  eexists. split; [split; [vm_compute; reflexivity|]|].
  - split; [reflexivity|]. split.
    { exists Legacy.Ep, 28000. split; reflexivity. }
    split.
    { exists Legacy.number_tendon, Legacy.z_coef_list, Legacy.y_coef_list.
      eexists. eexists. eexists.
      split; [reflexivity|]. split; [reflexivity|]. split; [reflexivity|].
      split; [vm_compute; reflexivity|]. split; [vm_compute; reflexivity|].
      split; [vm_compute; reflexivity|].
      split; [reflexivity|]. split; [reflexivity|].
      split; [vm_compute; discriminate|]. split; vm_compute; discriminate. }
    split; [intros E; vm_compute in E; discriminate E|].
    vm_compute. discriminate.
  - reflexivity.
Qed.

(** The cumulated slab spacings of the default bridge, as binary64 values:
    [0, 1.05, 11.45, 12.5]. *)
Definition sample_cumsum : list Q := map round64 [0; 105 # 100; 1145 # 100; 125 # 10].

Lemma empty_domain_is_free (self : Analysis) (girder_number : Z) :
  girder_range_free self girder_number [].
Proof. intros t []. Qed.

Lemma girder_line_masses_lookup (self : Analysis) (girder_number : Z) (Ag : Q) (j : Z) :
  (0 <= j <= division_of self)%Z ->
  let half := (25 # 10000000000) * (Ag * mm2 self) * L self
              / inject_Z (division_of self) / 2 in
  girder_line_masses self girder_number Ag !! Z.to_nat j
  = Some (girder_node_tag girder_number j,
          (0, 0, (if (j =? division_of self)%Z then 0 else half)
                 + (if (j =? 0)%Z then 0 else half))).
Proof.
  intros Hj half. unfold girder_line_masses.
  rewrite list_lookup_fmap, (range_lookup 0 _ (Z.to_nat j)) by lia.
  cbn [fmap option_fmap option_map].
  replace (0 + Z.of_nat (Z.to_nat j))%Z with j by lia. reflexivity.
Qed.

(** C9, as stated, fails: the two end nodes of a girder line are not given a
    zero mass.  On the first girder of the default bridge, nodes 1001 and
    1149 each receive half the mass of one element. *)
Lemma end_nodes_receive_half_an_element :
  exists (log' : list cmd) (first last : Q),
    snd <$> girder no_strings tan_deg_sample Legacy.globals sample_bridge 1
              (PInt 28000) 600 (105 # 100) [] = Ok log'
    /\ masses_of log' !! 0%nat = Some (1001%Z, (0, 0, first))
    /\ masses_of log' !! 148%nat = Some (1149%Z, (0, 0, last))
    /\ ~ first == 0 /\ ~ last == 0.
Proof.
  destruct sample_girder_ready as (inputs & Hready & HAg).
  destruct (girder_ready_spec no_strings tan_deg_sample Legacy.globals sample_bridge 1
              (PInt 28000) 600 (105 # 100) inputs Legacy.yt3 [] Hready
              (empty_domain_is_free _ _)) as (log' & E & _ & Hm).
  exists log'. eexists. eexists.
  split; [rewrite E; reflexivity|].
  rewrite Hm. cbn [masses_of flat_map app].
  split; [apply (girder_line_masses_lookup sample_bridge 1 (Ag inputs) 0); vm_compute; split; discriminate|].
  split; [apply (girder_line_masses_lookup sample_bridge 1 (Ag inputs) 148); vm_compute; split; discriminate|].
  change (division_of sample_bridge) with 148%Z. cbn [Z.eqb Pos.eqb].
  split; intros E0; rewrite HAg in E0; vm_compute in E0; discriminate E0.
Qed.

(** C9 (amended).  When [Analysis.girder] runs to its end it sends one mass
    per node of the line, on the vertical degree of freedom only; with
    [element_mass = rho * Ag * (L / division)], every interior node receives
    [element_mass] (half of it from each adjacent element) and each of the
    two end nodes, adjacent to one element, receives [element_mass / 2]: only
    the contribution from beyond the end of the line is zero. *)
Theorem girder_lumped_masses
    (parsers : str_parsers) (tan_deg : Q -> Q) (G : module_globals)
    (length width : Q) (nums_girder : Z) (skew : Q) (p : Py.params)
    (girder_number : Z) (Ec : pyval) (Pe spacing : Q)
    (inputs : girder_inputs) (yt3 : Q) (log : list cmd) :
  let self := Analysis_init length width nums_girder skew p in
  let division := division_of self in
  let element_mass := (25 # 10000000000) * Ag inputs * (L self / inject_Z division) in
  girder_ready parsers G self Ec inputs yt3 ->
  girder_range_free self girder_number log ->
  exists (rows : list (Z * (Q * Q * Q))) (beam_el : list Z) (log' : list cmd)
         (masses : list (Z * (Q * Q * Q))),
    girder parsers tan_deg G self girder_number Ec Pe spacing log = Ok ((rows, beam_el), log')
    /\ masses_of log' = (masses_of log ++ masses)%list
    /\ List.length masses = Z.to_nat (division + 1)
    /\ forall j, (0 <= j <= division)%Z ->
         exists mz : Q,
           masses !! Z.to_nat j = Some (girder_node_tag girder_number j, (0, 0, mz))
           /\ ((0 < j < division)%Z -> mz == element_mass)
           /\ (j = 0%Z \/ j = division -> mz == element_mass / 2).
Proof.
  intros self division element_mass Hready Hfree.
  destruct (girder_ready_spec parsers tan_deg G self girder_number Ec Pe spacing
              inputs yt3 log Hready Hfree) as (log' & E & _ & Hm).
  assert (Hdiv : (1 <= division)%Z) by apply Hready.
  assert (Hnz : ~ inject_Z division == 0) by (apply inject_Z_nonzero; lia).
  eexists. eexists. exists log', (girder_line_masses self girder_number (Ag inputs)).
  split; [exact E|]. split; [exact Hm|]. split.
  { unfold girder_line_masses. rewrite length_map, length_range. fold division. f_equal. lia. }
  intros j Hj. eexists. split; [apply girder_line_masses_lookup; exact Hj|].
  fold division. unfold element_mass.
  change (mm2 self) with (1 * 1). split.
  - intros Hint.
    destruct (Z.eqb_spec j division); [lia|]. destruct (Z.eqb_spec j 0); [lia|].
    field. exact Hnz.
  - intros [->| ->].
    + destruct (Z.eqb_spec 0 division); [lia|]. cbn [Z.eqb]. field. exact Hnz.
    + rewrite Z.eqb_refl. destruct (Z.eqb_spec division 0); [lia|]. field. exact Hnz.
Qed.

Lemma girder_lumped_masses_witness :
  exists inputs : girder_inputs,
    let division := division_of sample_bridge in
    let element_mass :=
      (25 # 10000000000) * Ag inputs * (L sample_bridge / inject_Z division) in
    exists (rows : list (Z * (Q * Q * Q))) (beam_el : list Z) (log' : list cmd)
           (masses : list (Z * (Q * Q * Q))),
      girder no_strings tan_deg_sample Legacy.globals sample_bridge 1
        (PInt 28000) 600 (105 # 100) [] = Ok ((rows, beam_el), log')
      /\ masses_of log' = (masses_of [] ++ masses)%list
      /\ List.length masses = Z.to_nat (division + 1)
      /\ forall j, (0 <= j <= division)%Z ->
           exists mz : Q,
             masses !! Z.to_nat j = Some (girder_node_tag 1 j, (0, 0, mz))
             /\ ((0 < j < division)%Z -> mz == element_mass)
             /\ (j = 0%Z \/ j = division -> mz == element_mass / 2).
Proof.
  destruct sample_girder_ready as (inputs & Hready & _).
  exists inputs.
  apply (girder_lumped_masses no_strings tan_deg_sample Legacy.globals
           (29600 / 1000) (125 # 10) 6 36 Config.baseline_params
           1 (PInt 28000) 600 (105 # 100) inputs Legacy.yt3 []).
  - exact Hready.
  - apply empty_domain_is_free.
Defined.

(** *** Lines of the shell panels *)

Lemma np_where_isin_bounds (a b : list Q) (idx : Z) :
  In idx (np_where_isin a b) -> (0 <= idx < Z.of_nat (length a))%Z.
Proof.
  unfold np_where_isin, enumerate. intros H.
  apply in_flat_map in H as ([i x] & Hin & Hidx).
  apply in_combine_l in Hin. apply in_seq in Hin.
  destruct (existsb (Qeq_bool x) b); [|destruct Hidx].
  destruct Hidx as [<-|[]]. lia.
Qed.

Lemma nodes_of_flat_map {X} (f : X -> list cmd) (xs : list X) :
  nodes_of (flat_map f xs) = flat_map (fun x => nodes_of (f x)) xs.
Proof.
  induction xs as [|x xs IH]; cbn [flat_map]; [reflexivity|].
  now rewrite nodes_of_app, IH.
Qed.

Lemma map_flat_map {X Y W} (g : Y -> W) (f : X -> list Y) (xs : list X) :
  map g (flat_map f xs) = flat_map (fun x => map g (f x)) xs.
Proof.
  induction xs as [|x xs IH]; cbn [flat_map]; [reflexivity|].
  now rewrite map_app, IH.
Qed.

Lemma flat_map_flat_map {X Y W} (g : Y -> list W) (f : X -> list Y) (xs : list X) :
  flat_map g (flat_map f xs) = flat_map (fun x => flat_map g (f x)) xs.
Proof.
  induction xs as [|x xs IH]; cbn [flat_map]; [reflexivity|].
  now rewrite flat_map_app, IH.
Qed.

(** The node loop of a panel creates, for every seam of every band, one line
    of [division + 1] nodes. *)
Lemma panel_lines (tan_deg : Q -> Q) (self : Analysis) (number : Z) (z_of : Z -> result Q)
    (slab_spacings cumsum : list Q) (zs : Z -> Q) :
  let found := np_where_isin slab_spacings cumsum in
  let seams := flat_map (band_seams found) (range 0 (Z.of_nat (length found) - 1)) in
  division_of self <> 0%Z ->
  (forall k, (0 <= k < Z.of_nat (length found) - 1)%Z -> z_of k = Ok (zs k)) ->
  exists out : list cmd,
    sends (panel_node_loop tan_deg self number z_of slab_spacings found) tt out
    /\ masses_of out = []
    /\ map fst (nodes_of out) = panel_node_tags number seams (division_of self).
Proof.
  intros found seams Hdiv Hz.
  eexists. split.
  - apply (panel_node_loop_sends tan_deg self number z_of slab_spacings found zs Hdiv Hz).
    intros k Hk. apply (np_where_isin_bounds slab_spacings cumsum).
    apply nth_In. unfold found in *. lia.
  - split.
    + clear. induction (range 0 (Z.of_nat (length found) - 1)) as [|k ks IH];
        cbn [flat_map]; [reflexivity|].
      rewrite masses_of_app, IH, app_nil_r.
      induction (band_seams found k) as [|s ss IHs]; cbn [flat_map]; [reflexivity|].
      rewrite masses_of_app, IHs, app_nil_r.
      unfold panel_node. apply masses_of_map_Node.
    + unfold panel_node_tags, seams.
      rewrite nodes_of_flat_map, map_flat_map, flat_map_flat_map.
      apply flat_map_ext. intros k.
      rewrite nodes_of_flat_map, map_flat_map.
      apply flat_map_ext. intros s.
      unfold panel_node. rewrite nodes_of_map_Node, map_map. reflexivity.
Qed.

Lemma getitem_as_num_nth (l : list pyval) (nums : list Q) (i : Z) :
  mapM as_num l = Ok nums -> (0 <= i < Z.of_nat (length nums))%Z ->
  (getitem l i ≫= as_num) = Ok (nth (Z.to_nat i) nums 0).
Proof.
  intros Hm Hi.
  assert (Hi' : (0 <= i < Z.of_nat (length l))%Z) by (rewrite <- (mapM_length _ _ _ Hm); exact Hi).
  destruct (getitem_in_range l i Hi') as (x & Ex & Hx).
  destruct (mapM_lookup _ _ _ _ _ Hm Hx) as (y & Ey & Hy).
  rewrite Ex. cbn. rewrite Ey. f_equal. symmetry.
  now apply nth_lookup_Some with (d := 0) in Hy.
Qed.

Lemma sends_nodes {A} (c : M A) (a : A) (out : list cmd) (tags : list Z) (log : list cmd) :
  sends c a out -> map fst (nodes_of out) = tags ->
  exists log', c log = Ok (a, log')
               /\ map fst (nodes_of log') = (map fst (nodes_of log) ++ tags)%list.
Proof.
  intros Hs Ht. exists (log ++ out)%list. split; [apply Hs|].
  now rewrite nodes_of_app, map_app, Ht.
Qed.

(** The binary64 value of [L / self.m * 5], which [int] truncates. *)
Definition metres_times_5 (self : Analysis) : Q :=
  round64 (round64 (L self / 1000) * 5).

(** C8, as stated, fails: the division count is [int(L / 1000 * 5)], a
    truncation.  A span of 29960 mm gives 149 elements and 150 nodes per
    line, where rounding 149.8 would give 150 elements. *)
Lemma division_is_truncated_not_rounded :
  let self := Analysis_init (round64 (29960 / 1000)) (125 # 10) 6 36 ∅ in
  L self == 29960
  /\ division_of self = 149%Z
  /\ rint (metres_times_5 self) = 150%Z
  /\ List.length (girder_node_tags 1 (division_of self)) = 150%nat.
Proof. vm_compute. repeat split; reflexivity. Qed.

(** C8 (amended).  The number of elements of every longitudinal line is
    [division = int(L / 1000 * 5)]: the binary64 value [v] of the span in
    metres times 5, truncated to an integer (not rounded), so that
    [division <= v < division + 1] for a span that is not negative.  When
    [Analysis.girder] runs to its end, the girder line has [division] beam
    elements and [division + 1] nodes, tagged [1000 * i + 1] onward; when
    [division] is not 0 and the thicknesses they read are numbers, the node
    loops of [Analysis.deck] and [Analysis.pavement] create exactly
    [division + 1] nodes on every seam of the panel.  The span
    [length * 1000] is taken within the range of binary64: beyond it [L] is
    [inf] and [int] raises. *)
Theorem lines_have_truncated_division
    (parsers : str_parsers) (tan_deg : Q -> Q) (G : module_globals)
    (length width : Q) (nums_girder : Z) (skew : Q) (p : Py.params)
    (girder_number : Z) (Ec : pyval) (Pe spacing : Q)
    (inputs : girder_inputs) (yt3 : Q) (log : list cmd)
    (deck_number pave_number : Z) (tSlab pave_thick : list pyval)
    (bridge_width_spacings cumsum : list Q) (thicknesses pave_thicknesses : list Q) :
  let self := Analysis_init length width nums_girder skew p in
  let division := division_of self in
  let v := metres_times_5 self in
  let found := np_where_isin (slab_spacings_of bridge_width_spacings cumsum) cumsum in
  let seams := flat_map (band_seams found) (range 0 (Z.of_nat (List.length found) - 1)) in
  finite64 (length * 1000) = true ->
  (division = Qtrunc v
   /\ (0 <= length -> inject_Z division <= v /\ v < inject_Z division + 1))
  /\ (girder_ready parsers G self Ec inputs yt3 ->
      girder_range_free self girder_number log ->
      exists (rows : list (Z * (Q * Q * Q))) (beam_el : list Z) (log' : list cmd),
        girder parsers tan_deg G self girder_number Ec Pe spacing log
        = Ok ((rows, beam_el), log')
        /\ List.length beam_el = Z.to_nat division
        /\ List.length rows = Z.to_nat (division + 1)
        /\ map fst rows = girder_node_tags girder_number division
        /\ nodes_of log' = (nodes_of log ++ rows)%list)
  /\ (division <> 0%Z ->
      mapM as_num tSlab = Ok thicknesses ->
      (Z.of_nat (List.length found) - 1 <= Z.of_nat (List.length thicknesses))%Z ->
      exists log',
        deck_nodes tan_deg self deck_number tSlab bridge_width_spacings cumsum log
        = Ok (tt, log')
        /\ map fst (nodes_of log')
           = (map fst (nodes_of log) ++ panel_node_tags deck_number seams division)%list)
  /\ (division <> 0%Z ->
      mapM as_num pave_thick = Ok pave_thicknesses ->
      (1 <= List.length pave_thicknesses)%nat ->
      exists log',
        pavement_nodes tan_deg self pave_number pave_thick bridge_width_spacings cumsum log
        = Ok (tt, log')
        /\ map fst (nodes_of log')
           = (map fst (nodes_of log) ++ panel_node_tags pave_number seams division)%list).
Proof.
  intros self division v found seams _.
  split; [|split; [|split]].
  - split; [reflexivity|]. intros Hlen.
    assert (Hv : 0 <= v).
    { unfold v, metres_times_5. apply round64_nonneg.
      apply Qmult_le_0_compat; [|discriminate].
      apply round64_nonneg. apply Qle_shift_div_l; [reflexivity|].
      rewrite Qmult_0_l. cbn [L self Analysis_init]. apply round64_nonneg.
      apply Qmult_le_0_compat; [exact Hlen | discriminate]. }
    exact (Qtrunc_nonneg_floor v Hv).
  - intros Hready Hfree.
    destruct (girder_ready_spec parsers tan_deg G self girder_number Ec Pe spacing
                inputs yt3 log Hready Hfree) as (log' & E & Hn & _).
    eexists. eexists. exists log'. split; [exact E|].
    split; [now rewrite length_map, length_range, Z.sub_0_r|].
    split.
    { unfold girder_line_nodes. rewrite length_map, length_range. fold division. f_equal. lia. }
    split; [|exact Hn].
    unfold girder_line_nodes, girder_node_tags. now rewrite map_map.
  - intros Hdiv Hts Hnts. unfold deck_nodes.
    destruct (panel_lines tan_deg self deck_number
                (fun k => t ← (getitem tSlab k ≫= as_num); Ok (t / 2))
                (slab_spacings_of bridge_width_spacings cumsum) cumsum
                (fun k => nth (Z.to_nat k) thicknesses 0 / 2)) as (out & Hs & _ & Ht).
    + exact Hdiv.
    + intros k Hk. fold found in Hk.
      rewrite (getitem_as_num_nth _ _ k Hts) by lia. reflexivity.
    + apply (sends_nodes _ _ _ _ log Hs Ht).
  - intros Hdiv Hps Hnps. unfold pavement_nodes.
    destruct (panel_lines tan_deg self pave_number
                (fun _ => t ← (getitem pave_thick 0 ≫= as_num); Ok (t / 2 + 220))
                (slab_spacings_of bridge_width_spacings cumsum) cumsum
                (fun _ => nth 0 pave_thicknesses 0 / 2 + 220)) as (out & Hs & _ & Ht).
    + exact Hdiv.
    + intros k Hk.
      rewrite (getitem_as_num_nth _ _ 0 Hps) by lia. reflexivity.
    + apply (sends_nodes _ _ _ _ log Hs Ht).
Qed.

Lemma lines_have_truncated_division_witness :
  let self := sample_bridge in
  let division := division_of self in
  let v := metres_times_5 self in
  let bridge_width_spacings := np_arange_unit (125 # 10) in
  let cumsum := sample_cumsum in
  let found := np_where_isin (slab_spacings_of bridge_width_spacings cumsum) cumsum in
  let seams := flat_map (band_seams found) (range 0 (Z.of_nat (List.length found) - 1)) in
  let tSlab := repeat (PInt 250) 8 in
  let pave_thick := [PInt 80] in
  division = 148%Z
  /\ (inject_Z division <= v /\ v < inject_Z division + 1)
  /\ (exists (rows : list (Z * (Q * Q * Q))) (beam_el : list Z) (log' : list cmd),
        girder no_strings tan_deg_sample Legacy.globals self 1 (PInt 28000) 600 (105 # 100) []
        = Ok ((rows, beam_el), log')
        /\ List.length beam_el = Z.to_nat division
        /\ List.length rows = Z.to_nat (division + 1)
        /\ map fst rows = girder_node_tags 1 division
        /\ nodes_of log' = (nodes_of [] ++ rows)%list)
  /\ (exists log',
        deck_nodes tan_deg_sample self 1 tSlab bridge_width_spacings cumsum [] = Ok (tt, log')
        /\ map fst (nodes_of log')
           = (map fst (nodes_of []) ++ panel_node_tags 1 seams division)%list)
  /\ (exists log',
        pavement_nodes tan_deg_sample self 3 pave_thick bridge_width_spacings cumsum []
        = Ok (tt, log')
        /\ map fst (nodes_of log')
           = (map fst (nodes_of []) ++ panel_node_tags 3 seams division)%list).
Proof.
  split; [reflexivity|].
  destruct sample_girder_ready as (inputs & Hready & _).
  assert (Hfin : finite64 (29600 / 1000 * 1000) = true) by (vm_compute; reflexivity).
  assert (Hdiv : division_of sample_bridge <> 0%Z) by (vm_compute; discriminate).
  destruct (lines_have_truncated_division no_strings tan_deg_sample Legacy.globals
              (29600 / 1000) (125 # 10) 6 36 Config.baseline_params
              1 (PInt 28000) 600 (105 # 100) inputs Legacy.yt3 [] 1 3
              (repeat (PInt 250) 8) [PInt 80]
              (np_arange_unit (125 # 10)) sample_cumsum
              (repeat 250 8) [80] Hfin) as ((_ & Hv) & Hg & Hd & Hp).
  split; [apply Hv; vm_compute; discriminate|].
  split; [apply Hg; [exact Hready | apply empty_domain_is_free]|].
  split.
  - apply Hd; [exact Hdiv | reflexivity | vm_compute; discriminate].
  - apply Hp; [exact Hdiv | reflexivity | cbn; lia].
Defined.

End GirderSpec.

(** ** Girder lines: degenerate spans *)

Module GirderLineSpec.
Import Py PyFacts Ops Builder BuilderSpec GirderSpec.
Local Open Scope Q_scope.
Local Open Scope string_scope.

Ltac run E := rewrite (bind_ok _ _ _ _ _ E); cbv beta.
Ltac run_lift :=
  match goal with
  | |- context [ (lift (Ok ?a) ≫= ?f) ?l ] =>
      rewrite (bind_ok (lift (Ok a)) f l l a eq_refl); cbv beta
  end.
Ltac run_emit :=
  match goal with
  | |- context [ (emit ?c ≫= ?f) ?l ] =>
      rewrite (bind_ok (emit c) f l (l ++ [c])%list tt eq_refl); cbv beta
  end.

(** A span shorter than a fifth of a metre has [division = 0]: the node loop
    divides the span by it and [Analysis.girder] raises
    [ZeroDivisionError].  A negative span has a negative [division]: the
    node loop is empty and [mass_before[-1] = 0] raises [IndexError]. *)
Theorem girder_on_degenerate_span
    (parsers : str_parsers) (tan_deg : Q -> Q) (G : module_globals)
    (self : Analysis) (girder_number : Z) (Ec : pyval) (Pe spacing : Q)
    (inputs : girder_inputs) (yt3 Ep Ec_num : Q) (log : list cmd) :
  read_girder_inputs parsers (params self) = Ok inputs ->
  g_yt3 G = Some yt3 -> g_Ep G = Some Ep -> as_num Ec = Ok Ec_num ->
  (division_of self = 0%Z ->
   girder parsers tan_deg G self girder_number Ec Pe spacing log = Raise ZeroDivisionError)
  /\ ((division_of self < 0)%Z ->
      girder parsers tan_deg G self girder_number Ec Pe spacing log = Raise IndexError).
Proof.
  intros Hin Hyt3 HEp HEc.
  split; intros Hd; unfold girder;
    run (lift_ok _ _ log Hin); cbv zeta;
    rewrite Hyt3, HEp; cbn [load_global];
    run (lift_ok _ _ log (eq_refl (Ok yt3)));
    run (lift_ok _ _ log HEc);
    run_emit; run_lift; run_emit; run_emit; run_emit.
  - apply bind_raise. rewrite Hd. unfold girder_node_loop.
    change (range 0 (0 + 1)) with [0%Z]. apply forM_cons_raise.
    apply bind_raise. reflexivity.
  - unfold girder_node_loop. rewrite (range_nil 0 (division_of self + 1)) by lia.
    cbn [forM].
    match goal with
    | |- (mret ?a ≫= ?f) ?l = _ => rewrite (bind_ok (mret a) f l l a eq_refl)
    end.
    apply bind_raise. reflexivity.
Qed.


Lemma girder_on_degenerate_span_witness :
  girder no_strings tan_deg_sample Legacy.globals
    (Analysis_init (1 # 10) (125 # 10) 6 36 Config.baseline_params)
    1 (PInt 28000) 600 (105 # 100) [] = Raise ZeroDivisionError
  /\ girder no_strings tan_deg_sample Legacy.globals
       (Analysis_init (-1) (125 # 10) 6 36 Config.baseline_params)
       1 (PInt 28000) 600 (105 # 100) [] = Raise IndexError.
Proof.
  destruct (read_girder_inputs no_strings Config.baseline_params) as [inputs|e] eqn:Ei;
    [|vm_compute in Ei; discriminate Ei].
  split.
  - apply (girder_on_degenerate_span no_strings tan_deg_sample Legacy.globals
             (Analysis_init (1 # 10) (125 # 10) 6 36 Config.baseline_params)
             1 (PInt 28000) 600 (105 # 100) inputs Legacy.yt3 Legacy.Ep 28000 []);
      try reflexivity; exact Ei.
  - apply (girder_on_degenerate_span no_strings tan_deg_sample Legacy.globals
             (Analysis_init (-1) (125 # 10) 6 36 Config.baseline_params)
             1 (PInt 28000) 600 (105 # 100) inputs Legacy.yt3 Legacy.Ep 28000 []);
      try reflexivity; exact Ei.
Defined.

End GirderLineSpec.

(** ** Shell panels: seams and plan *)

Module PanelSpec.
Import Py PyFacts Ops Builder BuilderSpec GirderSpec.
Local Open Scope Q_scope.
Local Open Scope string_scope.

Lemma range_app (a b c : Z) :
  (a <= b)%Z -> (b <= c)%Z -> (range a b ++ range b c)%list = range a c.
Proof.
  intros Hab Hbc. remember (Z.to_nat (b - a)) as n eqn:En.
  revert a Hab En. induction n as [|n IH]; intros a Hab En.
  - replace a with b by lia. now rewrite (range_nil b b) by lia.
  - rewrite (range_cons a b), (range_cons a c) by lia. cbn [app].
    f_equal. apply IH; lia.
Qed.

(** [np.where(np.isin(a, b))[0]] lists indices in increasing order. *)
Lemma where_isin_from (b : list Q) (a : list Q) (k : nat) :
  let l := flat_map (fun '(i, x) => if existsb (Qeq_bool x) b then [Z.of_nat i] else [])
                    (combine (seq k (length a)) a) in
  StronglySorted Z.lt l /\ Forall (fun i => (Z.of_nat k <= i)%Z) l.
Proof.
  revert k. induction a as [|x a IH]; intros k l; subst l; cbn.
  - split; constructor.
  - pose proof (IH (S k)) as H. cbv zeta in H. destruct H as [Hs Hb].
    assert (Hb' : Forall (fun i => (Z.of_nat k < i)%Z)
              (flat_map (fun '(i, x) => if existsb (Qeq_bool x) b then [Z.of_nat i] else [])
                        (combine (seq (S k) (length a)) a))).
    { eapply Forall_impl; [exact Hb|]. cbn. intros i Hi. lia. }
    destruct (existsb (Qeq_bool x) b); cbn [app].
    + split; [constructor; [exact Hs | exact Hb']|].
      constructor; [lia|]. eapply Forall_impl; [exact Hb'|]. cbn. intros i Hi. lia.
    + split; [exact Hs|]. eapply Forall_impl; [exact Hb'|]. cbn. intros i Hi. lia.
Qed.

Lemma np_where_isin_sorted (a b : list Q) : StronglySorted Z.lt (np_where_isin a b).
Proof. apply (where_isin_from b a 0). Qed.

Lemma sorted_nth_le (l : list Z) (i j : nat) :
  StronglySorted Z.lt l -> (i <= j < length l)%nat -> (nth i l 0 <= nth j l 0)%Z.
Proof.
  intros Hs. revert i j. induction Hs as [|x l Hs IH Hx]; intros i j Hij; [cbn in Hij; lia|].
  destruct i as [|i], j as [|j]; cbn in *; try lia.
  - assert (Hin : In (nth j l 0%Z) l) by (apply nth_In; lia).
    rewrite List.Forall_forall in Hx. specialize (Hx _ Hin). lia.
  - apply IH. lia.
Qed.

(** The seams of the bands, one band after the other, are the consecutive
    seam indices from the first slab line to the last one. *)
Lemma bands_cover (found : list Z) :
  StronglySorted Z.lt found -> (2 <= length found)%nat ->
  flat_map (band_seams found) (range 0 (Z.of_nat (length found) - 1))
  = range (nth 0 found 0%Z) (nth (length found - 1) found 0%Z + 1).
Proof.
  intros Hs Hn.
  set (n := length found) in *.
  assert (Hpre : forall i : nat, (i <= n - 2)%nat ->
            flat_map (band_seams found) (range 0 (Z.of_nat i))
            = range (nth 0 found 0%Z) (nth i found 0%Z)).
  { induction i as [|i IH]; intros Hi.
    - rewrite !range_nil by (cbn; lia). reflexivity.
    - replace (Z.of_nat (S i)) with (Z.of_nat i + 1)%Z by lia.
      rewrite <- (range_app 0 (Z.of_nat i) (Z.of_nat i + 1)) by lia.
      rewrite flat_map_app, IH by lia.
      rewrite (range_cons (Z.of_nat i)),
              (range_nil (Z.of_nat i + 1) (Z.of_nat i + 1)) by lia. cbn [flat_map].
      rewrite app_nil_r. unfold band_seams. fold n.
      destruct (Z.eqb_spec (Z.of_nat i) (Z.of_nat n - 2)) as [|_]; [lia|]. cbn [negb].
      rewrite Nat2Z.id. replace (Z.to_nat (Z.of_nat i + 1)) with (S i) by lia.
      apply range_app; apply sorted_nth_le; auto; lia. }
  replace (Z.of_nat n - 1)%Z with (Z.of_nat (n - 2) + 1)%Z by lia.
  rewrite <- (range_app 0 (Z.of_nat (n - 2)) (Z.of_nat (n - 2) + 1)) by lia.
  rewrite flat_map_app, Hpre by lia.
  rewrite (range_cons (Z.of_nat (n - 2))),
          (range_nil (Z.of_nat (n - 2) + 1) (Z.of_nat (n - 2) + 1)) by lia. cbn [flat_map].
  rewrite app_nil_r. unfold band_seams. fold n.
  destruct (Z.eqb_spec (Z.of_nat (n - 2)) (Z.of_nat n - 2)) as [_|]; [|lia]. cbn [negb].
  rewrite Nat2Z.id. replace (Z.to_nat (Z.of_nat (n - 2) + 1)) with (n - 1)%nat by lia.
  apply range_app; [apply sorted_nth_le; auto; lia|].
  assert (H := sorted_nth_le found (n - 2) (n - 1) Hs ltac:(lia)). lia.
Qed.

(** The bands of a deck or pavement share no seam: their seams, taken band
    after band as the node loop visits them, are the consecutive indices
    from the first slab line found to the last, each once, and all of them
    index [slab_spacings]. *)
Theorem panel_seams_are_consecutive (slab_spacings cumsum : list Q) :
  let found := np_where_isin slab_spacings cumsum in
  let seams := flat_map (band_seams found) (range 0 (Z.of_nat (length found) - 1)) in
  (2 <= length found)%nat ->
  seams = range (nth 0 found 0%Z) (nth (length found - 1) found 0%Z + 1)
  /\ List.NoDup seams
  /\ (forall s, In s seams -> (0 <= s < Z.of_nat (length slab_spacings))%Z).
Proof.
  intros found seams Hn.
  assert (E : seams = range (nth 0 found 0%Z) (nth (length found - 1) found 0%Z + 1)).
  { apply bands_cover; [apply np_where_isin_sorted | exact Hn]. }
  split; [exact E|]. split; [rewrite E; apply range_NoDup|].
  intros s Hs. rewrite E in Hs. apply in_range in Hs.
  assert (H0 := np_where_isin_bounds slab_spacings cumsum (nth 0 found 0%Z)
                  ltac:(apply nth_In; fold found; lia)).
  assert (H1 := np_where_isin_bounds slab_spacings cumsum (nth (length found - 1) found 0%Z)
                  ltac:(apply nth_In; fold found; lia)).
  lia.
Qed.

Lemma panel_seams_are_consecutive_witness :
  let slab_spacings :=
    slab_spacings_of (np_arange_unit (125 # 10)) sample_cumsum in
  let found := np_where_isin slab_spacings sample_cumsum in
  let seams := flat_map (band_seams found) (range 0 (Z.of_nat (length found) - 1)) in
  found = [0; 2; 13; 15]%Z
  /\ seams = range 0 16
  /\ List.NoDup seams
  /\ (forall s, In s seams -> (0 <= s < Z.of_nat (length slab_spacings))%Z).
Proof.
  split; [reflexivity|].
  apply (panel_seams_are_consecutive
           (slab_spacings_of (np_arange_unit (125 # 10)) sample_cumsum)
           sample_cumsum).
  vm_compute. lia.
Defined.


(** *** The pavement over the deck *)

Lemma Forall2_flat_map {X Y W} (R : Y -> W -> Prop) (f : X -> list Y) (g : X -> list W)
    (l : list X) :
  (forall x, In x l -> Forall2 R (f x) (g x)) -> Forall2 R (flat_map f l) (flat_map g l).
Proof.
  induction l as [|x l IH]; intros H; cbn [flat_map]; [constructor|].
  apply Forall2_app; [apply H; now left | apply IH; intros y Hy; apply H; now right].
Qed.

Lemma Forall_flat_map {X Y} (P : Y -> Prop) (f : X -> list Y) (l : list X) :
  (forall x, In x l -> Forall P (f x)) -> Forall P (flat_map f l).
Proof.
  induction l as [|x l IH]; intros H; cbn [flat_map]; [constructor|].
  apply Forall_app. split; [apply H; now left | apply IH; intros y Hy; apply H; now right].
Qed.

(** [Analysis.pavement] lays its nodes exactly over those of
    [Analysis.deck]: run on the same seams, the two node loops create their
    nodes in the same order, a pavement node having the plan position
    [(x, y)] of its deck node and the tag of that node plus
    [(pave_number - deck_number) * 100000]; every pavement node lies at the
    height [pave_thick[0] / 2 + 220]. *)
Theorem pavement_nodes_lie_over_deck_nodes
    (tan_deg : Q -> Q) (self : Analysis) (deck_number pave_number : Z)
    (tSlab pave_thick : list pyval) (bridge_width_spacings cumsum : list Q)
    (thicknesses pave_thicknesses : list Q) :
  let found := np_where_isin (slab_spacings_of bridge_width_spacings cumsum) cumsum in
  division_of self <> 0%Z ->
  mapM as_num tSlab = Ok thicknesses ->
  (Z.of_nat (List.length found) - 1 <= Z.of_nat (List.length thicknesses))%Z ->
  mapM as_num pave_thick = Ok pave_thicknesses ->
  (1 <= List.length pave_thicknesses)%nat ->
  exists deck_out pave_out : list cmd,
    (forall log, deck_nodes tan_deg self deck_number tSlab bridge_width_spacings cumsum log
                 = Ok (tt, (log ++ deck_out)%list))
    /\ (forall log, pavement_nodes tan_deg self pave_number pave_thick
                      bridge_width_spacings cumsum log
                    = Ok (tt, (log ++ pave_out)%list))
    /\ Forall2 (fun d p => p.1 = (d.1 + (pave_number - deck_number) * 100000)%Z
                           /\ p.2.1 = d.2.1)
               (nodes_of deck_out) (nodes_of pave_out)
    /\ Forall (fun p => p.2.2 = nth 0 pave_thicknesses 0 / 2 + 220) (nodes_of pave_out).
Proof.
  intros found Hdiv Hts Hnts Hps Hnps.
  assert (Hbound : forall k, (0 <= k < Z.of_nat (List.length found))%Z ->
            (0 <= nth (Z.to_nat k) found 0 <
             Z.of_nat (List.length (slab_spacings_of bridge_width_spacings cumsum)))%Z).
  { intros k Hk. apply (np_where_isin_bounds _ cumsum). apply nth_In.
    unfold found in *. lia. }
  pose proof (panel_node_loop_sends tan_deg self deck_number
                (fun k => t ← (getitem tSlab k ≫= as_num); Ok (t / 2))
                (slab_spacings_of bridge_width_spacings cumsum) found
                (fun k => nth (Z.to_nat k) thicknesses 0 / 2) Hdiv) as Hdeck.
  pose proof (panel_node_loop_sends tan_deg self pave_number
                (fun _ => t ← (getitem pave_thick 0 ≫= as_num); Ok (t / 2 + 220))
                (slab_spacings_of bridge_width_spacings cumsum) found
                (fun _ => nth 0 pave_thicknesses 0 / 2 + 220) Hdiv) as Hpave.
  eexists. eexists. split; [|split; [|split]].
  - unfold deck_nodes. apply Hdeck; [|exact Hbound].
    intros k Hk. rewrite (getitem_as_num_nth _ _ k Hts) by lia. reflexivity.
  - unfold pavement_nodes. apply Hpave; [|exact Hbound].
    intros k Hk. rewrite (getitem_as_num_nth _ _ 0 Hps) by lia. reflexivity.
  - rewrite !nodes_of_flat_map. apply Forall2_flat_map. intros k _.
    rewrite !nodes_of_flat_map. apply Forall2_flat_map. intros s _.
    unfold panel_node. rewrite !nodes_of_map_Node.
    apply Forall2_fmap, Forall2_same_length_lookup_2; [reflexivity|].
    intros i j j' Hj Hj'. rewrite Hj in Hj'. injection Hj' as <-. cbn.
    split; [unfold panel_node_tag; lia | reflexivity].
  - rewrite nodes_of_flat_map. apply Forall_flat_map. intros k _.
    rewrite nodes_of_flat_map. apply Forall_flat_map. intros s _.
    unfold panel_node. rewrite nodes_of_map_Node.
    apply Forall_fmap, Forall_forall. intros j _. reflexivity.
Qed.

Lemma pavement_nodes_lie_over_deck_nodes_witness :
  exists deck_out pave_out : list cmd,
    (forall log, deck_nodes tan_deg_sample sample_bridge 1 (repeat (PInt 250) 8)
                   (np_arange_unit (125 # 10)) sample_cumsum log
                 = Ok (tt, (log ++ deck_out)%list))
    /\ (forall log, pavement_nodes tan_deg_sample sample_bridge 3 [PInt 80]
                      (np_arange_unit (125 # 10)) sample_cumsum log
                    = Ok (tt, (log ++ pave_out)%list))
    /\ Forall2 (fun d p => p.1 = (d.1 + (3 - 1) * 100000)%Z /\ p.2.1 = d.2.1)
               (nodes_of deck_out) (nodes_of pave_out)
    /\ Forall (fun p => p.2.2 = nth 0 [80] 0 / 2 + 220) (nodes_of pave_out).
Proof.
  apply (pavement_nodes_lie_over_deck_nodes tan_deg_sample sample_bridge 1 3
           (repeat (PInt 250) 8) [PInt 80]
           (np_arange_unit (125 # 10)) sample_cumsum
           (repeat 250 8) [80]).
  - vm_compute. discriminate.
  - reflexivity.
  - vm_compute. discriminate.
  - reflexivity.
  - cbn. lia.
Defined.

End PanelSpec.

(** ** The build as a whole *)

Module BuildFlowSpec.
Import Py PyFacts Ops Builder BuilderSpec GirderSpec.
Local Open Scope Q_scope.
Local Open Scope string_scope.



Section ThreeGirders.

Context (parsers : str_parsers) (tan_deg : Q -> Q) (G : module_globals).
Context (np_array : pyval -> result pyval).
Context {deck_nodes_t barrier_nodes_t : Type}.
Context (deck : Analysis -> Z -> list pyval -> list pyval -> list Q -> list Q -> M deck_nodes_t).
Context (barrier : Analysis -> Z -> Q -> Q -> pyval -> list pyval -> Q -> Q -> M barrier_nodes_t).
Context (remainder : Analysis -> build_inputs -> gmap string ctx_entry ->
                     deck_nodes_t -> barrier_nodes_t -> list (list Z) -> list Z ->
                     M BuiltModel).






End ThreeGirders.




End BuildFlowSpec.

(** ** Modal and static validation *)

Module ModalSpec.
Import Py PyFacts Ops Builder BuilderSpec Modal.
Local Open Scope Q_scope.
Local Open Scope string_scope.

Lemma BuiltModel_has_no_static_analysis_load (bm : BuiltModel) (log : list cmd) :
  BuiltModel_call bm "static_analysis_load" log
  = Raise (AttributeError "static_analysis_load").
Proof. reflexivity. Qed.

Section RunModalFacts.

Context (parsers : str_parsers).
Context (build_bridge_model : Py.params -> M BuiltModel).
Context (nodeDisp : Z -> Z -> M Q) (eigen : Z -> M (list Q)) (hertz : Q -> Q).

(** C3.  [run_modal] does not return the deflections.  Whatever
    [build_bridge_model] does, the call raises: if the build raises, so does
    [run_modal]; if the build returned a [BuiltModel], the first static
    analysis is requested from that object, which has the attributes
    [analysis], [params] and [ctx] only, and [AttributeError] is raised
    before any load is applied or any displacement read. *)
Theorem run_modal_never_returns_deflections
    (params : Py.params) (check_nodes load_nodes : list Z)
    (point_load_n : option Q) (num_eigen : option Z) (log : list cmd) :
  (exists e,
     run_modal parsers build_bridge_model nodeDisp eigen hertz
       params check_nodes load_nodes point_load_n num_eigen log = Raise e)
  /\ (forall (bridge1 : BuiltModel) (log' : list cmd) (load : Q) (n : Z),
        build_bridge_model params log = Ok (bridge1, log') ->
        run_modal parsers build_bridge_model nodeDisp eigen hertz
          params check_nodes load_nodes (Some load) (Some n) log
        = Raise (AttributeError "static_analysis_load")).
Proof.
  split.
  - unfold run_modal.
    destruct (build_bridge_model params log) as [[bridge1 log1]|e] eqn:Eb.
    2: { exists e. now apply bind_raise. }
    rewrite (bind_ok _ _ log log1 bridge1) by exact Eb.
    match goal with
    | |- exists e, (?c ≫= _) log1 = Raise e => destruct (c log1) as [[load log2]|e] eqn:El
    end.
    2: { exists e. now apply bind_raise. }
    rewrite (bind_ok _ _ log1 log2 load) by exact El.
    match goal with
    | |- exists e, (?c ≫= _) log2 = Raise e => destruct (c log2) as [[n log3]|e] eqn:En
    end.
    2: { exists e. now apply bind_raise. }
    rewrite (bind_ok _ _ log2 log3 n) by exact En.
    eexists. apply bind_raise. apply BuiltModel_has_no_static_analysis_load.
  - intros bridge1 log' load n Eb. unfold run_modal.
    rewrite (bind_ok _ _ log log' bridge1) by exact Eb.
    rewrite (bind_ok _ _ log' log' load) by reflexivity.
    rewrite (bind_ok _ _ log' log' n) by reflexivity.
    apply bind_raise. apply BuiltModel_has_no_static_analysis_load.
Qed.

End RunModalFacts.

(** [scripts/run_modal.py] on the baseline case: the build itself raises. *)
Example run_modal_on_the_baseline :
  (params ← lift (Config.make_params no_strings "baseline");
   run_modal no_strings
     (build_bridge_model no_strings (fun _ => 0) builder_globals true (fun v => Ok v)
        (fun _ _ _ _ _ _ => mret tt)
        (fun _ _ _ _ _ _ _ _ => mret tt)
        (fun _ _ _ _ _ _ _ => lift (Raise ValueError)))
     (fun _ _ => mret 0) (fun _ => mret []) (fun x => x)
     params [1075; 2075; 3075; 4075; 5075; 6075]%Z [3075; 4075]%Z None None) []
  = Raise TypeError.
Proof. vm_compute. reflexivity. Qed.

Lemma run_modal_never_returns_deflections_witness :
  let bridge1 := {| analysis := Analysis_init (296 # 10) (125 # 10) 6 36 ∅;
                    bm_params := ∅; ctx := ∅ |} in
  run_modal no_strings (fun _ => mret bridge1) (fun _ _ => mret 0) (fun _ => mret [])
    (fun x => x) ∅ [1075; 2075]%Z [3075; 4075]%Z (Some (-290000)) (Some 3%Z) []
  = Raise (AttributeError "static_analysis_load").
Proof.
  intros bridge1.
  apply (proj2 (run_modal_never_returns_deflections no_strings (fun _ => mret bridge1)
                  (fun _ _ => mret 0) (fun _ => mret []) (fun x => x) ∅
                  [1075; 2075]%Z [3075; 4075]%Z None None []) bridge1 []).
  reflexivity.
Defined.

End ModalSpec.

(** ** The node-tag namespace *)

Module TagSpec.
Import Py PyFacts Ops Builder BuilderSpec.





(** *** Where the tags of each substructure lie *)






Section Namespace.

Context (nums_girder division n_cross : Z) (seams : list Z).
Context (H_girders : (0 <= nums_girder <= 10)%Z).
Context (H_division : (0 <= division <= 999)%Z).
Context (H_cross : (0 <= n_cross <= 5)%Z).
Context (H_seams : List.NoDup seams).
Context (H_seam_range : forall s, In s seams -> (0 <= s <= 199)%Z).






End Namespace.




End TagSpec.

(** ** From the parameters to the model *)

Module PipelineSpec.
Import Py PyFacts Ops Config Builder BuilderSpec Modal MovingLoad GirderSpec.
Local Open Scope Q_scope.
Local Open Scope string_scope.



End PipelineSpec.

(** ** Moving-load discretisation *)

Module MovingLoadSpec.
Import Py PyFacts MovingLoad.
Local Open Scope Q_scope.

Lemma hist_add_spec h nd it v old :
  hist_at h nd it = Some old ->
  exists h',
    hist_add h nd it v = Ok h'
    /\ hist_at h' nd it = Some (old + v)
    /\ (forall nd' it', (nd', it') <> (nd, it) -> hist_at h' nd' it' = hist_at h nd' it').
Proof.
  unfold hist_at, hist_add, dict_item. intros H.
  destruct (dict_get h nd) as [arr|] eqn:Harr; [|discriminate]. simpl in H.
  pose proof (lookup_lt_Some _ _ _ H) as Hlt.
  eexists. simpl. rewrite (getitem_lookup _ _ _ H). simpl.
  rewrite (setitem_insert _ _ _ Hlt). simpl. split; [reflexivity|]. split.
  - rewrite dict_get_set_eq. simpl. now apply list_lookup_insert_eq.
  - intros nd' it' Hne. destruct (Z.eq_dec nd nd') as [->|Hnd].
    + rewrite dict_get_set_eq, Harr. simpl.
      apply list_lookup_insert_ne. congruence.
    + now rewrite dict_get_set_ne.
Qed.

(** *** [searchsorted] on strictly increasing coordinates *)

Lemma sorted_head_lt (a : Q) (l : list Q) (k : nat) (x : Q) :
  StronglySorted Qlt (a :: l) -> l !! k = Some x -> a < x.
Proof.
  intros Hs Hk. apply StronglySorted_inv in Hs as [_ Hall].
  rewrite List.Forall_forall in Hall. apply Hall.
  apply list_elem_of_In. eapply list_elem_of_lookup_2; eauto.
Qed.

Lemma searchsorted_at (l : list Q) (k : nat) (x : Q) :
  StronglySorted Qlt l -> l !! k = Some x -> searchsorted l x = Z.of_nat k.
Proof.
  revert k. induction l as [|a l IH]; intros k Hs Hk; [discriminate|].
  destruct k as [|k]; simpl in *.
  - injection Hk as ->.
    replace (Qltb x x) with false; [reflexivity|].
    symmetry. apply Qltb_ge. apply Qle_refl.
  - pose proof (sorted_head_lt _ _ _ _ Hs Hk) as Hlt.
    apply Qltb_lt in Hlt. rewrite Hlt.
    apply StronglySorted_inv in Hs as [Hs _].
    rewrite (IH k Hs Hk). lia.
Qed.


Lemma sorted_lookup_lt (l : list Q) (i j : nat) (a b : Q) :
  StronglySorted Qlt l -> l !! i = Some a -> l !! j = Some b -> (i < j)%nat -> a < b.
Proof.
  revert i j. induction l as [|c l IH]; intros i j Hs Hi Hj Hij; [discriminate|].
  destruct j as [|j]; [lia|]. simpl in Hj.
  destruct i as [|i]; simpl in Hi.
  - injection Hi as ->. eapply sorted_head_lt; eauto.
  - apply StronglySorted_inv in Hs as [Hs _]. eapply (IH i j); eauto. lia.
Qed.

Lemma sorted_lookup_le (l : list Q) (i j : nat) (a b : Q) :
  StronglySorted Qlt l -> l !! i = Some a -> l !! j = Some b -> (i <= j)%nat -> a <= b.
Proof.
  intros Hs Hi Hj Hij. destruct (Nat.eq_dec i j) as [->|Hne].
  - rewrite Hi in Hj. injection Hj as ->. apply Qle_refl.
  - apply Qlt_le_weak. eapply sorted_lookup_lt; eauto. lia.
Qed.

(** The bracket chosen for index [k] < n-1 after clamping. *)
Lemma axle_bracket_at (x_g : list Q) (girder : list Z) (k : nat)
    (xi xj : Q) (nd_i nd_j : Z) (x : Q) :
  length girder = length x_g ->
  x_g !! k = Some xi -> x_g !! S k = Some xj ->
  girder !! k = Some nd_i -> girder !! S k = Some nd_j ->
  np_clip (searchsorted x_g x - 1) 0 (Z.of_nat (length girder) - 2) = Z.of_nat k ->
  xi < xj ->
  axle_bracket x_g girder x = Ok (nd_i, nd_j, (x - xi) / (xj - xi)).
Proof.
  intros Hlen Hi Hj Hni Hnj Hidx Hlt. unfold axle_bracket.
  rewrite Hidx.
  rewrite (getitem_lookup _ _ _ Hi). simpl.
  replace (Z.of_nat k + 1)%Z with (Z.of_nat (S k)) by lia.
  rewrite (getitem_lookup _ _ _ Hj). simpl.
  rewrite (getitem_lookup _ _ _ Hni). simpl.
  rewrite (getitem_lookup _ _ _ Hnj). simpl.
  rewrite np_div_ok; [reflexivity|]. intros H0. lra.
Qed.

Lemma axle_update_spec (x_g : list Q) (girder : list Z) (h : dict (list Q))
    (it : nat) (x load_val x0 xl : Q) (nd_i nd_j : Z) (r old_i old_j : Q) :
  x_g !! 0%nat = Some x0 -> last x_g = Some xl ->
  x0 <= x -> x <= xl ->
  axle_bracket x_g girder x = Ok (nd_i, nd_j, r) ->
  nd_i <> nd_j ->
  hist_at h nd_i it = Some old_i -> hist_at h nd_j it = Some old_j ->
  exists h',
    axle_update x_g girder h it x load_val = Ok h'
    /\ hist_at h' nd_i it = Some (old_i + load_val * (1 - r))
    /\ hist_at h' nd_j it = Some (old_j + load_val * r)
    /\ (forall nd' it', (nd', it') <> (nd_i, it) -> (nd', it') <> (nd_j, it) ->
          hist_at h' nd' it' = hist_at h nd' it').
Proof.
  intros H0 Hl Hlo Hhi Hbr Hne Hoi Hoj. unfold axle_update.
  change 0%Z with (Z.of_nat 0) at 1.
  rewrite (getitem_lookup _ 0%nat _ H0). simpl.
  rewrite (getitem_last _ _ Hl). simpl.
  apply Qleb_le in Hlo, Hhi. rewrite Hlo, Hhi. simpl.
  rewrite Hbr. simpl.
  destruct (hist_add_spec h nd_i it (load_val * (1 - r)) old_i Hoi)
    as (h1 & E1 & Hi1 & Hother1).
  rewrite E1. simpl.
  assert (Hoj1 : hist_at h1 nd_j it = Some old_j).
  { rewrite Hother1; [exact Hoj | congruence]. }
  destruct (hist_add_spec h1 nd_j it (load_val * r) old_j Hoj1)
    as (h2 & E2 & Hj2 & Hother2).
  exists h2. split; [exact E2|]. split; [|split].
  - rewrite Hother2; [exact Hi1 | congruence].
  - exact Hj2.
  - intros nd' it' Hn1 Hn2. rewrite Hother2 by exact Hn2. now apply Hother1.
Qed.

Lemma searchsorted_bounds (l : list Q) (y : Q) :
  (0 <= searchsorted l y <= Z.of_nat (length l))%Z.
Proof.
  induction l as [|a l IH]; simpl; [lia|].
  destruct (Qltb a y); lia.
Qed.

Lemma sorted_first_last (l : list Q) (k : nat) (x x0 xl : Q) :
  StronglySorted Qlt l -> l !! 0%nat = Some x0 -> last l = Some xl -> l !! k = Some x ->
  x0 <= x /\ x <= xl.
Proof.
  intros Hs H0 Hl Hk. rewrite last_lookup in Hl.
  pose proof (lookup_lt_Some _ _ _ Hk) as Hlt. split.
  - eapply sorted_lookup_le; eauto. lia.
  - eapply sorted_lookup_le; eauto. lia.
Qed.

Lemma first_last_exist {A} (l : list A) :
  (0 < length l)%nat -> exists x0 xl, l !! 0%nat = Some x0 /\ last l = Some xl.
Proof.
  intros Hlen. destruct l as [|a l]; [simpl in Hlen; lia|].
  exists a. destruct (last (a :: l)) as [xl|] eqn:E.
  - now exists xl.
  - apply last_None in E. discriminate.
Qed.



(** With at least two nodes the clamped bracket index always designates a
    pair of adjacent nodes, whose coordinates differ. *)
Lemma axle_bracket_defined (x_g : list Q) (girder : list Z) (y : Q) :
  StronglySorted Qlt x_g -> length girder = length x_g -> (2 <= length x_g)%nat ->
  exists (idx : nat) (xi xj : Q) (nd_i nd_j : Z),
    x_g !! idx = Some xi /\ x_g !! S idx = Some xj
    /\ girder !! idx = Some nd_i /\ girder !! S idx = Some nd_j
    /\ xi < xj /\ ~ xj - xi == 0
    /\ axle_bracket x_g girder y = Ok (nd_i, nd_j, (y - xi) / (xj - xi)).
Proof.
  intros Hs Hlen Hn.
  set (idx := np_clip (searchsorted x_g y - 1) 0 (Z.of_nat (length girder) - 2)).
  assert (Hidx : (0 <= idx <= Z.of_nat (length x_g) - 2)%Z).
  { unfold idx, np_clip. rewrite Hlen. lia. }
  destruct (lookup_lt_is_Some_2 x_g (Z.to_nat idx)) as [xi Hi]; [lia|].
  destruct (lookup_lt_is_Some_2 x_g (S (Z.to_nat idx))) as [xj Hj]; [lia|].
  destruct (lookup_lt_is_Some_2 girder (Z.to_nat idx)) as [nd_i Hni]; [lia|].
  destruct (lookup_lt_is_Some_2 girder (S (Z.to_nat idx))) as [nd_j Hnj]; [lia|].
  assert (Hlt : xi < xj) by (eapply sorted_lookup_lt; eauto).
  exists (Z.to_nat idx), xi, xj, nd_i, nd_j.
  repeat (split; [assumption|]). split; [lra|].
  apply (axle_bracket_at x_g girder (Z.to_nat idx)); auto.
  fold idx. lia.
Qed.

(** C5.  An axle standing exactly on a node (an interior node or a span end)
    puts weight 1 on that node and weight 0 on the other node of its bracket,
    so the whole axle load is added to the coincident node; and, for every
    position, the clamped bracket index selects two adjacent nodes of distinct
    coordinates, so the division by [xj - xi] is defined. *)
Theorem axle_on_node_loads_that_node
    (x_g : list Q) (girder : list Z) (k : nat) (x : Q) (nd : Z) :
  StronglySorted Qlt x_g -> NoDup girder -> length girder = length x_g ->
  (2 <= length x_g)%nat ->
  x_g !! k = Some x -> girder !! k = Some nd ->
  (exists (nd_i nd_j other : Z) (r : Q),
      axle_bracket x_g girder x = Ok (nd_i, nd_j, r)
      /\ other <> nd
      /\ ((nd_i = nd /\ nd_j = other /\ 1 - r == 1 /\ r == 0)
          \/ (nd_i = other /\ nd_j = nd /\ 1 - r == 0 /\ r == 1))
      /\ (forall (h : dict (list Q)) (it : nat) (load_val old old' : Q),
            hist_at h nd it = Some old -> hist_at h other it = Some old' ->
            exists h' v v',
              axle_update x_g girder h it x load_val = Ok h'
              /\ hist_at h' nd it = Some v /\ v == old + load_val
              /\ hist_at h' other it = Some v' /\ v' == old'))
  /\ (forall y : Q,
        exists (idx : nat) (xi xj : Q) (nd_i nd_j : Z),
          x_g !! idx = Some xi /\ x_g !! S idx = Some xj
          /\ girder !! idx = Some nd_i /\ girder !! S idx = Some nd_j
          /\ xi < xj /\ ~ xj - xi == 0
          /\ axle_bracket x_g girder y = Ok (nd_i, nd_j, (y - xi) / (xj - xi))).
Proof.
  intros Hs Hnd Hlen Hn Hk Hndk. split; [|intros y; now apply axle_bracket_defined].
  destruct (first_last_exist x_g) as (x0 & xl & H0 & Hl); [lia|].
  destruct (sorted_first_last x_g k x x0 xl Hs H0 Hl Hk) as [Hx0 Hxl].
  pose proof (searchsorted_at x_g k x Hs Hk) as Hss.
  destruct k as [|k'].
  - (* the first node: the bracket is (0, 1) and r = 0 *)
    destruct (lookup_lt_is_Some_2 x_g 1%nat) as [xj Hj]; [lia|].
    destruct (lookup_lt_is_Some_2 girder 1%nat) as [nd_j Hnj]; [lia|].
    assert (Hlt : x < xj) by (eapply (sorted_lookup_lt x_g 0 1); eauto).
    assert (Hbr : axle_bracket x_g girder x = Ok (nd, nd_j, (x - x) / (xj - x))).
    { apply (axle_bracket_at x_g girder 0%nat); auto.
      rewrite Hss. unfold np_clip. lia. }
    assert (Hr : (x - x) / (xj - x) == 0) by (field; lra).
    assert (Hne : nd <> nd_j).
    { intros ->. pose proof (NoDup_lookup _ _ _ _ Hnd Hndk Hnj). lia. }
    exists nd, nd_j, nd_j, ((x - x) / (xj - x)).
    split; [exact Hbr|]. split; [congruence|]. split.
    { left. repeat split; auto. rewrite Hr. ring. }
    intros h it load_val old old' Ho Ho'.
    destruct (axle_update_spec x_g girder h it x load_val x0 xl nd nd_j _ old old'
                H0 Hl Hx0 Hxl Hbr Hne Ho Ho') as (h' & E & Hv & Hv' & _).
    exists h'. eexists. eexists. split; [exact E|].
    split; [exact Hv|]. split; [rewrite Hr; ring|].
    split; [exact Hv'|]. rewrite Hr; ring.
  - (* any later node: the bracket is (k', k' + 1) and r = 1 *)
    destruct (lookup_lt_is_Some_2 x_g k') as [xi Hi].
    { pose proof (lookup_lt_Some _ _ _ Hk). lia. }
    destruct (lookup_lt_is_Some_2 girder k') as [nd_i Hni].
    { pose proof (lookup_lt_Some _ _ _ Hndk). lia. }
    assert (Hlt : xi < x) by (eapply (sorted_lookup_lt x_g k' (S k')); eauto).
    assert (Hbr : axle_bracket x_g girder x = Ok (nd_i, nd, (x - xi) / (x - xi))).
    { apply (axle_bracket_at x_g girder k'); auto.
      rewrite Hss. pose proof (lookup_lt_Some _ _ _ Hk). unfold np_clip. lia. }
    assert (Hr : (x - xi) / (x - xi) == 1) by (field; lra).
    assert (Hne : nd_i <> nd).
    { intros ->. pose proof (NoDup_lookup _ _ _ _ Hnd Hni Hndk). lia. }
    exists nd_i, nd, nd_i, ((x - xi) / (x - xi)).
    split; [exact Hbr|]. split; [congruence|]. split.
    { right. repeat split; auto. rewrite Hr. ring. }
    intros h it load_val old old' Ho Ho'.
    destruct (axle_update_spec x_g girder h it x load_val x0 xl nd_i nd _ old' old
                H0 Hl Hx0 Hxl Hbr Hne Ho' Ho) as (h' & E & Hv' & Hv & _).
    exists h'. eexists. eexists. split; [exact E|].
    split; [exact Hv|]. split; [rewrite Hr; ring|].
    split; [exact Hv'|]. rewrite Hr; ring.
Qed.

Lemma axle_on_node_loads_that_node_witness :
  (exists (nd_i nd_j other : Z) (r : Q),
      axle_bracket [0; 200; 400] [3001; 3002; 3003]%Z 400 = Ok (nd_i, nd_j, r)
      /\ other <> 3003%Z
      /\ ((nd_i = 3003%Z /\ nd_j = other /\ 1 - r == 1 /\ r == 0)
          \/ (nd_i = other /\ nd_j = 3003%Z /\ 1 - r == 0 /\ r == 1))
      /\ (forall (h : dict (list Q)) (it : nat) (load_val old old' : Q),
            hist_at h 3003 it = Some old -> hist_at h other it = Some old' ->
            exists h' v v',
              axle_update [0; 200; 400] [3001; 3002; 3003]%Z h it 400 load_val = Ok h'
              /\ hist_at h' 3003 it = Some v /\ v == old + load_val
              /\ hist_at h' other it = Some v' /\ v' == old'))
  /\ (forall y : Q,
        exists (idx : nat) (xi xj : Q) (nd_i nd_j : Z),
          [0; 200; 400] !! idx = Some xi /\ [0; 200; 400] !! S idx = Some xj
          /\ [3001; 3002; 3003]%Z !! idx = Some nd_i
          /\ [3001; 3002; 3003]%Z !! S idx = Some nd_j
          /\ xi < xj /\ ~ xj - xi == 0
          /\ axle_bracket [0; 200; 400] [3001; 3002; 3003]%Z y
             = Ok (nd_i, nd_j, (y - xi) / (xj - xi))).
Proof.
  apply (axle_on_node_loads_that_node [0; 200; 400] [3001; 3002; 3003]%Z 2%nat 400 3003%Z).
  - repeat constructor.
  - repeat constructor; rewrite ?list_elem_of_In; simpl; intuition lia.
  - reflexivity.
  - simpl. lia.
  - reflexivity.
  - reflexivity.
Defined.

(** The three samples of the first time step when an axle of 30650 N stands
    on the last node of a three-node line. *)
Example axle_update_at_span_end :
  (h ← axle_update [0; 200; 400] [3001; 3002; 3003]%Z
         (init_history [3001; 3002; 3003]%Z 2) 0 400 30650;
   Ok (map (fun '(nd, values) => (nd, map Qred values)) h))
  = Ok [(3001%Z, [0; 0]); (3002%Z, [0; 0]); (3003%Z, [30650; 0])].
Proof. vm_compute. reflexivity. Qed.

(** *** Pruning of the node histories *)

Lemma allclose_zero_spec (values : list Q) :
  allclose values 0 = true <-> Forall (fun v => Qabs v <= atol) values.
Proof.
  unfold allclose. rewrite forallb_forall, List.Forall_forall.
  assert (Hiff : forall v, Qleb (Qabs (v - 0)) (atol + rtol * Qabs 0) = true
                           <-> Qabs v <= atol).
  { intros v. rewrite Qleb_le.
    assert (E1 : Qabs (v - 0) == Qabs v) by (apply Qabs_wd; ring).
    assert (E2 : atol + rtol * Qabs 0 == atol) by reflexivity.
    rewrite E1, E2. reflexivity. }
  split; intros H v Hv; apply Hiff, H, Hv.
Qed.

Lemma allclose_zero_false (values : list Q) :
  allclose values 0 = false <-> Exists (fun v => atol < Qabs v) values.
Proof.
  split.
  - intros H. apply List.Exists_exists.
    unfold allclose in H.
    induction values as [|v values IH]; cbn [forallb] in H; [discriminate|].
    destruct (Qleb (Qabs (v - 0)) (atol + rtol * Qabs 0)) eqn:E; cbn [andb] in H.
    + destruct (IH H) as (w & Hw & Hlt). exists w. split; [now right | exact Hlt].
    + exists v. split; [now left|].
      apply Qnot_le_lt. intros Hle.
      assert (Hall : allclose [v] 0 = true).
      { apply allclose_zero_spec. constructor; [exact Hle | constructor]. }
      unfold allclose in Hall. cbn [forallb] in Hall. rewrite E in Hall. discriminate.
  - intros H. destruct (allclose values 0) eqn:E; [|reflexivity].
    apply allclose_zero_spec in E. rewrite List.Forall_forall in E.
    apply List.Exists_exists in H as (v & Hv & Hlt).
    specialize (E v Hv). exfalso. apply (Qlt_not_le _ _ Hlt E).
Qed.

Lemma pathseries_submitted_iff (dt : Q) (h : dict (list Q)) (girder_id nd : Z) (values : list Q) :
  In (Ops.TimeSeriesPath (1000 * girder_id + nd) dt values 1)
     (create_pathseries_from_history dt h girder_id)
  <-> In (nd, values) h /\ allclose values 0 = false.
Proof.
  unfold create_pathseries_from_history. rewrite in_flat_map. split.
  - intros ([nd' values'] & Hin & Hcmd).
    destruct (allclose values' 0) eqn:E; [destruct Hcmd|].
    simpl in Hcmd. destruct Hcmd as [Heq|[Heq|[Heq|[]]]]; try discriminate.
    injection Heq as Htag Hval. subst values'.
    assert (nd' = nd) by lia. subst nd'. auto.
  - intros [Hin E]. exists (nd, values). split; [exact Hin|].
    rewrite E. now left.
Qed.

Lemma pathseries_commands_together (dt : Q) (h : dict (list Q)) (girder_id nd : Z) (values : list Q) :
  In (Ops.TimeSeriesPath (1000 * girder_id + nd) dt values 1)
     (create_pathseries_from_history dt h girder_id) ->
  In (Ops.PatternPlain (2000 * girder_id + nd) (1000 * girder_id + nd))
     (create_pathseries_from_history dt h girder_id)
  /\ In (Ops.Load nd 0 0 (-1) 0 0 0) (create_pathseries_from_history dt h girder_id).
Proof.
  intros H. apply pathseries_submitted_iff in H as [Hin E].
  unfold create_pathseries_from_history.
  split; apply in_flat_map; exists (nd, values); (split; [exact Hin|]);
    rewrite E; simpl; auto.
Qed.

(** C6, as stated, fails: a history that is not identically zero, but whose
    samples all lie within [np.allclose]'s absolute tolerance of zero, is
    pruned as well. *)
Lemma faint_history_is_pruned :
  let values := [0; 5 # 1000000000; 0] in
  let h := [(3001%Z, values)] in
  In (3001%Z, values) h
  /\ Exists (fun v => ~ v == 0) values
  /\ create_pathseries_from_history (1 # 10) h 3 = []
  /\ ~ In (Ops.TimeSeriesPath (1000 * 3 + 3001) (1 # 10) values 1)
          (create_pathseries_from_history (1 # 10) h 3).
Proof.
  cbv zeta. split; [now left|]. split.
  - apply Exists_cons_tl, Exists_cons_hd. intros E. discriminate E.
  - split; [reflexivity|]. intros H. exact H.
Qed.

(** C6 (amended).  A Path time series, its load pattern and its nodal load
    are created for a node of the history dictionary exactly when some sample
    of its history exceeds [atol] = 1e-8 in absolute value, the default
    tolerance of [np.allclose]; hence a history that is identically zero is
    always pruned, and a created series always has a non-zero sample. *)
Theorem pathseries_created_iff_above_tolerance
    (dt : Q) (h : dict (list Q)) (girder_id nd : Z) (values : list Q) :
  In (nd, values) h ->
  (In (Ops.TimeSeriesPath (1000 * girder_id + nd) dt values 1)
      (create_pathseries_from_history dt h girder_id)
   <-> Exists (fun v => atol < Qabs v) values)
  /\ (In (Ops.TimeSeriesPath (1000 * girder_id + nd) dt values 1)
         (create_pathseries_from_history dt h girder_id) ->
      In (Ops.PatternPlain (2000 * girder_id + nd) (1000 * girder_id + nd))
         (create_pathseries_from_history dt h girder_id)
      /\ In (Ops.Load nd 0 0 (-1) 0 0 0) (create_pathseries_from_history dt h girder_id)
      /\ Exists (fun v => ~ v == 0) values)
  /\ (Forall (fun v => v == 0) values ->
      ~ In (Ops.TimeSeriesPath (1000 * girder_id + nd) dt values 1)
           (create_pathseries_from_history dt h girder_id)).
Proof.
  intros Hin.
  assert (Hiff : In (Ops.TimeSeriesPath (1000 * girder_id + nd) dt values 1)
                    (create_pathseries_from_history dt h girder_id)
                 <-> Exists (fun v => atol < Qabs v) values).
  { rewrite pathseries_submitted_iff, allclose_zero_false. tauto. }
  assert (Hnz : Exists (fun v => atol < Qabs v) values -> Exists (fun v => ~ v == 0) values).
  { intros Hex. eapply List.Exists_impl; [|exact Hex].
    intros v Hv E. cbv beta in Hv.
    assert (Ha : Qabs v == 0) by (rewrite (Qabs_wd _ _ E); reflexivity).
    rewrite Ha in Hv. discriminate Hv. }
  split; [exact Hiff|]. split.
  - intros Hts. destruct (pathseries_commands_together _ _ _ _ _ Hts) as [Hp Hl].
    repeat split; auto. apply Hnz, Hiff, Hts.
  - intros Hzero Hts. apply Hiff, Hnz in Hts.
    apply List.Exists_exists in Hts as (v & Hv & Hne).
    rewrite List.Forall_forall in Hzero. auto.
Qed.

Lemma pathseries_created_iff_above_tolerance_witness :
  let values := [0; 15325; 0] in
  let cmds := create_pathseries_from_history (1 # 10) [(3001%Z, [0; 0; 0]); (3002%Z, values)] 3 in
  (In (Ops.TimeSeriesPath (1000 * 3 + 3002) (1 # 10) values 1) cmds
   <-> Exists (fun v => atol < Qabs v) values)
  /\ (In (Ops.TimeSeriesPath (1000 * 3 + 3002) (1 # 10) values 1) cmds ->
      In (Ops.PatternPlain (2000 * 3 + 3002) (1000 * 3 + 3002)) cmds
      /\ In (Ops.Load 3002 0 0 (-1) 0 0 0) cmds
      /\ Exists (fun v => ~ v == 0) values)
  /\ (Forall (fun v => v == 0) values ->
      ~ In (Ops.TimeSeriesPath (1000 * 3 + 3002) (1 # 10) values 1) cmds).
Proof.
  apply (pathseries_created_iff_above_tolerance
           (1 # 10) [(3001%Z, [0; 0; 0]); (3002%Z, [0; 15325; 0])] 3%Z 3002%Z [0; 15325; 0]).
  simpl. right. left. reflexivity.
Defined.

Example pathseries_of_two_nodes :
  create_pathseries_from_history (1 # 10) [(3001%Z, [0; 0; 0]); (3002%Z, [0; 15325; 0])] 3
  = [ Ops.TimeSeriesPath 6002 (1 # 10) [0; 15325; 0] 1;
      Ops.PatternPlain 9002 6002;
      Ops.Load 3002 0 0 (-1) 0 0 0 ].
Proof. reflexivity. Qed.

(** *** Rayleigh damping *)

Section DampingFacts.

Variable sqrt : Q -> Q.

Lemma np_sqrt_ok (x : Q) : 0 <= x -> np_sqrt sqrt x = Ok (sqrt x).
Proof.
  intros H. unfold np_sqrt. apply Qltb_ge in H. now rewrite H.
Qed.

Lemma getitem_map_lookup {A B} (f : A -> B) (l : list A) (k : nat) (x : A) :
  l !! k = Some x -> getitem (map f l) (Z.of_nat k) = Ok (f x).
Proof.
  intros H. apply getitem_lookup. rewrite list_lookup_fmap. now rewrite H.
Qed.

(** The index of the second frequency: the third mode, or the last one when
    fewer than three were extracted. *)
Lemma second_mode_index (eigen_value : list Q) (e3 : Q) :
  eigen_value !! 2%nat = Some e3
  \/ ((length eigen_value < 3)%nat /\ last eigen_value = Some e3) ->
  exists k : nat,
    Z.min 2 (Z.of_nat (length (map (np_sqrt sqrt) eigen_value)) - 1) = Z.of_nat k
    /\ eigen_value !! k = Some e3.
Proof.
  rewrite length_map. intros [H|[Hlen H]].
  - exists 2%nat. pose proof (lookup_lt_Some _ _ _ H). split; [lia | exact H].
  - rewrite last_lookup in H. pose proof (lookup_lt_Some _ _ _ H).
    exists (Nat.pred (length eigen_value)). split; [lia | exact H].
Qed.

(** C7.  [omega1] is the square root of the first eigenvalue and [omega2]
    that of the third (of the last one when fewer than three were
    extracted); the solver receives [alphaM = zeta*2*omega1*omega2 /
    (omega1+omega2)] as mass coefficient and [betaK = 2*zeta /
    (omega1+omega2)] as stiffness coefficient, and both vanish when
    [zeta = 0]. *)
Theorem rayleigh_coefficients (eigen_value : list Q) (zeta e1 e3 : Q) :
  eigen_value !! 0%nat = Some e1 ->
  (eigen_value !! 2%nat = Some e3
   \/ ((length eigen_value < 3)%nat /\ last eigen_value = Some e3)) ->
  0 <= e1 -> 0 <= e3 ->
  ~ sqrt e1 + sqrt e3 == 0 ->
  let omega1 := sqrt e1 in
  let omega2 := sqrt e3 in
  exists alphaM betaK : Q,
    rayleigh_setup sqrt eigen_value zeta = Ok [Ops.Rayleigh alphaM 0 0 betaK]
    /\ alphaM == zeta * 2 * omega1 * omega2 / (omega1 + omega2)
    /\ betaK == 2 * zeta / (omega1 + omega2)
    /\ (zeta == 0 -> alphaM == 0 /\ betaK == 0).
Proof.
  intros H1 H3 Hp1 Hp3 Hden omega1 omega2.
  destruct (second_mode_index eigen_value e3 H3) as (k & Hk & Hk3).
  unfold rayleigh_setup. rewrite Hk.
  change 0%Z with (Z.of_nat 0) at 1.
  rewrite (getitem_map_lookup _ _ _ _ H1), (getitem_map_lookup _ _ _ _ Hk3).
  cbn [mjoin_result]. rewrite (np_sqrt_ok e1 Hp1). simpl.
  rewrite (np_sqrt_ok e3 Hp3). simpl.
  rewrite !np_div_ok by exact Hden. simpl.
  eexists. eexists. split; [reflexivity|].
  fold omega1 omega2. split; [field; exact Hden|]. split; [reflexivity|].
  intros Hz. split; rewrite Hz; field; exact Hden.
Qed.

End DampingFacts.

(** A rational square root, exact on the perfect squares used below. *)
Lemma rayleigh_coefficients_witness :
  let sqrt := fun q : Q => inject_Z (Z.sqrt (Qfloor q)) in
  exists alphaM betaK : Q,
    rayleigh_setup sqrt [4; 9; 16; 25] (15 # 1000) = Ok [Ops.Rayleigh alphaM 0 0 betaK]
    /\ alphaM == (15 # 1000) * 2 * sqrt 4 * sqrt 16 / (sqrt 4 + sqrt 16)
    /\ betaK == 2 * (15 # 1000) / (sqrt 4 + sqrt 16)
    /\ ((15 # 1000) == 0 -> alphaM == 0 /\ betaK == 0).
Proof.
  intros sqrt.
  apply (rayleigh_coefficients sqrt [4; 9; 16; 25] (15 # 1000) 4 16).
  - reflexivity.
  - left. reflexivity.
  - discriminate.
  - discriminate.
  - intros E. discriminate E.
Defined.

Example rayleigh_two_modes :
  rayleigh_setup (fun q : Q => inject_Z (Z.sqrt (Qfloor q))) [4; 16] 0
  = Ok [Ops.Rayleigh (0 * (2 * 2 * 4) / (2 + 4)) 0 0 (2 * 0 / (2 + 4))].
Proof. reflexivity. Qed.

End MovingLoadSpec.

(** ** Girder lines read back by the moving-load analysis *)

Module GirderTagsSpec.
Import Py PyFacts Ops Builder BuilderSpec GirderSpec MovingLoad.

Lemma where_eq_from (k : nat) (tags : list Z) (t : Z) :
  (~ In t tags ->
   flat_map (fun '(i, x) => if (x =? t)%Z then [Z.of_nat i] else [])
            (combine (seq k (length tags)) tags) = [])
  /\ (forall before rest, tags = (before ++ t :: rest)%list -> ~ In t before ->
      exists more,
        flat_map (fun '(i, x) => if (x =? t)%Z then [Z.of_nat i] else [])
                 (combine (seq k (length tags)) tags)
        = Z.of_nat (k + length before) :: more).
Proof.
  revert k. induction tags as [|x tags IH]; intros k; split.
  - reflexivity.
  - intros [|b before] rest E; discriminate E.
  - intros Hn. cbn. destruct (Z.eqb_spec x t) as [->|Hne].
    + exfalso. apply Hn. now left.
    + cbn. apply (IH (S k)). intros Hin. apply Hn. now right.
  - intros [|b before] rest E Hn; injection E as -> ->.
    + cbn. rewrite Z.eqb_refl. rewrite Nat.add_0_r. eexists. reflexivity.
    + cbn. destruct (Z.eqb_spec b t) as [->|Hne].
      * exfalso. apply Hn. now left.
      * cbn. destruct (proj2 (IH (S k)) before rest eq_refl) as (more & ->).
        { intros Hin. apply Hn. now right. }
        exists more. f_equal. lia.
Qed.

Lemma first_occurrence (tags : list Z) (t : Z) :
  In t tags -> exists before rest, tags = (before ++ t :: rest)%list /\ ~ In t before.
Proof.
  induction tags as [|x tags IH]; [intros []|].
  intros Hin. destruct (Z.eq_dec x t) as [->|Hne].
  - exists [], tags. split; [reflexivity | intros []].
  - destruct Hin as [->|Hin]; [congruence|].
    destruct (IH Hin) as (before & rest & -> & Hn).
    exists (x :: before), rest. split; [reflexivity|].
    intros [E|H]; [congruence | contradiction].
Qed.

Lemma py_slice_from (before rest : list Z) (n : Z) :
  0 <= n ->
  py_slice (before ++ rest) (Z.of_nat (length before)) (Z.of_nat (length before) + n)
  = take (Z.to_nat n) rest.
Proof.
  intros Hn. unfold py_slice, slice_bound. rewrite length_app.
  destruct (Z.ltb_spec (Z.of_nat (length before)) 0) as [|_]; [lia|].
  destruct (Z.ltb_spec (Z.of_nat (length before) + n) 0) as [|_]; [lia|].
  replace (Z.to_nat (Z.min (Z.of_nat (length before))
                           (Z.of_nat (length before + length rest))))
    with (length before) by lia.
  rewrite drop_app_length.
  destruct (Z.le_gt_cases n (Z.of_nat (length rest))) as [Hle|Hgt].
  - f_equal. lia.
  - rewrite !take_ge by lia. reflexivity.
Qed.

(** [_get_girder_tags] raises [RuntimeError] exactly when the start tag is
    not a node of the domain.  Otherwise it returns the start tag and the
    tags that follow its first occurrence, [n_nodes] of them at most: when
    the domain ends sooner the answer is shorter, without an error. *)
Theorem get_girder_tags_slice (tags : list Z) (start_tag n_nodes : Z) :
  0 <= n_nodes ->
  (~ In start_tag tags ->
   _get_girder_tags tags start_tag n_nodes = inl (StartTagNotFound start_tag))
  /\ (forall before rest,
        tags = (before ++ start_tag :: rest)%list -> ~ In start_tag before ->
        _get_girder_tags tags start_tag n_nodes
        = inr (take (Z.to_nat n_nodes) (start_tag :: rest))
        /\ (length (take (Z.to_nat n_nodes) (start_tag :: rest))
            = Nat.min (Z.to_nat n_nodes) (S (length rest))))
  /\ (In start_tag tags <->
      exists line, _get_girder_tags tags start_tag n_nodes = inr line).
Proof.
  intros Hn.
  assert (Hmiss : ~ In start_tag tags ->
            _get_girder_tags tags start_tag n_nodes = inl (StartTagNotFound start_tag)).
  { intros H. unfold _get_girder_tags, np_where_eq, enumerate.
    now rewrite (proj1 (where_eq_from 0 tags start_tag) H). }
  assert (Hfound : forall before rest,
            tags = (before ++ start_tag :: rest)%list -> ~ In start_tag before ->
            _get_girder_tags tags start_tag n_nodes
            = inr (take (Z.to_nat n_nodes) (start_tag :: rest))).
  { intros before rest E Hb. unfold _get_girder_tags, np_where_eq, enumerate.
    destruct (proj2 (where_eq_from 0 tags start_tag) before rest E Hb) as (more & ->).
    cbn [Nat.add]. rewrite E. now rewrite (py_slice_from before (start_tag :: rest)). }
  split; [exact Hmiss|]. split.
  - intros before rest E Hb. split; [now apply (Hfound before rest)|]. now rewrite length_take.
  - split.
    + intros Hin. destruct (first_occurrence tags start_tag Hin) as (b & r & E & Hb).
      eexists. now apply (Hfound b r).
    + intros (line & E). destruct (in_dec Z.eq_dec start_tag tags) as [|Hno]; [assumption|].
      rewrite (Hmiss Hno) in E. discriminate E.
Qed.

Lemma get_girder_tags_slice_witness :
  _get_girder_tags [3001; 3002; 3003] 4001 149 = inl (StartTagNotFound 4001)
  /\ _get_girder_tags [3001; 3002; 3003; 4001] 3002 2 = inr [3002; 3003]
  /\ _get_girder_tags [3001; 3002; 3003; 4001] 3002 149 = inr [3002; 3003; 4001].
Proof.
  split; [|split].
  - apply (get_girder_tags_slice [3001; 3002; 3003] 4001 149); [lia|].
    cbn. intuition lia.
  - apply (proj1 (proj2 (get_girder_tags_slice [3001; 3002; 3003; 4001] 3002 2 ltac:(lia)))
             [3001] [3003; 4001]); [reflexivity|].
    cbn. intuition lia.
  - apply (proj1 (proj2 (get_girder_tags_slice [3001; 3002; 3003; 4001] 3002 149 ltac:(lia)))
             [3001] [3003; 4001]); [reflexivity|].
    cbn. intuition lia.
Defined.


(** *** The line just built, in the ascending listing of the domain *)

Lemma filter_sorted (P : Z -> bool) (l : list Z) :
  StronglySorted Z.le l -> StronglySorted Z.le (List.filter P l).
Proof.
  induction 1 as [|x l Hs IH Hx]; cbn; [constructor|].
  destruct (P x); [|exact IH].
  constructor; [exact IH|].
  rewrite List.Forall_forall in *. intros y Hy. apply List.filter_In in Hy as [Hy _]. auto.
Qed.

Lemma filter_split_Permutation (P Q : Z -> bool) (l : list Z) :
  (forall x, In x l -> P x = negb (Q x)) ->
  l ≡ₚ List.filter P l ++ List.filter Q l.
Proof.
  induction l as [|x l IH]; intros H; cbn; [constructor|].
  rewrite (H x (or_introl eq_refl)).
  destruct (Q x); cbn.
  - apply Permutation_cons_app.
    apply IH. intros y Hy. apply H. now right.
  - constructor. apply IH. intros y Hy. apply H. now right.
Qed.

(** A block of consecutive tags, appended to a domain that holds no tag of
    its range, stands in one piece in the ascending listing, between the
    smaller and the larger tags. *)
Lemma sorted_block (old line : list Z) (lo hi : Z) :
  lo <= hi ->
  (forall t, In t old -> ~ (lo <= t <= hi)) ->
  (forall t, In t line -> lo <= t <= hi) ->
  StronglySorted Z.lt line ->
  merge_sort Z.le (old ++ line)
  = List.filter (fun t => t <? lo) (merge_sort Z.le old)
    ++ line ++ List.filter (fun t => hi <? t) (merge_sort Z.le old).
Proof.
  intros Hlohi Hold Hline Hs.
  assert (Hsorted_old : StronglySorted Z.le (merge_sort Z.le old)).
  { apply StronglySorted_merge_sort; [intros x y z H1 H2; lia | apply _]. }
  assert (Hin_old : forall t, In t (merge_sort Z.le old) -> In t old).
  { intros t Ht. apply list_elem_of_In. apply list_elem_of_In in Ht.
    now rewrite merge_sort_Permutation in Ht. }
  apply (StronglySorted_unique_strong Z.le).
  - intros x1 x2 _ _ H1 H2. lia.
  - apply StronglySorted_merge_sort; [intros x y z H1 H2; lia | apply _].
  - apply StronglySorted_app. split; [|split; [now apply filter_sorted|]].
    + intros x1 x2 H1 H2. apply list_elem_of_In in H1, H2.
      apply List.filter_In in H1 as [_ H1]. apply Z.ltb_lt in H1.
      apply in_app_iff in H2 as [H2|H2].
      * specialize (Hline _ H2). lia.
      * apply List.filter_In in H2 as [H2 H2']. apply Z.ltb_lt in H2'.
        specialize (Hold _ (Hin_old _ H2)). lia.
    + apply StronglySorted_app. split; [|split; [|now apply filter_sorted]].
      * intros x1 x2 H1 H2. apply list_elem_of_In in H1, H2.
        apply List.filter_In in H2 as [_ H2]. apply Z.ltb_lt in H2.
        specialize (Hline _ H1). lia.
      * clear -Hs. induction Hs as [|x l Hs IH Hx]; constructor; auto.
        eapply List.Forall_impl; [|exact Hx]. intros. cbn in *. lia.
  - rewrite merge_sort_Permutation.
    rewrite (Permutation_app_comm line), app_assoc.
    apply Permutation_app_tail.
    etransitivity; [symmetry; apply (merge_sort_Permutation Z.le)|].
    apply filter_split_Permutation.
    intros x Hx. specialize (Hold _ (Hin_old _ Hx)).
    destruct (Z.ltb_spec x lo), (Z.ltb_spec hi x); cbn; try reflexivity; lia.
Qed.

(** The girder line that [Analysis.girder] has just built is what
    [_get_girder_tags] reads back from its start tag [1000 * i + 1], in the
    ascending listing of the domain by [ops.getNodeTags()]: asked for
    [division + 1] nodes it returns the tags of the line, in order; asked
    for [n_nodes] it returns the first [n_nodes] tags of the line followed,
    if the line is shorter, by the larger tags of the domain. *)
Theorem girder_line_is_read_back
    (parsers : str_parsers) (tan_deg : Q -> Q) (G : module_globals)
    (self : Analysis) (girder_number : Z) (Ec : pyval) (Pe spacing : Q)
    (inputs : girder_inputs) (yt3 : Q) (log : list cmd) :
  girder_ready parsers G self Ec inputs yt3 ->
  girder_range_free self girder_number log ->
  exists (rows : list (Z * (Q * Q * Q))) (beam_el : list Z) (log' : list cmd)
         (tags above : list Z),
    girder parsers tan_deg G self girder_number Ec Pe spacing log
    = Ok ((rows, beam_el), log')
    /\ getNodeTags log' = Ok (tags, log')
    /\ _get_girder_tags tags (1000 * girder_number + 1) (division_of self + 1)
       = inr (map fst rows)
    /\ (forall t, In t above -> (1000 * girder_number + division_of self + 1 < t)%Z)
    /\ (forall n_nodes : Z,
          (0 <= n_nodes)%Z ->
          _get_girder_tags tags (1000 * girder_number + 1) n_nodes
          = inr (take (Z.to_nat n_nodes) (map fst rows ++ above))).
Proof.
  intros Hready Hfree.
  assert (Hdiv : (1 <= division_of self)%Z) by apply Hready.
  destruct (girder_ready_spec parsers tan_deg G self girder_number Ec Pe spacing
              inputs yt3 log Hready Hfree) as (log' & E & Hn & _).
  set (rows := girder_line_nodes tan_deg self girder_number spacing yt3) in *.
  set (lo := (1000 * girder_number + 1)%Z).
  set (hi := (1000 * girder_number + division_of self + 1)%Z).
  set (olds := map fst (nodes_of log)).
  set (below := List.filter (fun t => t <? lo) (merge_sort Z.le olds)).
  set (above := List.filter (fun t => hi <? t) (merge_sort Z.le olds)).
  assert (Htags : map fst rows = map (girder_node_tag girder_number)
                                     (range 0 (division_of self + 1))).
  { unfold rows, girder_line_nodes. now rewrite map_map. }
  assert (Hrows : map fst rows
                  = (lo :: map (girder_node_tag girder_number)
                               (range 1 (division_of self + 1)))).
  { rewrite Htags, (range_cons 0) by lia. cbn [map]. f_equal.
    unfold girder_node_tag, lo. lia. }
  assert (Hlist : merge_sort Z.le (map fst (nodes_of log'))
                  = (below ++ map fst rows ++ above)%list).
  { rewrite Hn, map_app. apply (sorted_block olds (map fst rows) lo hi).
    - unfold lo, hi. lia.
    - intros t Ht Hr. apply (Hfree t Ht). unfold lo, hi in Hr. lia.
    - intros t Ht. rewrite Htags in Ht. apply in_map_iff in Ht as (j & <- & Hj).
      apply in_range in Hj. unfold girder_node_tag, lo, hi. lia.
    - rewrite Htags. apply girder_tags_sorted. }
  assert (Hbelow : ~ In lo below).
  { intros Hin. apply List.filter_In in Hin as [_ Hin]. apply Z.ltb_lt in Hin. lia. }
  assert (Hgen : forall n_nodes : Z,
            (0 <= n_nodes)%Z ->
            _get_girder_tags (below ++ map fst rows ++ above) lo n_nodes
            = inr (take (Z.to_nat n_nodes) (map fst rows ++ above))).
  { intros n_nodes Hn0. rewrite Hrows. cbn [app].
    apply (proj1 (proj2 (get_girder_tags_slice _ _ n_nodes Hn0)) below);
      [reflexivity | exact Hbelow]. }
  exists rows, (map (girder_node_tag girder_number) (range 0 (division_of self))), log'.
  exists (below ++ map fst rows ++ above)%list, above.
  split; [exact E|]. split; [unfold getNodeTags; now rewrite Hlist|].
  split; [|split; [|exact Hgen]].
  - rewrite (Hgen (division_of self + 1)%Z ltac:(lia)).
    rewrite take_app_length'; [reflexivity|].
    rewrite Htags, length_map, length_range. lia.
  - intros t Ht. apply List.filter_In in Ht as [_ Ht]. now apply Z.ltb_lt in Ht.
Qed.

Lemma girder_line_is_read_back_witness :
  exists (rows : list (Z * (Q * Q * Q))) (beam_el : list Z) (log' : list cmd)
         (tags above : list Z),
    girder no_strings tan_deg_sample Legacy.globals sample_bridge 3
      (PInt 28000) 600 (105 # 100) [Node 4001 0 0 0; Node 1001 0 0 0]
    = Ok ((rows, beam_el), log')
    /\ getNodeTags log' = Ok (tags, log')
    /\ _get_girder_tags tags (1000 * 3 + 1) (division_of sample_bridge + 1)
       = inr (map fst rows)
    /\ (forall t, In t above -> (1000 * 3 + division_of sample_bridge + 1 < t)%Z)
    /\ (forall n_nodes : Z,
          (0 <= n_nodes)%Z ->
          _get_girder_tags tags (1000 * 3 + 1) n_nodes
          = inr (take (Z.to_nat n_nodes) (map fst rows ++ above))).
Proof.
  destruct sample_girder_ready as (inputs & Hready & _).
  apply (girder_line_is_read_back no_strings tan_deg_sample Legacy.globals
           sample_bridge 3 (PInt 28000) 600 (105 # 100) inputs Legacy.yt3
           [Node 4001 0 0 0; Node 1001 0 0 0]).
  - exact Hready.
  - intros t Ht. change (division_of sample_bridge) with 148%Z.
    cbn in Ht. destruct Ht as [<-|[<-|[]]]; lia.
Defined.

End GirderTagsSpec.

(** ** The load history as a whole *)

Module LoadHistorySpec.
Import Py PyFacts MovingLoad.
Local Open Scope Q_scope.

(** The sum over the nodes of the samples stored at time step [it]. *)
Definition column_total (h : dict (list Q)) (it : nat) : Q :=
  fold_right (fun kv acc => default 0 (kv.2 !! it) + acc) 0 h.

(** Every history holds [n] samples. *)
Definition shape (n : nat) (h : dict (list Q)) : Prop :=
  Forall (fun kv => length kv.2 = n) h.

(** The test of line 122, [x_g[0] <= x_axle <= x_g[-1]]. *)
Definition on_span (x_g : list Q) (x_axle : Q) : bool :=
  match x_g !! 0%nat, last x_g with
  | Some x0, Some xl => Qleb x0 x_axle && Qleb x_axle xl
  | _, _ => false
  end.

(** The load that the axles of one lane put on the span when the truck has
    advanced by [progress]. *)
Definition lane_load (lane : nat -> bool) (x_g : list Q) (x_start progress : Q)
    (axles : list (nat * (Q * Q))) : Q :=
  fold_right (fun '(i_ax, (dist, load_val)) acc =>
                (if lane i_ax && on_span x_g (x_start - progress + dist)
                 then load_val else 0) + acc) 0 axles.

Lemma dict_get_in {V} (d : dict V) (k : Z) :
  In k (map fst d) -> is_Some (dict_get d k).
Proof.
  induction d as [|[k0 v0] d IH]; [intros []|]. cbn.
  destruct (Z.eqb_spec k0 k) as [->|Hne]; [now eexists|].
  intros [E|H]; [congruence | now apply IH].
Qed.

Lemma hist_add_closed (h : dict (list Q)) (nd : Z) (it : nat) (v : Q) (h' : dict (list Q)) :
  hist_add h nd it v = Ok h' ->
  exists arr old,
    dict_get h nd = Some arr /\ arr !! it = Some old
    /\ h' = dict_set h nd (<[it := old + v]> arr).
Proof.
  unfold hist_add, dict_item. destruct (dict_get h nd) as [arr|] eqn:Ea; [|discriminate].
  cbn. unfold getitem, setitem.
  destruct (Z.ltb_spec (Z.of_nat it) 0) as [|_]; [lia|].
  destruct (Z.leb_spec 0 (Z.of_nat it)) as [_|]; [|lia].
  destruct (Z.ltb_spec (Z.of_nat it) (Z.of_nat (length arr))) as [Hlt|Hge];
    [|intros H; discriminate H].
  cbn. rewrite Nat2Z.id.
  destruct (arr !! it) as [old|] eqn:Eo; [|intros H; discriminate H].
  cbn. intros H. injection H as <-. now exists arr, old.
Qed.

Lemma hist_add_defined (h : dict (list Q)) (nd : Z) (it : nat) (v : Q) (n : nat) :
  In nd (map fst h) -> shape n h -> (it < n)%nat -> exists h', hist_add h nd it v = Ok h'.
Proof.
  intros Hin Hs Hit.
  destruct (dict_get_in h nd Hin) as [arr Ea].
  assert (Hlen : length arr = n).
  { clear Hin. induction h as [|[k0 v0] h IH]; [discriminate|].
    cbn in Ea. apply Forall_cons in Hs as [H0 Hs].
    destruct (Z.eqb k0 nd); [injection Ea as <-; exact H0 | now apply IH]. }
  destruct (lookup_lt_is_Some_2 arr it) as [old Eo]; [lia|].
  unfold hist_add, dict_item. rewrite Ea. cbn.
  rewrite (getitem_lookup _ _ _ Eo). cbn.
  rewrite setitem_insert by lia. cbn. now eexists.
Qed.

Lemma dict_set_shape (n : nat) (h : dict (list Q)) (nd : Z) (arr : list Q) :
  shape n h -> length arr = n -> shape n (dict_set h nd arr).
Proof.
  unfold shape. intros Hs Hl. induction h as [|[k0 v0] h IH]; cbn.
  - now repeat constructor.
  - apply Forall_cons in Hs as [H0 Hs].
    destruct (Z.eqb k0 nd); constructor; auto.
Qed.

Lemma dict_get_shape (n : nat) (h : dict (list Q)) (nd : Z) (arr : list Q) :
  shape n h -> dict_get h nd = Some arr -> length arr = n.
Proof.
  intros Hs. induction h as [|[k0 v0] h IH]; [discriminate|].
  cbn. apply Forall_cons in Hs as [H0 Hs].
  destruct (Z.eqb k0 nd); [intros E; injection E as <-; exact H0 | now apply IH].
Qed.

Lemma column_total_dict_set (h : dict (list Q)) (nd : Z) (arr arr' : list Q) (it : nat) :
  dict_get h nd = Some arr ->
  column_total (dict_set h nd arr') it
  == column_total h it - default 0 (arr !! it) + default 0 (arr' !! it).
Proof.
  induction h as [|[k0 v0] h IH]; [discriminate|].
  cbn [dict_get dict_set]. destruct (Z.eqb k0 nd).
  - intros E. injection E as ->. unfold column_total. cbn [fold_right snd]. ring.
  - intros E. unfold column_total in *. cbn [fold_right snd]. rewrite (IH E). ring.
Qed.

(** One addition to a history: the keys and the lengths stay, the total of
    step [it] grows by [v], the totals of the other steps stay. *)
Lemma hist_add_effect (h : dict (list Q)) (nd : Z) (it : nat) (v : Q) (h' : dict (list Q)) :
  hist_add h nd it v = Ok h' ->
  map fst h' = map fst h
  /\ (forall n, shape n h -> shape n h')
  /\ column_total h' it == column_total h it + v
  /\ (forall it', it' <> it -> column_total h' it' == column_total h it').
Proof.
  intros H. destruct (hist_add_closed _ _ _ _ _ H) as (arr & old & Ea & Eo & ->).
  split; [apply dict_set_keys; exists arr; exact Ea|]. split; [|split].
  - intros n Hs. apply dict_set_shape; [exact Hs|].
    rewrite length_insert. now apply (dict_get_shape n h nd).
  - rewrite (column_total_dict_set h nd arr _ it Ea).
    rewrite Eo, list_lookup_insert_eq by (now apply lookup_lt_Some in Eo). cbn. ring.
  - intros it' Hne. rewrite (column_total_dict_set h nd arr _ it' Ea).
    rewrite list_lookup_insert_ne by congruence. ring.
Qed.

Section OneLine.

Context (x_g : list Q) (girder : list Z).
Context (H_sorted : StronglySorted Qlt x_g).
Context (H_length : length girder = length x_g).
Context (H_two : (2 <= length x_g)%nat).

(** One axle at one time step: the update is defined, keeps the keys and the
    lengths, and adds the axle load to the total of the step exactly when
    the axle is on the span. *)
Lemma axle_update_effect (h : dict (list Q)) (n it : nat) (x load_val : Q) :
  (forall nd, In nd girder -> In nd (map fst h)) -> shape n h -> (it < n)%nat ->
  exists h',
    axle_update x_g girder h it x load_val = Ok h'
    /\ map fst h' = map fst h
    /\ shape n h'
    /\ column_total h' it
       == column_total h it + (if on_span x_g x then load_val else 0)
    /\ (forall it', it' <> it -> column_total h' it' == column_total h it').
Proof.
  intros Hcov Hs Hit.
  destruct (MovingLoadSpec.first_last_exist x_g) as (x0 & xl & H0 & Hl); [lia|].
  unfold axle_update, on_span. rewrite H0, Hl.
  change 0%Z with (Z.of_nat 0) at 1.
  rewrite (getitem_lookup _ 0%nat _ H0). cbn [mbind result_bind].
  rewrite (getitem_last _ _ Hl). cbn [mbind result_bind].
  destruct (Qleb x0 x && Qleb x xl).
  2: { exists h. split; [reflexivity|]. split; [reflexivity|]. split; [exact Hs|].
       split; [ring | reflexivity]. }
  destruct (MovingLoadSpec.axle_bracket_defined x_g girder x H_sorted H_length H_two)
    as (idx & xi & xj & nd_i & nd_j & _ & _ & Hni & Hnj & _ & _ & ->).
  cbn [mbind result_bind].
  set (r := (x - xi) / (xj - xi)).
  destruct (hist_add_defined h nd_i it (load_val * (1 - r)) n) as (h1 & E1); auto.
  { apply Hcov. eapply list_elem_of_In, list_elem_of_lookup_2, Hni. }
  destruct (hist_add_effect _ _ _ _ _ E1) as (K1 & S1 & T1 & O1).
  destruct (hist_add_defined h1 nd_j it (load_val * r) n) as (h2 & E2); auto.
  { rewrite K1. apply Hcov. eapply list_elem_of_In, list_elem_of_lookup_2, Hnj. }
  destruct (hist_add_effect _ _ _ _ _ E2) as (K2 & S2 & T2 & O2).
  exists h2. rewrite E1. cbn [mbind result_bind]. split; [exact E2|].
  split; [congruence|]. split; [auto|]. split.
  - rewrite T2, T1. ring.
  - intros it' Hne. rewrite (O2 it' Hne). now apply O1.
Qed.

End OneLine.


(** *** The initial histories *)

Lemma dict_set_keys_in {V} (d : dict V) (k k' : Z) (v : V) :
  In k' (map fst (dict_set d k v)) <-> k' = k \/ In k' (map fst d).
Proof.
  induction d as [|[k0 v0] d IH]; cbn.
  - intuition.
  - destruct (Z.eqb_spec k0 k) as [->|Hne]; cbn; [intuition|].
    rewrite IH. intuition.
Qed.

Lemma dict_set_fresh {V} (d : dict V) (k : Z) (v : V) :
  ~ In k (map fst d) -> dict_set d k v = (d ++ [(k, v)])%list.
Proof.
  induction d as [|[k0 v0] d IH]; cbn; [reflexivity|].
  intros Hn. destruct (Z.eqb_spec k0 k) as [->|Hne]; [tauto|].
  rewrite IH; [reflexivity | tauto].
Qed.

Lemma init_history_from (girder : list Z) (n : nat) (d : dict (list Q)) :
  Forall (fun kv => kv.2 = replicate n 0) d ->
  let h := fold_left (fun d nd => dict_set d nd (replicate n 0)) girder d in
  Forall (fun kv => kv.2 = replicate n 0) h
  /\ (forall nd, In nd (map fst h) <-> In nd (map fst d) \/ In nd girder)
  /\ (List.NoDup girder -> (forall nd, In nd girder -> ~ In nd (map fst d)) ->
      map fst h = (map fst d ++ girder)%list).
Proof.
  revert d. induction girder as [|g girder IH]; intros d Hd; cbn.
  - split; [exact Hd|]. split; [intuition|]. intros _ _. now rewrite app_nil_r.
  - assert (Hd' : Forall (fun kv => kv.2 = replicate n 0) (dict_set d g (replicate n 0))).
    { clear IH. induction d as [|[k0 v0] d IHd]; cbn; [now repeat constructor|].
      apply Forall_cons in Hd as [H0 Hd].
      destruct (Z.eqb k0 g); constructor; auto. }
    destruct (IH _ Hd') as (F & K & N). split; [exact F|]. split.
    + intros nd. rewrite K, dict_set_keys_in. intuition.
    + intros Hnd Hfresh. apply NoDup_cons_iff in Hnd as [Hg Hnd].
      rewrite N; [|exact Hnd|].
      * rewrite dict_set_fresh by (apply Hfresh; now left).
        rewrite map_app, <- app_assoc. reflexivity.
      * intros nd Hin. rewrite dict_set_keys_in. intros [->|H]; [contradiction|].
        apply (Hfresh nd); [now right | exact H].
Qed.

Lemma init_history_spec (girder : list Z) (n : nat) :
  shape n (init_history girder n)
  /\ (forall nd, In nd girder -> In nd (map fst (init_history girder n)))
  /\ (forall it, column_total (init_history girder n) it == 0)
  /\ (List.NoDup girder -> map fst (init_history girder n) = girder).
Proof.
  destruct (init_history_from girder n [] (List.Forall_nil _)) as (F & K & N).
  fold (init_history girder n) in F, K, N.
  split; [|split; [|split]].
  - unfold shape. eapply Forall_impl; [exact F|].
    intros [k v] E. cbn in *. rewrite E. apply length_replicate.
  - intros nd H. apply K. now right.
  - intros it. clear K N. induction F as [|[k v] h E F IH]; [reflexivity|].
    unfold column_total in *. cbn [fold_right snd] in *. rewrite IH. cbn in E. rewrite E.
    destruct (replicate n 0 !! it) as [q|] eqn:Eq; cbn; [|ring].
    apply lookup_replicate in Eq as [-> _]. ring.
  - intros Hnd. apply N; [exact Hnd | intros nd _ []].
Qed.

(** *** The two loops of the generation *)

Section Generation.

Context (x_g3 x_g4 : list Q) (girder3 girder4 : list Z).
Context (H_sorted3 : StronglySorted Qlt x_g3) (H_sorted4 : StronglySorted Qlt x_g4).
Context (H_length3 : length girder3 = length x_g3).
Context (H_length4 : length girder4 = length x_g4).
Context (H_two3 : (2 <= length x_g3)%nat) (H_two4 : (2 <= length x_g4)%nat).
Context (speed x_start_g3 x_start_g4 : Q).

(** Axles 0-2 run on girder line 3, the others on girder line 4. *)
Definition lane3 (i_ax : nat) : bool := (i_ax <? 3)%nat.
Definition lane4 (i_ax : nat) : bool := negb (i_ax <? 3)%nat.

Definition axle_loop (it : nat) (progress : Q) (hs : dict (list Q) * dict (list Q))
    (axles : list (nat * (Q * Q))) : result (dict (list Q) * dict (list Q)) :=
  foldM (fun '(h3, h4) '(i_ax, (dist, load_val)) =>
      if (i_ax <? 3)%nat then
        h3' ← axle_update x_g3 girder3 h3 it (x_start_g3 - progress + dist) load_val;
        Ok (h3', h4)
      else
        h4' ← axle_update x_g4 girder4 h4 it (x_start_g4 - progress + dist) load_val;
        Ok (h3, h4'))
    hs axles.

(** The histories hold the nodes of their girder line and [n] samples per
    node. *)
Definition ready (n : nat) (hs : dict (list Q) * dict (list Q)) : Prop :=
  (forall nd, In nd girder3 -> In nd (map fst hs.1)) /\ shape n hs.1
  /\ (forall nd, In nd girder4 -> In nd (map fst hs.2)) /\ shape n hs.2.

(** [hs'] has the keys of [hs], and its step totals differ from those of
    [hs] by [d3 it] and [d4 it]. *)
Definition advanced (hs hs' : dict (list Q) * dict (list Q)) (d3 d4 : nat -> Q) : Prop :=
  map fst hs'.1 = map fst hs.1 /\ map fst hs'.2 = map fst hs.2
  /\ (forall it, column_total hs'.1 it == column_total hs.1 it + d3 it)
  /\ (forall it, column_total hs'.2 it == column_total hs.2 it + d4 it).

Lemma ready_advanced (n : nat) (hs hs' : dict (list Q) * dict (list Q)) (d3 d4 : nat -> Q) :
  ready n hs -> advanced hs hs' d3 d4 -> shape n hs'.1 -> shape n hs'.2 -> ready n hs'.
Proof.
  intros (C3 & _ & C4 & _) (K3 & K4 & _) S3 S4.
  split; [intros nd H; rewrite K3; now apply C3|]. split; [exact S3|].
  split; [intros nd H; rewrite K4; now apply C4 | exact S4].
Qed.

Lemma axle_loop_effect (n it : nat) (progress : Q) (axles : list (nat * (Q * Q)))
    (hs : dict (list Q) * dict (list Q)) :
  ready n hs -> (it < n)%nat ->
  exists hs',
    axle_loop it progress hs axles = Ok hs'
    /\ ready n hs'
    /\ advanced hs hs'
         (fun it' => if (it' =? it)%nat
                     then lane_load lane3 x_g3 x_start_g3 progress axles else 0)
         (fun it' => if (it' =? it)%nat
                     then lane_load lane4 x_g4 x_start_g4 progress axles else 0).
Proof.
  intros Hr Hit. revert hs Hr.
  induction axles as [|[i_ax [dist load_val]] axles IH]; intros [h3 h4] Hr.
  - exists (h3, h4). split; [reflexivity|]. split; [exact Hr|].
    split; [reflexivity|]. split; [reflexivity|].
    split; intros it'; cbn; destruct (it' =? it)%nat; ring.
  - destruct Hr as (C3 & S3 & C4 & S4). cbn [fst snd] in *.
    unfold axle_loop. cbn [foldM]. unfold lane_load. cbn [fold_right].
    fold (lane_load lane3 x_g3 x_start_g3 progress axles).
    fold (lane_load lane4 x_g4 x_start_g4 progress axles).
    unfold lane3 at 1, lane4 at 1.
    destruct (i_ax <? 3)%nat eqn:El.
    + destruct (axle_update_effect x_g3 girder3 H_sorted3 H_length3 H_two3 h3 n it
                  (x_start_g3 - progress + dist) load_val C3 S3 Hit)
        as (h3' & E & K & S & T & O).
      rewrite E. cbn [mbind result_bind].
      destruct (IH (h3', h4)) as (hs' & E' & Hr' & (K3 & K4 & T3 & T4)).
      { unfold ready. cbn [fst snd].
        split; [intros nd H; rewrite K; now apply C3|]. repeat split; auto. }
      exists hs'. split; [exact E'|]. split; [exact Hr'|].
      unfold advanced. cbn [fst snd] in *.
      split; [congruence|]. split; [exact K4|]. split.
      * intros it'. rewrite T3. destruct (Nat.eqb_spec it' it) as [->|Hne].
        -- rewrite T. cbn [andb negb]. ring.
        -- rewrite (O it' Hne). ring.
      * intros it'. rewrite T4. destruct (it' =? it)%nat; cbn [andb negb]; ring.
    + destruct (axle_update_effect x_g4 girder4 H_sorted4 H_length4 H_two4 h4 n it
                  (x_start_g4 - progress + dist) load_val C4 S4 Hit)
        as (h4' & E & K & S & T & O).
      rewrite E. cbn [mbind result_bind].
      destruct (IH (h3, h4')) as (hs' & E' & Hr' & (K3 & K4 & T3 & T4)).
      { unfold ready. cbn [fst snd]. split; [exact C3|]. split; [exact S3|].
        split; [intros nd H; rewrite K; now apply C4 | exact S]. }
      exists hs'. split; [exact E'|]. split; [exact Hr'|].
      unfold advanced. cbn [fst snd] in *.
      split; [exact K3|]. split; [congruence|]. split.
      * intros it'. rewrite T3. destruct (it' =? it)%nat; cbn [andb negb]; ring.
      * intros it'. rewrite T4. destruct (Nat.eqb_spec it' it) as [->|Hne].
        -- rewrite T. cbn [andb negb]. ring.
        -- rewrite (O it' Hne). ring.
Qed.

Context (distances loads : list Q).

Definition step_loop (hs : dict (list Q) * dict (list Q)) (steps : list (nat * Q))
  : result (dict (list Q) * dict (list Q)) :=
  foldM (fun hs '(it, t) =>
           axle_loop it (speed * t) hs (enumerate (combine distances loads)))
        hs steps.

(** The load on lane 3 (lane 4) at the step numbered [it] of [steps]. *)
Fixpoint step_load (lane : nat -> bool) (x_g : list Q) (x_start : Q)
    (steps : list (nat * Q)) (it : nat) : Q :=
  match steps with
  | [] => 0
  | (it0, t) :: steps' =>
      (if (it =? it0)%nat
       then lane_load lane x_g x_start (speed * t) (enumerate (combine distances loads))
       else 0) + step_load lane x_g x_start steps' it
  end.

Lemma step_loop_effect (n : nat) (steps : list (nat * Q))
    (hs : dict (list Q) * dict (list Q)) :
  ready n hs -> Forall (fun s => (s.1 < n)%nat) steps ->
  exists hs',
    step_loop hs steps = Ok hs'
    /\ ready n hs'
    /\ advanced hs hs' (step_load lane3 x_g3 x_start_g3 steps)
                       (step_load lane4 x_g4 x_start_g4 steps).
Proof.
  intros Hr Hs. revert hs Hr. induction Hs as [|[it t] steps Hit Hs IH]; intros hs Hr.
  - exists hs. split; [reflexivity|]. split; [exact Hr|].
    split; [reflexivity|]. split; [reflexivity|]. split; intros it'; cbn; ring.
  - cbn [fst] in Hit. unfold step_loop. cbn [foldM].
    destruct (axle_loop_effect n it (speed * t) (enumerate (combine distances loads)) hs Hr Hit)
      as (hs1 & E1 & Hr1 & (K3 & K4 & T3 & T4)).
    rewrite E1. cbn [mbind result_bind].
    destruct (IH hs1 Hr1) as (hs' & E' & Hr' & (K3' & K4' & T3' & T4')).
    exists hs'. split; [exact E'|]. split; [exact Hr'|].
    split; [congruence|]. split; [congruence|].
    split; intros it'; cbn [step_load]; [rewrite T3', T3 | rewrite T4', T4]; ring.
Qed.

Lemma load_history_generation_unfold (time_steps : list Q) (h3 h4 : dict (list Q)) :
  load_history_generation time_steps speed distances loads x_g3 girder3 x_g4 girder4
    x_start_g3 x_start_g4 h3 h4
  = step_loop (h3, h4) (enumerate time_steps).
Proof.
  unfold load_history_generation, step_loop, axle_loop.
  generalize (enumerate time_steps). intros steps. revert h3 h4.
  induction steps as [|[it t] steps IH]; intros h3 h4; [reflexivity|].
  cbn [foldM].
  match goal with
  | |- (?a ≫= _) = (?b ≫= _) => change a with b; destruct b as [[h3' h4']|e]
  end; [|reflexivity].
  cbn [mbind result_bind]. apply IH.
Qed.

Lemma step_load_enumerate (lane : nat -> bool) (x_g : list Q) (x_start : Q)
    (time_steps : list Q) (k it : nat) :
  step_load lane x_g x_start (combine (seq k (length time_steps)) time_steps) it
  == match (if (k <=? it)%nat then time_steps !! (it - k)%nat else None) with
     | Some t => lane_load lane x_g x_start (speed * t) (enumerate (combine distances loads))
     | None => 0
     end.
Proof.
  clear H_sorted3 H_sorted4 H_length3 H_length4 H_two3 H_two4.
  revert k. induction time_steps as [|t ts IH]; intros k.
  - cbn. destruct (k <=? it)%nat; reflexivity.
  - cbn [length seq combine step_load]. rewrite IH.
    destruct (Nat.eqb_spec it k) as [->|Hne].
    + rewrite Nat.leb_refl, Nat.sub_diag. cbn [lookup list_lookup].
      destruct (Nat.leb_spec (S k) k); [lia|]. ring.
    + destruct (Nat.leb_spec k it) as [Hle|Hgt].
      * destruct (Nat.leb_spec (S k) it) as [_|]; [|lia].
        replace (it - k)%nat with (S (it - S k)) by lia. cbn [lookup list_lookup].
        apply Qplus_0_l.
      * destruct (Nat.leb_spec (S k) it) as [|_]; [lia|]. ring.
Qed.

End Generation.


Lemma enumerate_steps_below (time_steps : list Q) :
  Forall (fun s : nat * Q => (s.1 < length time_steps)%nat) (enumerate time_steps).
Proof.
  apply List.Forall_forall. intros [it t] Hin. unfold enumerate in Hin.
  apply in_combine_l, in_seq in Hin. cbn. lia.
Qed.

Lemma load_history_effect
    (time_steps : list Q) (speed : Q) (distances loads : list Q)
    (x_g3 : list Q) (girder3 : list Z) (x_g4 : list Q) (girder4 : list Z)
    (x_start_g3 x_start_g4 : Q) :
  StronglySorted Qlt x_g3 -> StronglySorted Qlt x_g4 ->
  length girder3 = length x_g3 -> length girder4 = length x_g4 ->
  (2 <= length x_g3)%nat -> (2 <= length x_g4)%nat ->
  let n := length time_steps in
  exists h3 h4,
    load_history_generation time_steps speed distances loads x_g3 girder3 x_g4 girder4
      x_start_g3 x_start_g4 (init_history girder3 n) (init_history girder4 n)
    = Ok (h3, h4)
    /\ map fst h3 = map fst (init_history girder3 n)
    /\ map fst h4 = map fst (init_history girder4 n)
    /\ shape n h3 /\ shape n h4
    /\ (forall it t, time_steps !! it = Some t ->
          column_total h3 it
          == lane_load lane3 x_g3 x_start_g3 (speed * t) (enumerate (combine distances loads))
          /\ column_total h4 it
             == lane_load lane4 x_g4 x_start_g4 (speed * t)
                  (enumerate (combine distances loads))).
Proof.
  intros Hs3 Hs4 Hl3 Hl4 H23 H24 n.
  destruct (init_history_spec girder3 n) as (S3 & C3 & Z3 & _).
  destruct (init_history_spec girder4 n) as (S4 & C4 & Z4 & _).
  rewrite load_history_generation_unfold.
  destruct (step_loop_effect x_g3 x_g4 girder3 girder4 Hs3 Hs4 Hl3 Hl4 H23 H24
              speed x_start_g3 x_start_g4 distances loads n (enumerate time_steps)
              (init_history girder3 n, init_history girder4 n))
    as ([h3 h4] & E & (_ & S3' & _ & S4') & (K3 & K4 & T3 & T4)).
  { repeat split; assumption. }
  { apply enumerate_steps_below. }
  cbn [fst snd] in *. exists h3, h4. split; [exact E|].
  split; [exact K3|]. split; [exact K4|]. split; [exact S3'|]. split; [exact S4'|].
  intros it t Ht. rewrite T3, T4, Z3, Z4. unfold enumerate at 1 3.
  rewrite !step_load_enumerate. cbn [Nat.leb]. rewrite Nat.sub_0_r, Ht.
  split; apply Qplus_0_l.
Qed.

(** The generation of the load histories runs to its end: on two girder
    lines of at least two nodes each, with strictly increasing coordinates,
    it returns histories for exactly the nodes it started from, in the same
    order, each with one sample per time step. *)
Theorem load_history_keeps_nodes_and_lengths
    (time_steps : list Q) (speed : Q) (distances loads : list Q)
    (x_g3 : list Q) (girder3 : list Z) (x_g4 : list Q) (girder4 : list Z)
    (x_start_g3 x_start_g4 : Q) :
  StronglySorted Qlt x_g3 -> StronglySorted Qlt x_g4 ->
  length girder3 = length x_g3 -> length girder4 = length x_g4 ->
  (2 <= length x_g3)%nat -> (2 <= length x_g4)%nat ->
  List.NoDup girder3 -> List.NoDup girder4 ->
  let n := length time_steps in
  exists h3 h4,
    load_history_generation time_steps speed distances loads x_g3 girder3 x_g4 girder4
      x_start_g3 x_start_g4 (init_history girder3 n) (init_history girder4 n)
    = Ok (h3, h4)
    /\ map fst h3 = girder3 /\ map fst h4 = girder4
    /\ Forall (fun kv => length kv.2 = n) h3
    /\ Forall (fun kv => length kv.2 = n) h4.
Proof.
  intros Hs3 Hs4 Hl3 Hl4 H23 H24 Hn3 Hn4 n.
  destruct (load_history_effect time_steps speed distances loads x_g3 girder3 x_g4 girder4
              x_start_g3 x_start_g4 Hs3 Hs4 Hl3 Hl4 H23 H24)
    as (h3 & h4 & E & K3 & K4 & S3 & S4 & _).
  exists h3, h4. split; [exact E|].
  destruct (init_history_spec girder3 n) as (_ & _ & _ & N3).
  destruct (init_history_spec girder4 n) as (_ & _ & _ & N4).
  fold n in K3, K4. rewrite (N3 Hn3) in K3. rewrite (N4 Hn4) in K4.
  repeat split; assumption.
Qed.

Lemma load_history_keeps_nodes_and_lengths_witness :
  exists h3 h4,
    load_history_generation [0; 1 # 10; 2 # 10] 10000
      [0; 3300; 4600; 0; 3300; 4600] [30650; 57350; 55410; 30650; 57350; 55410]
      [0; 200; 400] [3001; 3002; 3003]%Z [100; 300; 500] [4001; 4002; 4003]%Z
      400 500 (init_history [3001; 3002; 3003]%Z 3) (init_history [4001; 4002; 4003]%Z 3)
    = Ok (h3, h4)
    /\ map fst h3 = [3001; 3002; 3003]%Z /\ map fst h4 = [4001; 4002; 4003]%Z
    /\ Forall (fun kv => length kv.2 = 3%nat) h3
    /\ Forall (fun kv => length kv.2 = 3%nat) h4.
Proof.
  apply (load_history_keeps_nodes_and_lengths [0; 1 # 10; 2 # 10] 10000
           [0; 3300; 4600; 0; 3300; 4600] [30650; 57350; 55410; 30650; 57350; 55410]
           [0; 200; 400] [3001; 3002; 3003]%Z [100; 300; 500] [4001; 4002; 4003]%Z
           400 500).
  - repeat constructor.
  - repeat constructor.
  - reflexivity.
  - reflexivity.
  - cbn. lia.
  - cbn. lia.
  - repeat constructor; cbn; intuition lia.
  - repeat constructor; cbn; intuition lia.
Defined.

End LoadHistorySpec.

(** ** Edge cases of the moving-load analysis *)

Module MovingLoadEdgeSpec.
Import Py PyFacts MovingLoad.
Local Open Scope Q_scope.

(** On a girder line of one node the clamped bracket index is [-1], the
    bracket is the node with itself, and an axle standing on the node
    divides by a bracket width of zero; an axle elsewhere is off the span
    and changes nothing. *)
Theorem axle_update_on_a_one_node_line
    (h : dict (list Q)) (it : nat) (x load_val x0 : Q) (nd : Z) :
  (x == x0 -> axle_update [x0] [nd] h it x load_val = Raise NonFinite)
  /\ (~ x == x0 -> axle_update [x0] [nd] h it x load_val = Ok h).
Proof.
  split.
  - intros E. unfold axle_update.
    change (getitem [x0] 0) with (Ok x0). change (getitem [x0] (-1)) with (Ok x0).
    cbn [mbind result_bind].
    assert (H1 : Qleb x0 x = true) by (apply Qleb_le; rewrite E; apply Qle_refl).
    assert (H2 : Qleb x x0 = true) by (apply Qleb_le; rewrite E; apply Qle_refl).
    rewrite H1, H2. cbn [andb].
    unfold axle_bracket. cbn [searchsorted length].
    assert (Hlt : Qltb x0 x = false) by (apply Qltb_ge; rewrite E; apply Qle_refl).
    rewrite Hlt.
    change (np_clip (0 - 1) 0 (Z.of_nat 1 - 2)) with (-1)%Z.
    change (getitem [x0] (-1)) with (Ok x0). change (getitem [x0] (-1 + 1)) with (Ok x0).
    change (getitem [nd] (-1)) with (Ok nd). change (getitem [nd] (-1 + 1)) with (Ok nd).
    cbn [mbind result_bind].
    rewrite np_div_zero by ring. reflexivity.
  - intros Hne. unfold axle_update.
    change (getitem [x0] 0) with (Ok x0). change (getitem [x0] (-1)) with (Ok x0).
    cbn [mbind result_bind].
    destruct (Qleb x0 x) eqn:H1; [|reflexivity].
    destruct (Qleb x x0) eqn:H2; [|reflexivity].
    apply Qleb_le in H1, H2. exfalso. apply Hne. now apply Qle_antisym.
Qed.

Lemma axle_update_on_a_one_node_line_witness :
  axle_update [100] [3001%Z] [(3001%Z, [0])] 0 100 30650 = Raise NonFinite
  /\ axle_update [100] [3001%Z] [(3001%Z, [0])] 0 250 30650 = Ok [(3001%Z, [0])].
Proof.
  split.
  - apply (axle_update_on_a_one_node_line [(3001%Z, [0])] 0 100 30650 100 3001).
    reflexivity.
  - apply (axle_update_on_a_one_node_line [(3001%Z, [0])] 0 250 30650 100 3001).
    intros E. discriminate E.
Defined.

Section DampingEdges.

Variable sqrt : Q -> Q.

(** Where the Rayleigh coefficients are not computed: without eigenvalues
    the first subscript raises [IndexError]; a negative first or second
    selected eigenvalue has no real square root, and frequencies that add up
    to zero divide by zero: numpy then yields [nan] or [inf], not a
    number. *)
Theorem rayleigh_setup_failures (eigen_value : list Q) (zeta e1 e3 : Q) :
  rayleigh_setup sqrt [] zeta = Raise IndexError
  /\ (eigen_value !! 0%nat = Some e1 ->
      (eigen_value !! 2%nat = Some e3
       \/ ((length eigen_value < 3)%nat /\ last eigen_value = Some e3)) ->
      e1 < 0 \/ e3 < 0 \/ (0 <= e1 /\ 0 <= e3 /\ sqrt e1 + sqrt e3 == 0) ->
      rayleigh_setup sqrt eigen_value zeta = Raise NonFinite).
Proof.
  split; [reflexivity|]. intros H1 H3 Hbad.
  destruct (MovingLoadSpec.second_mode_index sqrt eigen_value e3 H3) as (k & Hk & Hk3).
  unfold rayleigh_setup. rewrite Hk.
  change 0%Z with (Z.of_nat 0) at 1.
  rewrite (MovingLoadSpec.getitem_map_lookup _ _ _ _ H1),
          (MovingLoadSpec.getitem_map_lookup _ _ _ _ Hk3).
  cbn [mjoin_result]. unfold np_sqrt.
  destruct (Qltb e1 0) eqn:E1; [reflexivity|]. cbn [mbind result_bind].
  destruct (Qltb e3 0) eqn:E3; [reflexivity|]. cbn [mbind result_bind].
  apply Qltb_ge in E1, E3.
  destruct Hbad as [Hb|[Hb|(_ & _ & Hz)]]; [lra | lra |].
  rewrite !np_div_zero by exact Hz. reflexivity.
Qed.

End DampingEdges.

Lemma rayleigh_setup_failures_witness :
  let sqrt := fun q : Q => inject_Z (Z.sqrt (Qfloor q)) in
  rayleigh_setup sqrt [] (15 # 1000) = Raise IndexError
  /\ rayleigh_setup sqrt [0; 4; 0] (15 # 1000) = Raise NonFinite
  /\ rayleigh_setup sqrt [4; -9] (15 # 1000) = Raise NonFinite.
Proof.
  intros sqrt. split; [|split].
  - apply (rayleigh_setup_failures sqrt [] (15 # 1000) 0 0).
  - apply (rayleigh_setup_failures sqrt [0; 4; 0] (15 # 1000) 0 0).
    + reflexivity.
    + left. reflexivity.
    + right. right. split; [discriminate|]. split; [discriminate | reflexivity].
  - apply (rayleigh_setup_failures sqrt [4; -9] (15 # 1000) 4 (-9)).
    + reflexivity.
    + right. split; [cbn; lia | reflexivity].
    + right. left. reflexivity.
Defined.

(** *** Tags of the path series *)

(** The tags of the time series and of the load patterns among the commands
    sent. *)
Definition series_tags (cmds : list Ops.cmd) : list Z :=
  flat_map (fun c => match c with Ops.TimeSeriesPath t _ _ _ => [t] | _ => [] end) cmds.

Definition pattern_tags (cmds : list Ops.cmd) : list Z :=
  flat_map (fun c => match c with Ops.PatternPlain t _ => [t] | _ => [] end) cmds.

(** The nodes whose history is not pruned. *)
Definition submitted (h : dict (list Q)) : list Z :=
  map fst (List.filter (fun kv => negb (allclose kv.2 0)) h).

Lemma tags_of_pathseries (dt : Q) (h : dict (list Q)) (girder_id : Z) :
  series_tags (create_pathseries_from_history dt h girder_id)
  = map (fun nd => (1000 * girder_id + nd)%Z) (submitted h)
  /\ pattern_tags (create_pathseries_from_history dt h girder_id)
     = map (fun nd => (2000 * girder_id + nd)%Z) (submitted h).
Proof.
  unfold create_pathseries_from_history, submitted.
  induction h as [|[nd values] h [IH1 IH2]]; [split; reflexivity|].
  cbn [flat_map List.filter snd]. unfold series_tags, pattern_tags in *.
  rewrite !flat_map_app, IH1, IH2.
  destruct (allclose values 0); split; reflexivity.
Qed.

Lemma submitted_in (h : dict (list Q)) (nd : Z) :
  In nd (submitted h) -> In nd (map fst h).
Proof.
  unfold submitted. rewrite !in_map_iff. intros (kv & E & Hin).
  apply filter_In in Hin as [Hin _]. now exists kv.
Qed.

Lemma submitted_NoDup (h : dict (list Q)) :
  List.NoDup (map fst h) -> List.NoDup (submitted h).
Proof.
  unfold submitted. induction h as [|[nd values] h IH]; [constructor|].
  cbn [map fst List.filter snd].
  intros Hnd. apply NoDup_cons_iff in Hnd as [Hn Hnd].
  destruct (allclose values 0); cbn [negb map fst]; [now apply IH|].
  constructor; [|now apply IH].
  intros Hin. apply Hn. now apply submitted_in.
Qed.

Lemma NoDup_map_add (c : Z) (l : list Z) :
  List.NoDup l -> List.NoDup (map (fun nd => (c + nd)%Z) l).
Proof.
  induction 1 as [|x l Hx H IH]; cbn; constructor; [|exact IH].
  rewrite in_map_iff. intros (y & E & Hy). replace y with x in Hy by lia. contradiction.
Qed.

Lemma NoDup_app_disjoint (l1 l2 : list Z) :
  List.NoDup l1 -> List.NoDup l2 -> (forall t, In t l1 -> ~ In t l2) ->
  List.NoDup (l1 ++ l2).
Proof.
  intros H1 H2 Hd. induction H1 as [|x l1 Hx H1 IH]; cbn; [exact H2|].
  constructor.
  - rewrite in_app_iff. intros [Hin|Hin]; [contradiction|].
    apply (Hd x); [now left | exact Hin].
  - apply IH. intros t Ht. apply Hd. now right.
Qed.

(** The path series and the load patterns of the two girder lines get
    pairwise distinct tags, provided each history has one entry per node,
    no node of line 3 has the tag of a node of line 4 plus 1000 (the time
    series tags are [3000 + nd] and [4000 + nd]) and none has that tag plus
    2000 (the pattern tags are [6000 + nd] and [8000 + nd]). *)
Theorem pathseries_tags_are_distinct (dt : Q) (h3 h4 : dict (list Q)) :
  List.NoDup (map fst h3) -> List.NoDup (map fst h4) ->
  (forall nd3 nd4, In nd3 (map fst h3) -> In nd4 (map fst h4) ->
                   nd3 <> (nd4 + 1000)%Z /\ nd3 <> (nd4 + 2000)%Z) ->
  List.NoDup (series_tags (create_pathseries dt h3 h4))
  /\ List.NoDup (pattern_tags (create_pathseries dt h3 h4)).
Proof.
  intros H3 H4 Hd. unfold create_pathseries.
  destruct (tags_of_pathseries dt h3 3) as [S3 P3].
  destruct (tags_of_pathseries dt h4 4) as [S4 P4].
  unfold series_tags, pattern_tags in *. rewrite !flat_map_app, S3, S4, P3, P4.
  split; apply NoDup_app_disjoint;
    try (apply NoDup_map_add; now apply submitted_NoDup).
  - intros t Ht3 Ht4. apply in_map_iff in Ht3 as (nd3 & <- & Hin3).
    apply in_map_iff in Ht4 as (nd4 & E & Hin4).
    destruct (Hd nd3 nd4 (submitted_in _ _ Hin3) (submitted_in _ _ Hin4)). lia.
  - intros t Ht3 Ht4. apply in_map_iff in Ht3 as (nd3 & <- & Hin3).
    apply in_map_iff in Ht4 as (nd4 & E & Hin4).
    destruct (Hd nd3 nd4 (submitted_in _ _ Hin3) (submitted_in _ _ Hin4)). lia.
Qed.

Lemma pathseries_tags_are_distinct_witness :
  List.NoDup (series_tags (create_pathseries (1 # 10)
                [(3001%Z, [0; 12]); (3002%Z, [0; 0])] [(4001%Z, [5; 0])]))
  /\ List.NoDup (pattern_tags (create_pathseries (1 # 10)
                   [(3001%Z, [0; 12]); (3002%Z, [0; 0])] [(4001%Z, [5; 0])])).
Proof.
  apply (pathseries_tags_are_distinct (1 # 10)
           [(3001%Z, [0; 12]); (3002%Z, [0; 0])] [(4001%Z, [5; 0])]).
  - repeat constructor; cbn; intuition lia.
  - repeat constructor; cbn; intuition lia.
  - cbn. intros nd3 nd4 [<-|[<-|[]]] [<-|[]]; lia.
Defined.

(** With start tags 1000 apart the other way round, the two lines share
    their time series tags. *)
Example swapped_start_tags_share_series_tags :
  series_tags (create_pathseries (1 # 10) [(5001%Z, [1])] [(4001%Z, [1])])
  = [8001; 8001]%Z.
Proof. reflexivity. Qed.

End MovingLoadEdgeSpec.
